(** * harada: growth ledger, unified log and shine dialog

    A shallow embedding of [src/ui/leaf-view.ts] (both the current file and
    its earlier origin-chaining revision) and of
    [src/features/shine-dialog.ts], with the ECMAScript built-ins they call
    ([Array.prototype.sort], [String.prototype.trim], the [Date] time
    algorithms) written out from ECMA-262. *)

From Stdlib Require Import ZArith List String Ascii Bool Lia Permutation Sorted.
From stdpp Require Import base option list strings gmap.
Import ListNotations.

Local Open Scope string_scope.
Local Open Scope list_scope.
Local Open Scope Z_scope.

(** ** A state-and-exception monad for the imperative code

    [M S A] is a computation over a mutable world [S] that returns an [A] or
    throws ([None], a JavaScript exception); the world reached is kept in
    both cases, as an exception undoes nothing. *)
Module Eff.

Definition M (S A : Type) : Type := S -> option A * S.

Definition ret {S A : Type} (a : A) : M S A := fun w => (Some a, w).

Definition bind {S A B : Type} (m : M S A) (k : A -> M S B) : M S B :=
  fun w => match m w with
           | (Some a, w') => k a w'
           | (None, w') => (None, w')
           end.

Definition throw {S A : Type} : M S A := fun w => (None, w).

Definition get {S : Type} : M S S := fun w => (Some w, w).

Definition modify {S : Type} (f : S -> S) : M S unit := fun w => (Some tt, f w).

(** [for (const x of xs) body(x)] over an array already read into a list. *)
Fixpoint forOf {S A : Type} (xs : list A) (body : A -> M S unit) : M S unit :=
  match xs with
  | [] => ret tt
  | x :: rest => bind (body x) (fun _ => forOf rest body)
  end.

(** [if (c) body] with no else branch. *)
Definition when {S : Type} (c : bool) (body : M S unit) : M S unit :=
  if c then body else ret tt.

End Eff.

Notation "x <- c1 ;; c2" := (Eff.bind c1 (fun x => c2))
  (at level 100, c1 at next level, right associativity).
Notation "c1 ;; c2" := (Eff.bind c1 (fun _ => c2))
  (at level 100, right associativity).

(** ** ECMAScript values and built-ins used by the sources *)
Module ES.

(** A JavaScript number that is an integer or [NaN] ([None]). *)
Definition number : Type := option Z.

(** [a - b] on numbers: [NaN] is contagious. *)
Definition numSub (a b : number) : number :=
  match a, b with
  | Some x, Some y => Some (x - y)
  | _, _ => None
  end.

(** Truthiness of an optional string: [undefined] and [""] are falsy. *)
Definition truthy (o : option string) : bool :=
  match o with
  | Some s => negb (String.eqb s "")
  | None => false
  end.

(** [a || b] where [a] is an optional string and [b] a string. *)
Definition orElse (a : option string) (b : string) : string :=
  match a with
  | Some s => if String.eqb s "" then b else s
  | None => b
  end.

(** [xs || []] for an optional array. *)
Definition orEmpty {A : Type} (o : option (list A)) : list A :=
  match o with
  | Some xs => xs
  | None => []
  end.

(** [a === b] between a string and an optional string. *)
Definition strictEq (a : string) (b : option string) : bool :=
  match b with
  | Some s => String.eqb a s
  | None => false
  end.

(** *** String.prototype.trim

    White space and line terminators are removed from both ends
    (ECMA-262 22.1.3.32, [TrimString]).  A string is the sequence of its
    code units and the characters here are the code units below 256.  Of
    ECMA-262's WhiteSpace and LineTerminator code points that range holds
    TAB, LF, VT, FF, CR (9 to 13), SP (32) and NBSP (U+00A0, 160); the
    others (U+1680, U+2000 to U+200A, U+2028, U+2029, U+202F, U+205F,
    U+3000 and U+FEFF) lie above it. *)
Definition isWhiteSpace (c : ascii) : bool :=
  let n := nat_of_ascii c in
  ((9 <=? n) && (n <=? 13) || (n =? 32) || (n =? 160))%nat.

Fixpoint trimStart (s : string) : string :=
  match s with
  | String c rest => if isWhiteSpace c then trimStart rest else s
  | EmptyString => EmptyString
  end.

Fixpoint trimEnd (s : string) : string :=
  match s with
  | String c rest =>
      match trimEnd rest with
      | EmptyString => if isWhiteSpace c then EmptyString else String c EmptyString
      | rest' => String c rest'
      end
  | EmptyString => EmptyString
  end.

Definition trim (s : string) : string := trimEnd (trimStart s).

(** [s.startsWith(c)] for a one-character prefix. *)
Definition startsWith (s : string) (c : ascii) : bool :=
  match s with
  | String c' _ => Ascii.eqb c c'
  | EmptyString => false
  end.

(** [s.split(sep)] for a one-character separator. *)
Fixpoint split (sep : ascii) (s : string) : list string :=
  match s with
  | EmptyString => [EmptyString]
  | String c rest =>
      if Ascii.eqb c sep then EmptyString :: split sep rest
      else match split sep rest with
           | piece :: pieces => String c piece :: pieces
           | [] => [String c EmptyString]
           end
  end.

(** *** Array.prototype.sort

    ECMA-262 23.1.3.30: [SortCompare] calls the comparator and maps a [NaN]
    answer to [+0]; the sort is stable.  For a consistent comparator the
    result is fixed by the specification; otherwise the order is
    implementation-defined and this model is one implementation (a stable
    insertion sort). *)
Definition SortCompare {A : Type} (comparefn : A -> A -> number) (x y : A) : Z :=
  match comparefn x y with
  | Some v => v
  | None => 0
  end.

Fixpoint sortInsert {A : Type} (comparefn : A -> A -> number) (x : A) (sorted : list A)
  : list A :=
  match sorted with
  | [] => [x]
  | y :: ys =>
      if SortCompare comparefn x y <=? 0
      then x :: y :: ys
      else y :: sortInsert comparefn x ys
  end.

Fixpoint sort {A : Type} (comparefn : A -> A -> number) (xs : list A) : list A :=
  match xs with
  | [] => []
  | x :: rest => sortInsert comparefn x (sort comparefn rest)
  end.

(** The comparator [(a, b) => key(b) - key(a)], and the order it sorts
    into: [a] before [b] when both keys are numbers and [key a >= key b]. *)
Definition descBy {A : Type} (key : A -> number) (a b : A) : number :=
  numSub (key b) (key a).

Definition keyOrder {A : Type} (key : A -> number) (a b : A) : Prop :=
  exists ka kb, key a = Some ka /\ key b = Some kb /\ kb <= ka.

End ES.

(** ** The data model ([src/types], imported by both source files)

    The declarations of [../types] are not among the sources: the fields
    are the ones the code reads, the value sets those of the constants
    [SEASONS] and [ENVIRONMENTS] and of section 3 of the specification. *)
Module Types.

(** The members of [SEASONS]: ['1w'], ['2w'], ['1m'], ['3m'], ['6m'], ['1y']
    (an identifier cannot start with a digit). *)
Inductive SproutSeason : Type := S1w | S2w | S1m | S3m | S6m | S1y.

(** The members of [ENVIRONMENTS]. *)
Inductive SproutEnvironment : Type := fertile | firm | barren.

(** Modelled from the spec: the declaration of the sprout states is
    missing; section 3 gives "lifecycle state in active, completed,
    failed". *)
Inductive SproutState : Type := active | completed | failed.

(** Modelled from the spec: the declaration of [WaterEntry] is missing;
    section 3 gives "timestamp, free-text content, optional prompt text". *)
Record WaterEntry : Type := {
  water_timestamp : string;
  water_content : string;
  water_prompt : option string;
}.

(** Modelled from the spec: the declaration of [SunEntry] is missing; it is
    the reflection entry of section 3, of the same shape. *)
Record SunEntry : Type := {
  sun_timestamp : string;
  sun_content : string;
  sun_prompt : option string;
}.

(** Modelled from the spec: the declaration of [Sprout] is missing; the
    fields are those of section 3 under the names the code reads, optional
    where the code tests them before use. *)
Record Sprout : Type := {
  id : string;
  title : string;
  season : SproutSeason;
  environment : SproutEnvironment;
  state : SproutState;
  soilCost : Z;
  createdAt : string;
  activatedAt : option string;
  completedAt : option string;
  endDate : option string;
  result : option Z;
  reflection : option string;
  leafId : option string;
  graftedFromId : option string;
  waterEntries : option (list WaterEntry);
  sunEntries : option (list SunEntry);
}.

(** Modelled from the spec: the declaration of [Leaf] is missing; section 3
    gives "identity, status, creation time" and [render] writes [id],
    [status] and [createdAt]. *)
Record Leaf : Type := {
  leaf_id : string;
  leaf_status : string;
  leaf_createdAt : string;
}.

(** Modelled from the spec: the declaration of the values of [nodeState] is
    missing; a twig owns its leaves, its sprouts and its reflection entries
    (section 3), and the code reads [sprouts] and [leaves] as optional. *)
Record NodeData : Type := {
  sprouts : option (list Sprout);
  leaves : option (list Leaf);
  twigSunEntries : option (list SunEntry);
}.

Definition SproutState_eqb (a b : SproutState) : bool :=
  match a, b with
  | active, active | completed, completed | failed, failed => true
  | _, _ => false
  end.

(** *** Unified log entries (declared at the top of [leaf-view.ts]) *)
Inductive LogEntryType : Type :=
  | sprout_start | watering | shining | completion | graft_origin.

Record LogData : Type := {
  data_season : option SproutSeason;
  data_environment : option SproutEnvironment;
  data_content : option string;
  data_prompt : option string;
  data_result : option Z;
  data_reflection : option string;
  data_isSuccess : option bool;
  data_graftedFromTitle : option string;
}.

Record LogEntry : Type := {
  type : LogEntryType;
  timestamp : string;
  sproutId : string;
  sproutTitle : string;
  data : LogData;
}.

Definition LogEntryType_eqb (a b : LogEntryType) : bool :=
  match a, b with
  | sprout_start, sprout_start | watering, watering | shining, shining
  | completion, completion | graft_origin, graft_origin => true
  | _, _ => false
  end.

(** The object literals of [buildUnifiedLog]: each lists the [data]
    properties it sets; the others stay [undefined]. *)
Definition noData : LogData :=
  {| data_season := None; data_environment := None; data_content := None;
     data_prompt := None; data_result := None; data_reflection := None;
     data_isSuccess := None; data_graftedFromTitle := None |}.

Definition startData (s : SproutSeason) (e : SproutEnvironment) : LogData :=
  {| data_season := Some s; data_environment := Some e; data_content := None;
     data_prompt := None; data_result := None; data_reflection := None;
     data_isSuccess := None; data_graftedFromTitle := None |}.

Definition graftData (fromTitle : string) : LogData :=
  {| data_season := None; data_environment := None; data_content := None;
     data_prompt := None; data_result := None; data_reflection := None;
     data_isSuccess := None; data_graftedFromTitle := Some fromTitle |}.

Definition journalData (content : string) (prompt : option string) : LogData :=
  {| data_season := None; data_environment := None; data_content := Some content;
     data_prompt := prompt; data_result := None; data_reflection := None;
     data_isSuccess := None; data_graftedFromTitle := None |}.

Definition completionData (r : option Z) (refl : option string) (ok : bool) : LogData :=
  {| data_season := None; data_environment := None; data_content := None;
     data_prompt := None; data_result := r; data_reflection := refl;
     data_isSuccess := Some ok; data_graftedFromTitle := None |}.

(** Arrays live in a store and are passed by reference: a location is an
    index into the store. *)
Inductive obj : Type :=
  | SproutArr (xs : list Sprout)
  | EntryArr (xs : list LogEntry).

Abbreviation loc := nat (only parsing).
Abbreviation Heap := (list obj) (only parsing).

End Types.

(** ** The Date time algorithms of ECMA-262 (21.4.1)

    Time values are integral milliseconds since the epoch, [NaN] being
    [None].  Every intermediate value of the code below is an integer of
    magnitude under 2^53, so arithmetic on [Z] is the arithmetic of the
    doubles. *)
Module ESDate.

Import ES.

Definition msPerSecond : Z := 1000.
Definition msPerMinute : Z := 60000.
Definition msPerHour : Z := 3600000.
Definition msPerDay : Z := 86400000.

Definition Day (t : Z) : Z := t / msPerDay.
Definition TimeWithinDay (t : Z) : Z := t mod msPerDay.

Definition DaysInYear (y : Z) : Z :=
  if negb (y mod 4 =? 0) then 365
  else if negb (y mod 100 =? 0) then 366
  else if negb (y mod 400 =? 0) then 365
  else 366.

Definition DayFromYear (y : Z) : Z :=
  365 * (y - 1970) + (y - 1969) / 4 - (y - 1901) / 100 + (y - 1601) / 400.

Definition TimeFromYear (y : Z) : Z := msPerDay * DayFromYear y.

(** ECMA-262 defines [YearFromTime t] as the largest [y] with
    [TimeFromYear y <= t].  This is that year computed: an estimate from the
    mean length of a Gregorian year, corrected by at most one
    ([YearFromTime_spec] below proves the defining property). *)
Definition YearFromTime (t : Z) : Z :=
  let d := Day t in
  let y0 := 1970 + d * 400 / 146097 in
  if d <? DayFromYear y0 then y0 - 1
  else if DayFromYear (y0 + 1) <=? d then y0 + 1
  else y0.

Definition InLeapYear (t : Z) : Z :=
  if DaysInYear (YearFromTime t) =? 366 then 1 else 0.

Definition DayWithinYear (t : Z) : Z := Day t - DayFromYear (YearFromTime t).

Definition MonthFromTime (t : Z) : Z :=
  let d := DayWithinYear t in
  let l := InLeapYear t in
  if d <? 31 then 0
  else if d <? 59 + l then 1
  else if d <? 90 + l then 2
  else if d <? 120 + l then 3
  else if d <? 151 + l then 4
  else if d <? 181 + l then 5
  else if d <? 212 + l then 6
  else if d <? 243 + l then 7
  else if d <? 273 + l then 8
  else if d <? 304 + l then 9
  else if d <? 334 + l then 10
  else 11.

Definition DateFromTime (t : Z) : Z :=
  let d := DayWithinYear t in
  let l := InLeapYear t in
  match MonthFromTime t with
  | 0 => d + 1
  | 1 => d - 30
  | 2 => d - 58 - l
  | 3 => d - 89 - l
  | 4 => d - 119 - l
  | 5 => d - 150 - l
  | 6 => d - 180 - l
  | 7 => d - 211 - l
  | 8 => d - 242 - l
  | 9 => d - 272 - l
  | 10 => d - 303 - l
  | _ => d - 333 - l
  end.

Definition HourFromTime (t : Z) : Z := (t / msPerHour) mod 24.
Definition MinFromTime (t : Z) : Z := (t / msPerMinute) mod 60.
Definition SecFromTime (t : Z) : Z := (t / msPerSecond) mod 60.
Definition msFromTime (t : Z) : Z := t mod msPerSecond.

Definition MakeTime (hour min sec ms : Z) : Z :=
  hour * msPerHour + min * msPerMinute + sec * msPerSecond + ms.

(** Day number of the first day of month [mn] (0 to 11) within a year that
    is leap ([l = 1]) or not ([l = 0]): the lower bounds of the
    [MonthFromTime] table. *)
Definition monthStart (mn l : Z) : Z :=
  match mn with
  | 0 => 0
  | 1 => 31
  | 2 => 59 + l
  | 3 => 90 + l
  | 4 => 120 + l
  | 5 => 151 + l
  | 6 => 181 + l
  | 7 => 212 + l
  | 8 => 243 + l
  | 9 => 273 + l
  | 10 => 304 + l
  | _ => 334 + l
  end.

(** [MakeDay]: "find a time value t such that YearFromTime(t) is ym,
    MonthFromTime(t) is mn and DateFromTime(t) is 1; return Day(t) + dt - 1"
    ([MakeDay_first] below proves this is that day). *)
Definition MakeDay (year month date : Z) : Z :=
  let ym := year + month / 12 in
  let mn := month mod 12 in
  let l := if DaysInYear ym =? 366 then 1 else 0 in
  DayFromYear ym + monthStart mn l + date - 1.

Definition MakeDate (day time : Z) : Z := day * msPerDay + time.

Definition maxTime : Z := 8640000000000000.

Definition TimeClip (time : Z) : number :=
  if Z.abs time >? maxTime then None else Some time.

(** The host's time zone: [LocalTZA t true] is the offset of local time
    from UTC at the UTC instant [t], [LocalTZA t false] the offset at the
    local time value [t]. *)
Class TimeZone : Type := { LocalTZA : Z -> bool -> Z }.

Section Local.
Context {tz : TimeZone}.

Definition LocalTime (t : Z) : Z := t + LocalTZA t true.
Definition UTC (t : Z) : Z := t - LocalTZA t false.

(** [Date.prototype.getDate], [getMonth], [getFullYear]: local fields. *)
Definition getDate (tv : number) : number :=
  match tv with
  | Some t => Some (DateFromTime (LocalTime t))
  | None => None
  end.

Definition getMonth (tv : number) : number :=
  match tv with
  | Some t => Some (MonthFromTime (LocalTime t))
  | None => None
  end.

Definition getFullYear (tv : number) : number :=
  match tv with
  | Some t => Some (YearFromTime (LocalTime t))
  | None => None
  end.

(** [Date.prototype.setDate(date)]: the new time value. *)
Definition setDate (tv : number) (date : number) : number :=
  match tv, date with
  | Some t0, Some dt =>
      let t := LocalTime t0 in
      TimeClip (UTC (MakeDate (MakeDay (YearFromTime t) (MonthFromTime t) dt)
                              (TimeWithinDay t)))
  | _, _ => None
  end.

(** [Date.prototype.setMonth(month)] with its one argument. *)
Definition setMonth (tv : number) (month : number) : number :=
  match tv, month with
  | Some t0, Some m =>
      let t := LocalTime t0 in
      TimeClip (UTC (MakeDate (MakeDay (YearFromTime t) m (DateFromTime t))
                              (TimeWithinDay t)))
  | _, _ => None
  end.

(** [Date.prototype.setFullYear(year)]: an invalid date restarts at [+0]. *)
Definition setFullYear (tv : number) (year : number) : number :=
  match year with
  | Some y =>
      let t := match tv with Some t0 => LocalTime t0 | None => 0 end in
      TimeClip (UTC (MakeDate (MakeDay y (MonthFromTime t) (DateFromTime t))
                              (TimeWithinDay t)))
  | None => None
  end.

End Local.

(** [Date.prototype.setUTCHours(hour, min, sec, ms)]. *)
Definition setUTCHours (tv : number) (hour min sec ms : Z) : number :=
  match tv with
  | Some t => TimeClip (MakeDate (Day t) (MakeTime hour min sec ms))
  | None => None
  end.

(** [new Date(value)] for a [Date] argument copies its time value. *)
Definition newDateFrom (tv : number) : number :=
  match tv with
  | Some t => TimeClip t
  | None => None
  end.

Definition numAdd (a : number) (k : Z) : number :=
  match a with
  | Some x => Some (x + k)
  | None => None
  end.

(** *** The ISO format of [Date.prototype.toISOString]

    [parseISO] reads exactly the 24-character form
    [YYYY-MM-DDTHH:mm:ss.sssZ] that [toISOString] writes for years 0 to
    9999; it is one admissible [Date.parse], used to run the code on
    concrete logs. *)
Definition digitOf (c : ascii) : option Z :=
  let n := Z.of_nat (nat_of_ascii c) in
  if (48 <=? n) && (n <=? 57) then Some (n - 48) else None.

Fixpoint readDigits (n : nat) (acc : Z) (cs : list ascii) : option (Z * list ascii) :=
  match n with
  | O => Some (acc, cs)
  | S n' =>
      match cs with
      | c :: rest =>
          match digitOf c with
          | Some d => readDigits n' (10 * acc + d) rest
          | None => None
          end
      | [] => None
      end
  end.

Definition readChar (c : ascii) (cs : list ascii) : option (list ascii) :=
  match cs with
  | c' :: rest => if Ascii.eqb c c' then Some rest else None
  | [] => None
  end.

Definition DaysInMonth (y mn : Z) : Z :=
  match mn with
  | 1 => if DaysInYear y =? 366 then 29 else 28
  | 3 | 5 | 8 | 10 => 30
  | _ => 31
  end.

Definition parseISO (s : string) : number :=
  match readDigits 4 0 (list_ascii_of_string s) with
  | Some (y, cs) =>
  match readChar "-" cs with Some cs =>
  match readDigits 2 0 cs with Some (mo, cs) =>
  match readChar "-" cs with Some cs =>
  match readDigits 2 0 cs with Some (d, cs) =>
  match readChar "T" cs with Some cs =>
  match readDigits 2 0 cs with Some (h, cs) =>
  match readChar ":" cs with Some cs =>
  match readDigits 2 0 cs with Some (mi, cs) =>
  match readChar ":" cs with Some cs =>
  match readDigits 2 0 cs with Some (sec, cs) =>
  match readChar "." cs with Some cs =>
  match readDigits 3 0 cs with Some (ms, cs) =>
  match cs with
  | ["Z"%char] =>
      if (1 <=? mo) && (mo <=? 12) && (1 <=? d) && (d <=? DaysInMonth y (mo - 1))
         && (h <=? 23) && (mi <=? 59) && (sec <=? 59)
      then TimeClip (MakeDate (MakeDay y (mo - 1) d) (MakeTime h mi sec ms))
      else None
  | _ => None
  end
  | None => None end | None => None end | None => None end | None => None end
  | None => None end | None => None end | None => None end | None => None end
  | None => None end | None => None end | None => None end | None => None end
  | None => None
  end.

Definition digitChar (d : Z) : ascii := ascii_of_nat (Z.to_nat (48 + d mod 10)).

Fixpoint padDigits (n : nat) (v : Z) (tail : string) : string :=
  match n with
  | O => tail
  | S n' => padDigits n' (v / 10) (String (digitChar v) tail)
  end.

(** [toISOString] of a valid time value (it throws a [RangeError] on an
    invalid date, which the callers below never pass); years outside 0 to
    9999 take the expanded form with a sign and six digits. *)
Definition formatISO (t : Z) : string :=
  let y := YearFromTime t in
  let year :=
    if (0 <=? y) && (y <=? 9999) then padDigits 4 y ""
    else String (if y <? 0 then "-"%char else "+"%char) (padDigits 6 (Z.abs y) "") in
  let time :=
    padDigits 2 (HourFromTime t) (String ":" (padDigits 2 (MinFromTime t)
      (String ":" (padDigits 2 (SecFromTime t)
        (String "." (padDigits 3 (msFromTime t) "Z")))))) in
  let date :=
    String "-" (padDigits 2 (MonthFromTime t + 1)
      (String "-" (padDigits 2 (DateFromTime t) (String "T" time)))) in
  String.append year date.

End ESDate.

(** ** The view's world: what the closures of [buildLeafView] can reach *)
Module View.

Import Types.

(** The object literal handed to [graftFromLeaf] / [graftSprout]. *)
Record SproutInput : Type := {
  in_title : string;
  in_season : SproutSeason;
  in_environment : SproutEnvironment;
  in_state : SproutState;
  in_soilCost : Z;
  in_activatedAt : string;
  in_endDate : string;
}.

(** Calls that leave the file: into [../state] and the view callbacks. *)
Inductive Call : Type :=
  | CanAffordSoil (cost : Z) (answer : bool)
  | SpendSoil (cost : Z) (spent : bool)
  | GraftFromLeaf (twigId leafId : string) (input : SproutInput)
  | GraftSprout (twigId fromSproutId : string) (input : SproutInput)
  | SaveState
  | OnSoilChange
  | OnSave
  | OnClose.

(** The graft form as the handlers see it through [querySelector]. *)
Record GraftForm : Type := {
  formHidden : bool;
  triggerHidden : bool;
  titleValue : string;
  seasonBtnSelected : option SproutSeason;
  envBtnSelected : option SproutEnvironment;
  soilCostText : option (Z * Z);
  soilCostWarning : bool;
  confirmDisabled : bool;
}.

(** One rendered log entry.  The templates are presentation; kept are the
    CSS class, the [data-sprout-id], the type label, the success modifier
    and the graft button with its [data-sprout-id].  The texts that the
    templates interpolate (title, prompt, content, reflection, title of the
    origin) are not kept: the record is the element the browser builds
    when these texts are inert as markup, see [Markup] below. *)
Record EntryHtml : Type := {
  html_class : string;
  html_sproutId : string;
  html_label : string;
  html_success : option bool;
  html_graftBtn : option string;
}.

(** [logEl.innerHTML]. *)
Inductive LogHtml : Type :=
  | LogBlank
  | LogEmpty
  | LogEntries (graft : option GraftForm) (entries : list EntryHtml).

(** The store, the state of [../state] ([nodeState], the soil ledger, the
    clock), the variables of the closure, the elements of the view and the
    trace of calls.  [graftFromSproutId], [titleEl] and [metaEl] exist in
    the origin-chaining revision only; [leaf-view.ts] never touches them. *)
Record World : Type := {
  heap : Heap;
  nodeState : gmap string NodeData;
  soilAvailable : Z;
  now : Z;
  currentTwigId : option string;
  currentLeafId : option string;
  graftFromSproutId : option string;
  selectedSeason : option SproutSeason;
  selectedEnvironment : option SproutEnvironment;
  logEl : LogHtml;
  titleEl : string;
  metaEl : nat * nat;
  calls : list Call;
}.

Definition set_heap (h : Heap) (w : World) : World :=
  {| heap := h; nodeState := nodeState w; soilAvailable := soilAvailable w;
     now := now w; currentTwigId := currentTwigId w;
     currentLeafId := currentLeafId w; graftFromSproutId := graftFromSproutId w;
     selectedSeason := selectedSeason w;
     selectedEnvironment := selectedEnvironment w; logEl := logEl w;
     titleEl := titleEl w; metaEl := metaEl w; calls := calls w |}.

Definition set_nodeState (n : gmap string NodeData) (w : World) : World :=
  {| heap := heap w; nodeState := n; soilAvailable := soilAvailable w;
     now := now w; currentTwigId := currentTwigId w;
     currentLeafId := currentLeafId w; graftFromSproutId := graftFromSproutId w;
     selectedSeason := selectedSeason w;
     selectedEnvironment := selectedEnvironment w; logEl := logEl w;
     titleEl := titleEl w; metaEl := metaEl w; calls := calls w |}.

Definition set_soilAvailable (s : Z) (w : World) : World :=
  {| heap := heap w; nodeState := nodeState w; soilAvailable := s;
     now := now w; currentTwigId := currentTwigId w;
     currentLeafId := currentLeafId w; graftFromSproutId := graftFromSproutId w;
     selectedSeason := selectedSeason w;
     selectedEnvironment := selectedEnvironment w; logEl := logEl w;
     titleEl := titleEl w; metaEl := metaEl w; calls := calls w |}.

Definition set_graftFromSproutId (g : option string) (w : World) : World :=
  {| heap := heap w; nodeState := nodeState w; soilAvailable := soilAvailable w;
     now := now w; currentTwigId := currentTwigId w;
     currentLeafId := currentLeafId w; graftFromSproutId := g;
     selectedSeason := selectedSeason w;
     selectedEnvironment := selectedEnvironment w; logEl := logEl w;
     titleEl := titleEl w; metaEl := metaEl w; calls := calls w |}.

Definition set_selectedSeason (s : option SproutSeason) (w : World) : World :=
  {| heap := heap w; nodeState := nodeState w; soilAvailable := soilAvailable w;
     now := now w; currentTwigId := currentTwigId w;
     currentLeafId := currentLeafId w; graftFromSproutId := graftFromSproutId w;
     selectedSeason := s;
     selectedEnvironment := selectedEnvironment w; logEl := logEl w;
     titleEl := titleEl w; metaEl := metaEl w; calls := calls w |}.

Definition set_selectedEnvironment (e : option SproutEnvironment) (w : World) : World :=
  {| heap := heap w; nodeState := nodeState w; soilAvailable := soilAvailable w;
     now := now w; currentTwigId := currentTwigId w;
     currentLeafId := currentLeafId w; graftFromSproutId := graftFromSproutId w;
     selectedSeason := selectedSeason w;
     selectedEnvironment := e; logEl := logEl w;
     titleEl := titleEl w; metaEl := metaEl w; calls := calls w |}.

Definition set_logEl (l : LogHtml) (w : World) : World :=
  {| heap := heap w; nodeState := nodeState w; soilAvailable := soilAvailable w;
     now := now w; currentTwigId := currentTwigId w;
     currentLeafId := currentLeafId w; graftFromSproutId := graftFromSproutId w;
     selectedSeason := selectedSeason w;
     selectedEnvironment := selectedEnvironment w; logEl := l;
     titleEl := titleEl w; metaEl := metaEl w; calls := calls w |}.

Definition set_header (t : string) (m : nat * nat) (w : World) : World :=
  {| heap := heap w; nodeState := nodeState w; soilAvailable := soilAvailable w;
     now := now w; currentTwigId := currentTwigId w;
     currentLeafId := currentLeafId w; graftFromSproutId := graftFromSproutId w;
     selectedSeason := selectedSeason w;
     selectedEnvironment := selectedEnvironment w; logEl := logEl w;
     titleEl := t; metaEl := m; calls := calls w |}.

Definition set_calls (c : list Call) (w : World) : World :=
  {| heap := heap w; nodeState := nodeState w; soilAvailable := soilAvailable w;
     now := now w; currentTwigId := currentTwigId w;
     currentLeafId := currentLeafId w; graftFromSproutId := graftFromSproutId w;
     selectedSeason := selectedSeason w;
     selectedEnvironment := selectedEnvironment w; logEl := logEl w;
     titleEl := titleEl w; metaEl := metaEl w; calls := c |}.

Definition M : Type -> Type := Eff.M World.

(** *** The store of arrays *)

(** [const entries: LogEntry[] = []]: a fresh array. *)
Definition newEntryArr : M loc :=
  fun w => (Some (length (heap w)), set_heap (heap w ++ [EntryArr []]) w).

(** An array of sprouts returned by a helper: a fresh array. *)
Definition newSproutArr (xs : list Sprout) : M loc :=
  fun w => (Some (length (heap w)), set_heap (heap w ++ [SproutArr xs]) w).

Definition readSprouts (l : loc) : M (list Sprout) :=
  fun w => match heap w !! l with
           | Some (SproutArr xs) => (Some xs, w)
           | _ => (None, w)
           end.

Definition readEntries (l : loc) : M (list LogEntry) :=
  fun w => match heap w !! l with
           | Some (EntryArr xs) => (Some xs, w)
           | _ => (None, w)
           end.

(** [entries.push(e)]: the array at [l] grows in place. *)
Definition push (l : loc) (e : LogEntry) : M unit :=
  fun w => match heap w !! l with
           | Some (EntryArr xs) =>
               (Some tt, set_heap (<[l := EntryArr (xs ++ [e])]> (heap w)) w)
           | _ => (None, w)
           end.

(** [entries.sort(comparefn)]: the array at [l] is sorted in place and [l]
    itself is the value of the call. *)
Definition sortInPlace (l : loc) (comparefn : LogEntry -> LogEntry -> ES.number) : M loc :=
  fun w => match heap w !! l with
           | Some (EntryArr xs) =>
               (Some l, set_heap (<[l := EntryArr (ES.sort comparefn xs)]> (heap w)) w)
           | _ => (None, w)
           end.

Definition logCall (c : Call) : M unit :=
  Eff.modify (fun w => set_calls (calls w ++ [c]) w).

(** [if (o) body(o)]: the branch taken for a truthy optional string. *)
Definition ifTruthy (o : option string) (body : string -> M unit) : M unit :=
  match o with
  | Some s => if String.eqb s "" then Eff.ret tt else body s
  | None => Eff.ret tt
  end.

(** The call [m] returns (a reference to) an array holding [out]. *)
Definition returnsLog (m : M loc) (w : World) (out : list LogEntry) : Prop :=
  exists r w', m w = (Some r, w') /\ heap w' !! r = Some (EntryArr out).

(** Every [spendSoil(cost)] of the trace took the branch that spends and
    comes right after a [canAffordSoil(cost)] that answered [true] on the
    same cost; [prev] is the call before the trace. *)
Fixpoint guardedSpends (prev : option Call) (trace : list Call) : bool :=
  match trace with
  | [] => true
  | c :: rest =>
      match c with
      | SpendSoil cost spent =>
          spent && match prev with
                   | Some (CanAffordSoil checked true) => checked =? cost
                   | _ => false
                   end
      | _ => true
      end && guardedSpends (Some c) rest
  end.

(** The step from [w] to [w'] allocated one array, [out] at [r], and did
    nothing else: the arrays of [w] are a prefix of the store of [w'] and
    every other component is the one of [w]. *)
Definition allocatesOnly (w w' : World) (r : loc) (out : list LogEntry) : Prop :=
  r = length (heap w) /\ w' = set_heap (heap w ++ [EntryArr out]) w.

End View.

(** ** The parts of [../state] the views import

    [src/state] is not among the sources: its functions follow the
    contracts of sections 4.1 and 6 of the specification, and record their
    calls in the trace. *)
Module State.

Import Types View.

(** What the specification leaves open: the cost table ("a deterministic
    pure function of the two enumerations") and how a graft is stored. *)
Class StateApi : Type := {
  calculateSoilCost : SproutSeason -> SproutEnvironment -> Z;
  graftFromLeaf : string -> string -> SproutInput -> gmap string NodeData -> gmap string NodeData;
  graftSprout : string -> string -> SproutInput -> gmap string NodeData -> gmap string NodeData;
}.

(** Modelled from the spec: [getSoilAvailable] is missing; section 4.1,
    "availableSoil() -> integer". *)
Definition getSoilAvailable : M Z :=
  fun w => (Some (soilAvailable w), w).

(** Modelled from the spec: [canAffordSoil] is missing; section 4.1,
    "canAfford(cost) -> bool: cost <= availableSoil()". *)
Definition canAffordSoil (cost : Z) : M bool :=
  w <- Eff.get ;;
  let answer := cost <=? soilAvailable w in
  logCall (CanAffordSoil cost answer) ;;
  Eff.ret answer.

(** Modelled from the spec: [spendSoil] is missing; section 4.1, "fails
    (no-op, signals InsufficientResource) if cost > availableSoil();
    otherwise decrements available soil by cost".  The value returned tells
    the branch taken. *)
Definition spendSoil (cost : Z) : M bool :=
  w <- Eff.get ;;
  if cost >? soilAvailable w
  then logCall (SpendSoil cost false) ;; Eff.ret false
  else Eff.modify (set_soilAvailable (soilAvailable w - cost)) ;;
       logCall (SpendSoil cost true) ;;
       Eff.ret true.

(** Modelled from the spec: [saveState] is missing; section 6, "persist()",
    a call to the storage collaborator. *)
Definition saveState : M unit := logCall SaveState.

(** Modelled from the spec: [getLeafById] is missing; the leaf of the twig
    with that id, if any (section 3: leaves are owned by their twig). *)
Definition getLeafById (twigId leafId : string) : M (option Leaf) :=
  w <- Eff.get ;;
  Eff.ret (match nodeState w !! twigId with
           | Some data => find (fun l => String.eqb (leaf_id l) leafId) (ES.orEmpty (leaves data))
           | None => None
           end).

(** Modelled from the spec: [getSproutsByLeaf] is missing; section 6,
    "listSprouts(threadId, leafId) -> sequence of Sprout", the sprouts that
    reference the leaf by id, as a new array. *)
Definition getSproutsByLeaf (all : list Sprout) (leaf : string) : M loc :=
  newSproutArr (filter (fun s => ES.strictEq leaf (leafId s) = true) all).

(** Modelled from the spec: [getActiveSprouts] is missing; the sprouts in
    state [active]. *)
Definition getActiveSprouts (all : list Sprout) : list Sprout :=
  filter (fun s => SproutState_eqb (state s) active = true) all.

End State.

(** [new Date(s).getTime()] for a string [s]: the host's date parser.
    ECMA-262 fixes it on the ISO format only, so it is an interface;
    [ESDate.parseISO] is one instance. *)
Class DateParse : Type := { dateValue : string -> ES.number }.

(** ** [src/ui/leaf-view.ts] *)
Module LeafView.

Import Types View State ESDate.

Section Code.
Context {tz : TimeZone} {parser : DateParse} {api : StateApi}.

Definition getEndDate (season : SproutSeason) (startDate : ES.number) : ES.number :=
  let end0 := newDateFrom startDate in
  let end1 :=
    match season with
    | S1w => setDate end0 (numAdd (getDate end0) 7)
    | S2w => setDate end0 (numAdd (getDate end0) 14)
    | S1m => setMonth end0 (numAdd (getMonth end0) 1)
    | S3m => setMonth end0 (numAdd (getMonth end0) 3)
    | S6m => setMonth end0 (numAdd (getMonth end0) 6)
    | S1y => setFullYear end0 (numAdd (getFullYear end0) 1)
    end in
  setUTCHours end1 15 0 0 0.

Definition getLeaf : M (option Leaf) :=
  w <- Eff.get ;;
  match currentTwigId w, currentLeafId w with
  | Some twigId, Some leaf =>
      if String.eqb twigId "" || String.eqb leaf "" then Eff.ret None
      else getLeafById twigId leaf
  | _, _ => Eff.ret None
  end.

(** The [console.log] of [getSprouts] is not modelled. *)
Definition getSprouts : M loc :=
  w <- Eff.get ;;
  match currentTwigId w, currentLeafId w with
  | Some twigId, Some leaf =>
      if String.eqb twigId "" || String.eqb leaf "" then newSproutArr []
      else match nodeState w !! twigId with
           | Some data =>
               match sprouts data with
               | Some all => getSproutsByLeaf all leaf
               | None => newSproutArr []
               end
           | None => newSproutArr []
           end
  | _, _ => newSproutArr []
  end.

(** The comparator of the final sort:
    [(a, b) => new Date(b.timestamp).getTime() - new Date(a.timestamp).getTime()].
    As doubles the difference of two time values may round, but it keeps
    its sign, and the sign is all that [sort] reads. *)
Definition byTimestampDesc (a b : LogEntry) : ES.number :=
  ES.numSub (dateValue (timestamp b)) (dateValue (timestamp a)).

Definition buildUnifiedLog (sprouts : loc) : M loc :=
  entries <- newEntryArr ;;
  iterated <- readSprouts sprouts ;;
  Eff.forOf iterated (fun sprout =>
    push entries
      {| type := sprout_start;
         timestamp := ES.orElse (activatedAt sprout) (createdAt sprout);
         sproutId := id sprout;
         sproutTitle := title sprout;
         data := startData (season sprout) (environment sprout) |} ;;
    ifTruthy (graftedFromId sprout) (fun _ =>
      searched <- readSprouts sprouts ;;
      let parent := find (fun s => ES.strictEq (id s) (graftedFromId sprout)) searched in
      push entries
        {| type := graft_origin;
           timestamp := createdAt sprout;
           sproutId := id sprout;
           sproutTitle := title sprout;
           data := graftData (ES.orElse (option_map title parent) "previous sprout") |}) ;;
    Eff.forOf (ES.orEmpty (waterEntries sprout)) (fun water =>
      push entries
        {| type := watering;
           timestamp := water_timestamp water;
           sproutId := id sprout;
           sproutTitle := title sprout;
           data := journalData (water_content water) (water_prompt water) |}) ;;
    Eff.forOf (ES.orEmpty (sunEntries sprout)) (fun sun =>
      push entries
        {| type := shining;
           timestamp := sun_timestamp sun;
           sproutId := id sprout;
           sproutTitle := title sprout;
           data := journalData (sun_content sun) (sun_prompt sun) |}) ;;
    ifTruthy (completedAt sprout) (fun completedAt =>
      push entries
        {| type := completion;
           timestamp := completedAt;
           sproutId := id sprout;
           sproutTitle := title sprout;
           data := completionData (result sprout) (reflection sprout)
                     (SproutState_eqb (state sprout) completed) |})) ;;
  sortInPlace entries byTimestampDesc.

Definition renderLogEntry (entry : LogEntry) : EntryHtml :=
  match type entry with
  | sprout_start =>
      {| html_class := "log-entry-start"; html_sproutId := sproutId entry;
         html_label := "Planted"; html_success := None; html_graftBtn := None |}
  | watering =>
      {| html_class := "log-entry-water"; html_sproutId := sproutId entry;
         html_label := "Watered"; html_success := None; html_graftBtn := None |}
  | shining =>
      {| html_class := "log-entry-shine"; html_sproutId := sproutId entry;
         html_label := "Shone"; html_success := None; html_graftBtn := None |}
  | completion =>
      let isCompleted := match data_isSuccess (data entry) with
                         | Some b => b
                         | None => false
                         end in
      {| html_class := "log-entry-completion"; html_sproutId := sproutId entry;
         html_label := if isCompleted then "Harvested" else "Pruned";
         html_success := Some isCompleted; html_graftBtn := None |}
  | graft_origin =>
      {| html_class := "log-entry-graft"; html_sproutId := sproutId entry;
         html_label := "Grafted"; html_success := None; html_graftBtn := None |}
  end.

(** The markup of the graft section: the form starts hidden, the trigger
    shown, the title empty and the confirm button disabled; [None] is the
    empty string returned when there is an active sprout. *)
Definition renderGraftForm (hasActiveSprout : bool) : option GraftForm :=
  if hasActiveSprout then None
  else Some {| formHidden := true; triggerHidden := false; titleValue := "";
               seasonBtnSelected := None; envBtnSelected := None;
               soilCostText := None; soilCostWarning := false;
               confirmDisabled := true |}.

(** [wireLogEvents] registers the handlers below on the elements it finds
    and returns early when there is no graft section; the handlers find
    their elements through [graftSection], so nothing is left to do here. *)
Definition wireLogEvents : M unit := Eff.ret tt.

Definition render : M unit :=
  leaf <- getLeaf ;;
  sproutsRef <- getSprouts ;;
  sprouts <- readSprouts sproutsRef ;;
  w <- Eff.get ;;
  match leaf, sprouts, currentTwigId w, currentLeafId w with
  | None, _ :: _, Some twigId, Some leafId =>
      if String.eqb twigId "" || String.eqb leafId "" then Eff.ret tt
      else match nodeState w !! twigId with
           | Some data =>
               let created :=
                 {| leaf_id := leafId; leaf_status := "active";
                    leaf_createdAt := formatISO (now w) |} in
               Eff.modify (set_nodeState
                 (<[twigId := {| sprouts := Types.sprouts data;
                                 leaves := Some (ES.orEmpty (leaves data) ++ [created]);
                                 twigSunEntries := twigSunEntries data |}]>
                    (nodeState w))) ;;
               saveState
           | None => Eff.ret tt
           end
  | _, _, _, _ => Eff.ret tt
  end ;;
  match sprouts with
  | [] => Eff.modify (set_logEl LogEmpty)
  | _ :: _ =>
      logRef <- buildUnifiedLog sproutsRef ;;
      logEntries <- readEntries logRef ;;
      match logEntries with
      | [] => Eff.modify (set_logEl LogEmpty)
      | _ :: _ =>
          let hasActiveSprout :=
            existsb (fun s => SproutState_eqb (state s) active) sprouts in
          Eff.modify (set_logEl
            (LogEntries (renderGraftForm hasActiveSprout)
                        (map renderLogEntry logEntries))) ;;
          wireLogEvents
      end
  end.

(** The graft section found by [querySelector] in the rendered log. *)
Definition graftSection (l : LogHtml) : option GraftForm :=
  match l with
  | LogEntries (Some form) _ => Some form
  | _ => None
  end.

Definition setGraftSection (form : GraftForm) : M unit :=
  Eff.modify (fun w =>
    match logEl w with
    | LogEntries (Some _) entries => set_logEl (LogEntries (Some form) entries) w
    | _ => w
    end).

Definition updateGraftFormState : M unit :=
  w <- Eff.get ;;
  match graftSection (logEl w) with
  | None => Eff.ret tt
  | Some form =>
      let title := ES.trim (titleValue form) in
      match selectedSeason w, selectedEnvironment w with
      | Some season, Some env =>
          let cost := calculateSoilCost season env in
          available <- getSoilAvailable ;;
          canAfford <- canAffordSoil cost ;;
          setGraftSection
            {| formHidden := formHidden form; triggerHidden := triggerHidden form;
               titleValue := titleValue form;
               seasonBtnSelected := seasonBtnSelected form;
               envBtnSelected := envBtnSelected form;
               soilCostText := Some (cost, available);
               soilCostWarning := negb canAfford;
               confirmDisabled := String.eqb title "" || negb canAfford |}
      | _, _ =>
          setGraftSection
            {| formHidden := formHidden form; triggerHidden := triggerHidden form;
               titleValue := titleValue form;
               seasonBtnSelected := seasonBtnSelected form;
               envBtnSelected := envBtnSelected form;
               soilCostText := None;
               soilCostWarning := soilCostWarning form;
               confirmDisabled := true |}
      end
  end.

Definition hideGraftForm : M unit :=
  w <- Eff.get ;;
  match graftSection (logEl w) with
  | None => Eff.ret tt
  | Some form =>
      setGraftSection
        {| formHidden := true; triggerHidden := false; titleValue := "";
           seasonBtnSelected := None; envBtnSelected := None;
           soilCostText := soilCostText form;
           soilCostWarning := soilCostWarning form;
           confirmDisabled := confirmDisabled form |} ;;
      Eff.modify (set_selectedSeason None) ;;
      Eff.modify (set_selectedEnvironment None)
  end.

Definition showGraftForm : M unit :=
  w <- Eff.get ;;
  match graftSection (logEl w) with
  | None => Eff.ret tt
  | Some form =>
      setGraftSection
        {| formHidden := false; triggerHidden := true;
           titleValue := titleValue form;
           seasonBtnSelected := seasonBtnSelected form;
           envBtnSelected := envBtnSelected form;
           soilCostText := soilCostText form;
           soilCostWarning := soilCostWarning form;
           confirmDisabled := confirmDisabled form |} ;;
      updateGraftFormState
  end.

(** The click handler of the confirm button.  [new Date()] reads the clock
    [now]; [endDate.toISOString()] throws on an invalid date. *)
Definition doGraft : M unit :=
  w <- Eff.get ;;
  match currentTwigId w, currentLeafId w, selectedSeason w, selectedEnvironment w with
  | Some twigId, Some leafId, Some season, Some env =>
      if String.eqb twigId "" || String.eqb leafId "" then Eff.ret tt
      else
        match graftSection (logEl w) with
        | None => Eff.ret tt
        | Some form =>
            let title := ES.trim (titleValue form) in
            if String.eqb title "" then Eff.ret tt
            else
              let cost := calculateSoilCost season env in
              affordable <- canAffordSoil cost ;;
              if negb affordable then Eff.ret tt
              else
                spendSoil cost ;;
                logCall OnSoilChange ;;
                match getEndDate season (Some (now w)) with
                | None => Eff.throw
                | Some endDate =>
                    let input :=
                      {| in_title := title; in_season := season;
                         in_environment := env; in_state := active;
                         in_soilCost := cost;
                         in_activatedAt := formatISO (now w);
                         in_endDate := formatISO endDate |} in
                    Eff.modify (fun w' =>
                      set_nodeState (graftFromLeaf twigId leafId input (nodeState w')) w') ;;
                    logCall (GraftFromLeaf twigId leafId input) ;;
                    hideGraftForm ;;
                    logCall OnSave ;;
                    logCall OnClose
                end
        end
  | _, _, _, _ => Eff.ret tt
  end.

End Code.

End LeafView.

(** ** The origin-chaining revision of the leaf view ([src/unnamed/part_000])

    The earlier text of [leaf-view.ts]: grafts are chained from a named
    sprout through [graftSprout], the log has no [shining] entries (its
    [LogEntryType] lacks that member) and [getEndDate] is the same text as
    in the current file. *)
Module LeafViewOrigin.

Import Types View State ESDate.

Section Code.
Context {tz : TimeZone} {parser : DateParse} {api : StateApi}.

Definition getEndDate : SproutSeason -> ES.number -> ES.number := LeafView.getEndDate.

Definition getLeaf : M (option Leaf) := LeafView.getLeaf.

Definition getSprouts : M loc :=
  w <- Eff.get ;;
  match currentTwigId w, currentLeafId w with
  | Some twigId, Some leaf =>
      if String.eqb twigId "" || String.eqb leaf "" then newSproutArr []
      else match nodeState w !! twigId with
           | Some data =>
               match sprouts data with
               | Some all => getSproutsByLeaf all leaf
               | None => newSproutArr []
               end
           | None => newSproutArr []
           end
  | _, _ => newSproutArr []
  end.

Definition byTimestampDesc (a b : LogEntry) : ES.number :=
  ES.numSub (dateValue (timestamp b)) (dateValue (timestamp a)).

Definition buildUnifiedLog (sprouts : loc) : M loc :=
  entries <- newEntryArr ;;
  iterated <- readSprouts sprouts ;;
  Eff.forOf iterated (fun sprout =>
    push entries
      {| type := sprout_start;
         timestamp := ES.orElse (activatedAt sprout) (createdAt sprout);
         sproutId := id sprout;
         sproutTitle := title sprout;
         data := startData (season sprout) (environment sprout) |} ;;
    ifTruthy (graftedFromId sprout) (fun _ =>
      searched <- readSprouts sprouts ;;
      let parent := find (fun s => ES.strictEq (id s) (graftedFromId sprout)) searched in
      push entries
        {| type := graft_origin;
           timestamp := createdAt sprout;
           sproutId := id sprout;
           sproutTitle := title sprout;
           data := graftData (ES.orElse (option_map title parent) "previous sprout") |}) ;;
    Eff.forOf (ES.orEmpty (waterEntries sprout)) (fun water =>
      push entries
        {| type := watering;
           timestamp := water_timestamp water;
           sproutId := id sprout;
           sproutTitle := title sprout;
           data := journalData (water_content water) (water_prompt water) |}) ;;
    ifTruthy (completedAt sprout) (fun completedAt =>
      push entries
        {| type := completion;
           timestamp := completedAt;
           sproutId := id sprout;
           sproutTitle := title sprout;
           data := completionData (result sprout) (reflection sprout)
                     (SproutState_eqb (state sprout) completed) |})) ;;
  sortInPlace entries byTimestampDesc.

(** The completion entry carries a graft button when the entry is a
    success and its sprout is found in [sprouts]. *)
Definition renderLogEntry (entry : LogEntry) (sprouts : list Sprout) : EntryHtml :=
  match type entry with
  | sprout_start =>
      {| html_class := "log-entry-start"; html_sproutId := sproutId entry;
         html_label := "Planted"; html_success := None; html_graftBtn := None |}
  | watering =>
      {| html_class := "log-entry-water"; html_sproutId := sproutId entry;
         html_label := "Watered"; html_success := None; html_graftBtn := None |}
  | completion =>
      let sprout := find (fun s => String.eqb (id s) (sproutId entry)) sprouts in
      let isCompleted := match data_isSuccess (data entry) with
                         | Some b => b
                         | None => false
                         end in
      {| html_class := "log-entry-completion"; html_sproutId := sproutId entry;
         html_label := if isCompleted then "Harvested" else "Pruned";
         html_success := Some isCompleted;
         html_graftBtn :=
           match sprout with
           | Some _ => if isCompleted then Some (sproutId entry) else None
           | None => None
           end |}
  | graft_origin =>
      {| html_class := "log-entry-graft"; html_sproutId := sproutId entry;
         html_label := "Grafted"; html_success := None; html_graftBtn := None |}
  | shining =>
      {| html_class := ""; html_sproutId := ""; html_label := "";
         html_success := None; html_graftBtn := None |}
  end.

Definition renderGraftForm : option GraftForm :=
  Some {| formHidden := true; triggerHidden := false; titleValue := "";
          seasonBtnSelected := None; envBtnSelected := None;
          soilCostText := None; soilCostWarning := false;
          confirmDisabled := true |}.

Definition wireLogEvents : M unit := Eff.ret tt.

Definition byCreatedAtDesc (a b : Sprout) : ES.number :=
  ES.numSub (dateValue (createdAt b)) (dateValue (createdAt a)).

Definition render : M unit :=
  leaf <- getLeaf ;;
  match leaf with
  | None => Eff.ret tt
  | Some _ =>
      sproutsRef <- getSprouts ;;
      sprouts <- readSprouts sproutsRef ;;
      let active := getActiveSprouts sprouts in
      logRef <- buildUnifiedLog sproutsRef ;;
      logEntries <- readEntries logRef ;;
      let sortedSprouts := ES.sort byCreatedAtDesc sprouts in
      let topSprout := head sortedSprouts in
      Eff.modify (set_header (ES.orElse (option_map title topSprout) "Untitled")
                             (length logEntries, length active)) ;;
      match logEntries with
      | [] => Eff.modify (set_logEl LogEmpty)
      | _ :: _ =>
          Eff.modify (set_logEl
            (LogEntries renderGraftForm
                        (map (fun e => renderLogEntry e sprouts) logEntries))) ;;
          wireLogEvents
      end
  end.

Definition graftSection (l : LogHtml) : option GraftForm := LeafView.graftSection l.

Definition updateGraftFormState : M unit :=
  w <- Eff.get ;;
  match graftSection (logEl w) with
  | None => Eff.ret tt
  | Some form =>
      let title := ES.trim (titleValue form) in
      match selectedSeason w, selectedEnvironment w with
      | Some season, Some env =>
          let cost := calculateSoilCost season env in
          available <- getSoilAvailable ;;
          canAfford <- canAffordSoil cost ;;
          LeafView.setGraftSection
            {| formHidden := formHidden form; triggerHidden := triggerHidden form;
               titleValue := titleValue form;
               seasonBtnSelected := seasonBtnSelected form;
               envBtnSelected := envBtnSelected form;
               soilCostText := Some (cost, available);
               soilCostWarning := negb canAfford;
               confirmDisabled := String.eqb title "" || negb canAfford |}
      | _, _ =>
          LeafView.setGraftSection
            {| formHidden := formHidden form; triggerHidden := triggerHidden form;
               titleValue := titleValue form;
               seasonBtnSelected := seasonBtnSelected form;
               envBtnSelected := envBtnSelected form;
               soilCostText := None;
               soilCostWarning := soilCostWarning form;
               confirmDisabled := true |}
      end
  end.

Definition hideGraftForm : M unit :=
  w <- Eff.get ;;
  match graftSection (logEl w) with
  | None => Eff.ret tt
  | Some form =>
      LeafView.setGraftSection
        {| formHidden := true; triggerHidden := triggerHidden form;
           titleValue := "";
           seasonBtnSelected := None; envBtnSelected := None;
           soilCostText := soilCostText form;
           soilCostWarning := soilCostWarning form;
           confirmDisabled := confirmDisabled form |} ;;
      Eff.modify (set_selectedSeason None) ;;
      Eff.modify (set_selectedEnvironment None) ;;
      Eff.modify (set_graftFromSproutId None)
  end.

(** The click handler of a [.log-graft-btn]: the only assignment of a
    sprout id to [graftFromSproutId]. *)
Definition clickGraftBtn (btn : EntryHtml) : M unit :=
  match html_graftBtn btn with
  | None => Eff.ret tt
  | Some sproutId =>
      if String.eqb sproutId "" then Eff.ret tt
      else
        Eff.modify (set_graftFromSproutId (Some sproutId)) ;;
        w <- Eff.get ;;
        match graftSection (logEl w) with
        | None => Eff.throw
        | Some form =>
            LeafView.setGraftSection
              {| formHidden := false; triggerHidden := triggerHidden form;
                 titleValue := titleValue form;
                 seasonBtnSelected := seasonBtnSelected form;
                 envBtnSelected := envBtnSelected form;
                 soilCostText := soilCostText form;
                 soilCostWarning := soilCostWarning form;
                 confirmDisabled := confirmDisabled form |} ;;
            updateGraftFormState
        end
  end.

Definition doGraft : M unit :=
  w <- Eff.get ;;
  match currentTwigId w, graftFromSproutId w, selectedSeason w, selectedEnvironment w with
  | Some twigId, Some fromId, Some season, Some env =>
      if String.eqb twigId "" || String.eqb fromId "" then Eff.ret tt
      else
        match graftSection (logEl w) with
        | None => Eff.ret tt
        | Some form =>
            let title := ES.trim (titleValue form) in
            if String.eqb title "" then Eff.ret tt
            else
              let cost := calculateSoilCost season env in
              affordable <- canAffordSoil cost ;;
              if negb affordable then Eff.ret tt
              else
                spendSoil cost ;;
                logCall OnSoilChange ;;
                match getEndDate season (Some (now w)) with
                | None => Eff.throw
                | Some endDate =>
                    let input :=
                      {| in_title := title; in_season := season;
                         in_environment := env; in_state := active;
                         in_soilCost := cost;
                         in_activatedAt := formatISO (now w);
                         in_endDate := formatISO endDate |} in
                    Eff.modify (fun w' =>
                      set_nodeState (graftSprout twigId fromId input (nodeState w')) w') ;;
                    logCall (GraftSprout twigId fromId input) ;;
                    hideGraftForm ;;
                    render ;;
                    logCall OnSave
                end
        end
  | _, _, _, _ => Eff.ret tt
  end.

End Code.

End LeafViewOrigin.

(** ** [src/features/shine-dialog.ts] *)
Module ShineDialog.

Import Types.

(** The argument of [openShineDialog]. *)
Record ShineSprout : Type := {
  shine_id : string;
  shine_title : string;
  shine_twigId : string;
  shine_twigLabel : string;
}.

Inductive StatusType : Type := info | warning | error.

(** Calls that leave the file: into [../state] and the dialog callbacks. *)
Inductive Call : Type :=
  | WasShoneThisWeek (twigId : string) (answer : bool)
  | CanAffordSun (answer : bool)
  | SpendSun (spent : bool)
  | AddSunEntry (twigId content prompt : string)
  | OnSetStatus (message : string) (kind : StatusType)
  | OnSunMeterChange.

(** [ctx.elements]: the dialog, its texts, the journal textarea, the save
    button and the sun meter.  The meter's width is the ratio
    [available / capacity * 100] kept as a fraction, its text the pair
    [available / capacity]. *)
Record Elements : Type := {
  shineDialogHidden : bool;
  shineDialogTitle : string;
  shineDialogMeta : string;
  shineDialogJournal : string;
  journalPlaceholder : string;
  journalFocused : bool;
  shineDialogSaveDisabled : bool;
  sunMeterFill : Z * Z;
  sunMeterValue : Z * Z;
}.

Definition set_hidden (b : bool) (e : Elements) : Elements :=
  {| shineDialogHidden := b; shineDialogTitle := shineDialogTitle e;
     shineDialogMeta := shineDialogMeta e; shineDialogJournal := shineDialogJournal e;
     journalPlaceholder := journalPlaceholder e; journalFocused := journalFocused e;
     shineDialogSaveDisabled := shineDialogSaveDisabled e;
     sunMeterFill := sunMeterFill e; sunMeterValue := sunMeterValue e |}.

Definition set_title (t : string) (e : Elements) : Elements :=
  {| shineDialogHidden := shineDialogHidden e; shineDialogTitle := t;
     shineDialogMeta := shineDialogMeta e; shineDialogJournal := shineDialogJournal e;
     journalPlaceholder := journalPlaceholder e; journalFocused := journalFocused e;
     shineDialogSaveDisabled := shineDialogSaveDisabled e;
     sunMeterFill := sunMeterFill e; sunMeterValue := sunMeterValue e |}.

Definition set_meta (t : string) (e : Elements) : Elements :=
  {| shineDialogHidden := shineDialogHidden e; shineDialogTitle := shineDialogTitle e;
     shineDialogMeta := t; shineDialogJournal := shineDialogJournal e;
     journalPlaceholder := journalPlaceholder e; journalFocused := journalFocused e;
     shineDialogSaveDisabled := shineDialogSaveDisabled e;
     sunMeterFill := sunMeterFill e; sunMeterValue := sunMeterValue e |}.

Definition set_journal (v : string) (e : Elements) : Elements :=
  {| shineDialogHidden := shineDialogHidden e; shineDialogTitle := shineDialogTitle e;
     shineDialogMeta := shineDialogMeta e; shineDialogJournal := v;
     journalPlaceholder := journalPlaceholder e; journalFocused := journalFocused e;
     shineDialogSaveDisabled := shineDialogSaveDisabled e;
     sunMeterFill := sunMeterFill e; sunMeterValue := sunMeterValue e |}.

Definition set_placeholder (v : string) (e : Elements) : Elements :=
  {| shineDialogHidden := shineDialogHidden e; shineDialogTitle := shineDialogTitle e;
     shineDialogMeta := shineDialogMeta e; shineDialogJournal := shineDialogJournal e;
     journalPlaceholder := v; journalFocused := journalFocused e;
     shineDialogSaveDisabled := shineDialogSaveDisabled e;
     sunMeterFill := sunMeterFill e; sunMeterValue := sunMeterValue e |}.

Definition set_focused (b : bool) (e : Elements) : Elements :=
  {| shineDialogHidden := shineDialogHidden e; shineDialogTitle := shineDialogTitle e;
     shineDialogMeta := shineDialogMeta e; shineDialogJournal := shineDialogJournal e;
     journalPlaceholder := journalPlaceholder e; journalFocused := b;
     shineDialogSaveDisabled := shineDialogSaveDisabled e;
     sunMeterFill := sunMeterFill e; sunMeterValue := sunMeterValue e |}.

Definition set_saveDisabled (b : bool) (e : Elements) : Elements :=
  {| shineDialogHidden := shineDialogHidden e; shineDialogTitle := shineDialogTitle e;
     shineDialogMeta := shineDialogMeta e; shineDialogJournal := shineDialogJournal e;
     journalPlaceholder := journalPlaceholder e; journalFocused := journalFocused e;
     shineDialogSaveDisabled := b;
     sunMeterFill := sunMeterFill e; sunMeterValue := sunMeterValue e |}.

Definition set_sunMeter (fill value : Z * Z) (e : Elements) : Elements :=
  {| shineDialogHidden := shineDialogHidden e; shineDialogTitle := shineDialogTitle e;
     shineDialogMeta := shineDialogMeta e; shineDialogJournal := shineDialogJournal e;
     journalPlaceholder := journalPlaceholder e; journalFocused := journalFocused e;
     shineDialogSaveDisabled := shineDialogSaveDisabled e;
     sunMeterFill := fill; sunMeterValue := value |}.

Record World : Type := {
  nodeState : gmap string NodeData;
  sunAvailable : Z;
  sunCapacity : Z;
  now : Z;
  randoms : list Z;
  recentSunPrompts : list (option string);
  currentShiningSprout : option (string * string);
  elements : Elements;
  calls : list Call;
}.

Definition set_nodeState (n : gmap string NodeData) (w : World) : World :=
  {| nodeState := n; sunAvailable := sunAvailable w; sunCapacity := sunCapacity w;
     now := now w; randoms := randoms w; recentSunPrompts := recentSunPrompts w;
     currentShiningSprout := currentShiningSprout w; elements := elements w;
     calls := calls w |}.

Definition set_sunAvailable (s : Z) (w : World) : World :=
  {| nodeState := nodeState w; sunAvailable := s; sunCapacity := sunCapacity w;
     now := now w; randoms := randoms w; recentSunPrompts := recentSunPrompts w;
     currentShiningSprout := currentShiningSprout w; elements := elements w;
     calls := calls w |}.

Definition set_randoms (r : list Z) (w : World) : World :=
  {| nodeState := nodeState w; sunAvailable := sunAvailable w;
     sunCapacity := sunCapacity w; now := now w; randoms := r;
     recentSunPrompts := recentSunPrompts w;
     currentShiningSprout := currentShiningSprout w; elements := elements w;
     calls := calls w |}.

Definition set_recentSunPrompts (r : list (option string)) (w : World) : World :=
  {| nodeState := nodeState w; sunAvailable := sunAvailable w;
     sunCapacity := sunCapacity w; now := now w; randoms := randoms w;
     recentSunPrompts := r;
     currentShiningSprout := currentShiningSprout w; elements := elements w;
     calls := calls w |}.

Definition set_currentShiningSprout (c : option (string * string)) (w : World) : World :=
  {| nodeState := nodeState w; sunAvailable := sunAvailable w;
     sunCapacity := sunCapacity w; now := now w; randoms := randoms w;
     recentSunPrompts := recentSunPrompts w;
     currentShiningSprout := c; elements := elements w; calls := calls w |}.

Definition set_elements (e : Elements) (w : World) : World :=
  {| nodeState := nodeState w; sunAvailable := sunAvailable w;
     sunCapacity := sunCapacity w; now := now w; randoms := randoms w;
     recentSunPrompts := recentSunPrompts w;
     currentShiningSprout := currentShiningSprout w; elements := e;
     calls := calls w |}.

Definition set_calls (c : list Call) (w : World) : World :=
  {| nodeState := nodeState w; sunAvailable := sunAvailable w;
     sunCapacity := sunCapacity w; now := now w; randoms := randoms w;
     recentSunPrompts := recentSunPrompts w;
     currentShiningSprout := currentShiningSprout w; elements := elements w;
     calls := c |}.

Definition M : Type -> Type := Eff.M World.

Definition logCall (c : Call) : M unit :=
  Eff.modify (fun w => set_calls (calls w ++ [c]) w).

(** An assignment to a property of one of [ctx.elements]. *)
Definition element (f : Elements -> Elements) : M unit :=
  Eff.modify (fun w => set_elements (f (elements w)) w).

(** [callbacks.onSetStatus(message, type)]. *)
Definition onSetStatus (message : string) (kind : StatusType) : M unit :=
  logCall (OnSetStatus message kind).

(** *** The parts of [../state] the dialog imports

    [src/state] is not among the sources: its functions follow the
    contracts of sections 4.1 and 4.4 of the specification, and record
    their calls in the trace. *)

(** What the specification leaves open: the week boundary policy ("must be
    fixed and documented").  [inCurrentWeek now stamp] tells whether the
    timestamp falls in the calendar week of the instant [now]. *)
Class WeekPolicy : Type := { inCurrentWeek : Z -> string -> bool }.

Section Code.
Context {week : WeekPolicy}.

(** Modelled from the spec: [getSunAvailable] is missing; section 4.1,
    "availableSun() -> integer". *)
Definition getSunAvailable : M Z := fun w => (Some (sunAvailable w), w).

(** Modelled from the spec: [getSunCapacity] is missing; section 4.1,
    "sunCapacity() -> integer". *)
Definition getSunCapacity : M Z := fun w => (Some (sunCapacity w), w).

(** Modelled from the spec: the body of [wasShoneThisWeek] is missing;
    section 4.4, "computed by scanning the Twig's reflection-entry
    timestamps for any entry falling within the current calendar week". *)
Definition shoneThisWeek (w : World) (twigId : string) : bool :=
  match nodeState w !! twigId with
  | Some data =>
      existsb (fun e => inCurrentWeek (now w) (sun_timestamp e))
              (ES.orEmpty (twigSunEntries data))
  | None => false
  end.

(** Modelled from the spec: [wasShoneThisWeek] is missing; the scan above,
    recorded in the trace. *)
Definition wasShoneThisWeek (twigId : string) : M bool :=
  w <- Eff.get ;;
  let answer := shoneThisWeek w twigId in
  logCall (WasShoneThisWeek twigId answer) ;;
  Eff.ret answer.

(** Modelled from the spec: [canAffordSun] is missing; section 4.1,
    "analogous, fixed unit cost of 1 sun per reflection". *)
Definition canAffordSun : M bool :=
  w <- Eff.get ;;
  let answer := 1 <=? sunAvailable w in
  logCall (CanAffordSun answer) ;;
  Eff.ret answer.

(** Modelled from the spec: [spendSun] is missing; section 4.1, analogous
    to [spendSoil] with the unit cost 1, "decremented independent of
    weekly-gate logic". *)
Definition spendSun : M bool :=
  w <- Eff.get ;;
  if 1 >? sunAvailable w
  then logCall (SpendSun false) ;; Eff.ret false
  else Eff.modify (set_sunAvailable (sunAvailable w - 1)) ;;
       logCall (SpendSun true) ;;
       Eff.ret true.

(** Modelled from the spec: [addSunEntry] is missing; section 4.4, a
    reflection "appends exactly one reflection entry to the Twig", stamped
    with the current time. *)
Definition addSunEntry (twigId content prompt : string) : M unit :=
  w <- Eff.get ;;
  let entry := {| sun_timestamp := ESDate.formatISO (now w);
                  sun_content := content;
                  sun_prompt := Some prompt |} in
  let data :=
    match nodeState w !! twigId with
    | Some d => {| sprouts := sprouts d; leaves := leaves d;
                   twigSunEntries := Some (ES.orEmpty (twigSunEntries d) ++ [entry]) |}
    | None => {| sprouts := None; leaves := None; twigSunEntries := Some [entry] |}
    end in
  Eff.modify (set_nodeState (<[twigId := data]> (nodeState w))) ;;
  logCall (AddSunEntry twigId content prompt).

(** *** The module-level prompt pool *)

(** [sunPromptsRaw] is the text of the asset [sun-prompts.txt]. *)
Definition sunPrompts (sunPromptsRaw : string) : list string :=
  List.filter (fun line => negb (String.eqb line "") && negb (ES.startsWith line "#"))
              (map ES.trim (ES.split "010" sunPromptsRaw)).

Definition RECENT_SUN_PROMPT_LIMIT (pool : list string) : Z :=
  Z.min 10 (Z.of_nat (length pool) / 3).

(** [Math.random()]: the next draw, a multiple of [2^-53] in [0, 1), given
    by its numerator; draws come from the stream [randoms]. *)
Definition Math_random : M Z :=
  fun w => match randoms w with
           | r :: rest => (Some (r mod 2 ^ 53), set_randoms rest w)
           | [] => (Some 0, w)
           end.

(** [recentSunPrompts.includes(p)]. *)
Definition includes (recent : list (option string)) (p : string) : bool :=
  existsb (fun q => ES.strictEq p q) recent.

(** [getRandomSunPrompt]; [pool] is the module constant [sunPrompts].  The
    value is [undefined] ([None]) when the index is past the pool. *)
Definition getRandomSunPrompt (pool : list string) : M (option string) :=
  w <- Eff.get ;;
  let available := List.filter (fun p => negb (includes (recentSunPrompts w) p)) pool in
  let chosen := if (0 <? length available)%nat then available else pool in
  r <- Math_random ;;
  let index := r * Z.of_nat (length chosen) / 2 ^ 53 in
  let prompt := chosen !! Z.to_nat index in
  Eff.modify (fun w' => set_recentSunPrompts (recentSunPrompts w' ++ [prompt]) w') ;;
  w1 <- Eff.get ;;
  Eff.when (RECENT_SUN_PROMPT_LIMIT pool <? Z.of_nat (length (recentSunPrompts w1)))
    (Eff.modify (fun w' => set_recentSunPrompts (tail (recentSunPrompts w')) w')) ;;
  Eff.ret prompt.

(** *** The dialog *)

Definition updateSunMeter : M unit :=
  available <- getSunAvailable ;;
  capacity <- getSunCapacity ;;
  let pct := if 0 <? capacity then (available * 100, capacity) else (0, 1) in
  element (set_sunMeter pct (available, capacity)).

Definition updateRadiateButtonState : M unit :=
  w <- Eff.get ;;
  let hasContent :=
    (0 <? String.length (ES.trim (shineDialogJournal (elements w))))%nat in
  element (set_saveDisabled (negb hasContent)).

Definition openShineDialog (pool : list string) (sprout : ShineSprout) : M unit :=
  shone <- wasShoneThisWeek (shine_twigId sprout) ;;
  if shone
  then onSetStatus "Already reflected on this facet this week! Come back next week." warning
  else
    affordable <- canAffordSun ;;
    if negb affordable
    then onSetStatus "No sun left this week!" warning
    else
      Eff.modify (set_currentShiningSprout (Some (shine_id sprout, shine_twigId sprout))) ;;
      element (set_title (ES.orElse (Some (shine_title sprout)) "Untitled Sprout")) ;;
      element (set_meta (shine_twigLabel sprout)) ;;
      element (set_journal "") ;;
      prompt <- getRandomSunPrompt pool ;;
      element (set_placeholder (match prompt with
                                | Some p => p
                                | None => "undefined"
                                end)) ;;
      updateRadiateButtonState ;;
      element (set_hidden false) ;;
      element (set_focused true).

Definition closeShineDialog : M unit :=
  element (set_hidden true) ;;
  element (set_journal "") ;;
  Eff.modify (set_currentShiningSprout None).

Definition saveSunEntry : M unit :=
  w <- Eff.get ;;
  let entry := ES.trim (shineDialogJournal (elements w)) in
  if String.eqb entry "" then Eff.ret tt
  else
    affordable <- canAffordSun ;;
    if negb affordable
    then onSetStatus "No sun left this week!" warning ;;
         closeShineDialog
    else
      w1 <- Eff.get ;;
      match currentShiningSprout w1 with
      | Some (_, twigId) =>
          spendSun ;;
          updateSunMeter ;;
          w2 <- Eff.get ;;
          let prompt := journalPlaceholder (elements w2) in
          addSunEntry twigId entry prompt ;;
          onSetStatus "Light radiated on this life facet!" info
      | None => Eff.ret tt
      end ;;
      closeShineDialog.

End Code.

End ShineDialog.

(** ** The duration of a season in the words of the specification
    (section 4.2)

    "1w = 7 days, 2w = 14 days, 1m = +1 calendar month, 3m = +3 calendar
    months, 6m = +6 calendar months, 1y = +1 calendar year, all normalized
    to a fixed time-of-day anchor", on local time values. *)
Module Duration.

Import Types ESDate.

Definition days (s : SproutSeason) : option Z :=
  match s with
  | S1w => Some 7
  | S2w => Some 14
  | _ => None
  end.

(** A year is twelve months. *)
Definition months (s : SproutSeason) : option Z :=
  match s with
  | S1m => Some 1
  | S3m => Some 3
  | S6m => Some 6
  | S1y => Some 12
  | _ => None
  end.

Definition plusDays (k lt : Z) : Z := lt + k * msPerDay.

(** The year and month [k] months after month [m] of year [y]. *)
Definition monthAfter (y m k : Z) : Z * Z := (y + (m + k) / 12, (m + k) mod 12).

(** [k] calendar months after [lt]: the same date and time of day in the
    month [k] later, counting on from the first of that month, so that a
    date past its end runs into the month after. *)
Definition plusMonths (k lt : Z) : Z :=
  let '(y, m) := monthAfter (YearFromTime lt) (MonthFromTime lt) k in
  MakeDate (MakeDay y m 1 + (DateFromTime lt - 1)) (TimeWithinDay lt).

Definition plus (s : SproutSeason) (lt : Z) : Z :=
  match s with
  | S1w => plusDays 7 lt
  | S2w => plusDays 14 lt
  | S1m => plusMonths 1 lt
  | S3m => plusMonths 3 lt
  | S6m => plusMonths 6 lt
  | S1y => plusMonths 12 lt
  end.

(** The anchor 15:00:00.000 UTC on the UTC day of the instant [t]. *)
Definition anchored (t : Z) : Z := MakeDate (Day t) (15 * msPerHour).

End Duration.

(** ** Prompt rotation and reflections in the words of the specification
    (section 4.4) *)
Module Rotation.

Import Types ShineDialog.

(** The last [k] elements of a list (all of it when it is shorter). *)
Definition lastN {A : Type} (k : nat) (xs : list A) : list A :=
  skipn (length xs - k) xs.

(** The bound [k] of the recent-prompt buffer, as a count. *)
Definition limit (pool : list string) : nat :=
  Z.to_nat (RECENT_SUN_PROMPT_LIMIT pool).

(** [n] calls of [getRandomSunPrompt] in a row: the prompts returned, oldest
    first, and the world reached. *)
Fixpoint draws (pool : list string) (n : nat) (w : World)
  : list (option string) * World :=
  match n with
  | O => ([], w)
  | S n' =>
      match getRandomSunPrompt pool w with
      | (Some p, w1) => let '(ps, w2) := draws pool n' w1 in (p :: ps, w2)
      | (None, w1) => ([], w1)
      end
  end.

(** The reflection entries recorded on a twig. *)
Definition reflections (w : World) (twigId : string) : list SunEntry :=
  match nodeState w !! twigId with
  | Some data => ES.orEmpty (twigSunEntries data)
  | None => []
  end.

End Rotation.

(** ** The commit discipline of a graft handler (sections 3 and 7)

    "Every spend is preceded by an affordability check using the same cost
    function the spend consumes" and "no operation partially mutates state
    on failure", stated on the calls a handler adds to the trace. *)
Module Commit.

Import Types View State.

Definition spendsOnlyAfterCheck {api : StateApi} (handler : M unit) : Prop :=
  forall w : World,
    let w' := snd (handler w) in
    exists added,
      calls w' = calls w ++ added
      /\ guardedSpends None added = true
      /\ (forall c ok, In (SpendSoil c ok) added ->
            ok = true /\ c <= soilAvailable w
            /\ exists season env,
                 selectedSeason w = Some season /\ selectedEnvironment w = Some env
                 /\ c = calculateSoilCost season env)
      /\ (forall c, In (CanAffordSoil c false) added ->
            w' = set_calls (calls w ++ [CanAffordSoil c false]) w).

End Commit.

(** ** Where a graft may start (section 3)

    The sprouts of the leaf on view, and the graft entry points of a
    rendered log: the graft section of [leaf-view.ts] and, in the
    origin-chaining revision, the graft buttons with the sprout each one
    names. *)
Module Offer.

Import Types View.

(** The sprouts of the current leaf: what [getSprouts] reads out of
    [nodeState]. *)
Definition leafSprouts (w : World) : list Sprout :=
  match currentTwigId w, currentLeafId w with
  | Some twigId, Some leaf =>
      if String.eqb twigId "" || String.eqb leaf "" then []
      else match nodeState w !! twigId with
           | Some data =>
               match sprouts data with
               | Some all => filter (fun s => ES.strictEq leaf (leafId s) = true) all
               | None => []
               end
           | None => []
           end
  | _, _ => []
  end.

Definition offersGraftSection (l : LogHtml) : Prop :=
  exists form, LeafView.graftSection l = Some form.

(** The sprout named [origin] is on the leaf and completed. *)
Definition completedOnLeaf (w : World) (origin : string) : Prop :=
  exists s, In s (leafSprouts w) /\ id s = origin /\ state s = completed.

(** The grafts a step from [w] to [w'] committed: the calls of
    [graftFromLeaf] and of [graftSprout] added to the trace. *)
Definition leafGrafts (added : list Call) : list (string * string) :=
  flat_map (fun c => match c with
                     | GraftFromLeaf twigId leaf _ => [(twigId, leaf)]
                     | _ => []
                     end) added.

Definition sproutGrafts (added : list Call) : list (string * string) :=
  flat_map (fun c => match c with
                     | GraftSprout twigId origin _ => [(twigId, origin)]
                     | _ => []
                     end) added.

Definition graftButtons (l : LogHtml) : list string :=
  match l with
  | LogEntries _ entries =>
      flat_map (fun e => match html_graftBtn e with
                         | Some origin => [origin]
                         | None => []
                         end) entries
  | _ => []
  end.

End Offer.

(** ** The timeline in the words of the specification (section 4.3)

    What each sprout expands into, written as a list; the theorems below
    compare the array that the code fills and sorts with it. *)
Module Timeline.

Import Types.

(** A field is set when it holds a non-empty string. *)
Definition isSet (field : option string) : Prop :=
  exists v, field = Some v /\ v <> "".

(** The origin of [sprout] resolves when some sprout of the same sequence
    carries the id. *)
Definition resolves (all : list Sprout) (sprout : Sprout) : Prop :=
  exists origin, In origin all /\ Some (id origin) = graftedFromId sprout.

Definition startEvent (sprout : Sprout) : LogEntry :=
  {| type := sprout_start;
     timestamp := match activatedAt sprout with
                  | Some a => if String.eqb a "" then createdAt sprout else a
                  | None => createdAt sprout
                  end;
     sproutId := id sprout; sproutTitle := title sprout;
     data := startData (season sprout) (environment sprout) |}.

(** The label of a graft origin: the title of the first sprout of the
    sequence with the origin's id, or the placeholder. *)
Definition originLabel (all : list Sprout) (origin : string) : string :=
  match find (fun s => String.eqb (id s) origin) all with
  | Some parent => if String.eqb (title parent) "" then "previous sprout" else title parent
  | None => "previous sprout"
  end.

Definition graftOriginEvents (all : list Sprout) (sprout : Sprout) : list LogEntry :=
  match graftedFromId sprout with
  | Some origin =>
      if String.eqb origin "" then []
      else [ {| type := graft_origin; timestamp := createdAt sprout;
                sproutId := id sprout; sproutTitle := title sprout;
                data := graftData (originLabel all origin) |} ]
  | None => []
  end.

Definition wateringEvents (sprout : Sprout) : list LogEntry :=
  map (fun water =>
         {| type := watering; timestamp := water_timestamp water;
            sproutId := id sprout; sproutTitle := title sprout;
            data := journalData (water_content water) (water_prompt water) |})
      (ES.orEmpty (waterEntries sprout)).

Definition shiningEvents (sprout : Sprout) : list LogEntry :=
  map (fun sun =>
         {| type := shining; timestamp := sun_timestamp sun;
            sproutId := id sprout; sproutTitle := title sprout;
            data := journalData (sun_content sun) (sun_prompt sun) |})
      (ES.orEmpty (sunEntries sprout)).

Definition completionEvents (sprout : Sprout) : list LogEntry :=
  match completedAt sprout with
  | Some at_ =>
      if String.eqb at_ "" then []
      else [ {| type := completion; timestamp := at_;
                sproutId := id sprout; sproutTitle := title sprout;
                data := completionData (result sprout) (reflection sprout)
                          (SproutState_eqb (state sprout) completed) |} ]
  | None => []
  end.

(** The four kinds of events a sprout expands into. *)
Definition events (all : list Sprout) (sprout : Sprout) : list LogEntry :=
  startEvent sprout :: graftOriginEvents all sprout
    ++ wateringEvents sprout ++ completionEvents sprout.

(** The same with the reflection ([shining]) events of [leaf-view.ts]. *)
Definition eventsWithShining (all : list Sprout) (sprout : Sprout) : list LogEntry :=
  startEvent sprout :: graftOriginEvents all sprout
    ++ wateringEvents sprout ++ shiningEvents sprout ++ completionEvents sprout.

(** Every timestamp a sprout carries: [createdAt], the set [activatedAt]
    and [completedAt], and those of its journal entries. *)
Definition setValue (field : option string) : list string :=
  match field with
  | Some v => if String.eqb v "" then [] else [v]
  | None => []
  end.

Definition timestamps (sprout : Sprout) : list string :=
  createdAt sprout
    :: setValue (activatedAt sprout)
    ++ setValue (completedAt sprout)
    ++ map water_timestamp (ES.orEmpty (waterEntries sprout))
    ++ map sun_timestamp (ES.orEmpty (sunEntries sprout)).

Section Order.
Context {parser : DateParse}.

(** [a] is not older than [b]: both timestamps are dates and [a]'s is the
    later or the same instant. *)
Definition notOlder (a b : LogEntry) : Prop :=
  exists ta tb, dateValue (timestamp a) = Some ta
                /\ dateValue (timestamp b) = Some tb /\ tb <= ta.

(** Every timestamp of the sprouts is a date the host can read. *)
Definition validDates (sprouts : list Sprout) : Prop :=
  Forall (fun t => dateValue t <> None) (flat_map timestamps sprouts).

End Order.

End Timeline.

(** ** A concrete host and the end-to-end scenario of the specification

    The scenario of section 8: a one-month sprout completed with result 4
    and a successor grafted from it; on it the definitions above are run. *)
Module Demo.

Import Types View.

Definition utcZone : ESDate.TimeZone := {| ESDate.LocalTZA := fun _ _ => 0 |}.

(** A zone nine hours ahead of UTC with no daylight saving. *)
Definition tokyoZone : ESDate.TimeZone := {| ESDate.LocalTZA := fun _ _ => 32400000 |}.

Definition isoParser : DateParse := {| dateValue := ESDate.parseISO |}.

Definition first : Sprout :=
  {| id := "sprout-1"; title := "Run 5k"; season := S1m; environment := firm;
     state := completed; soilCost := 20;
     createdAt := "2024-01-01T09:00:00.000Z";
     activatedAt := Some "2024-01-01T09:00:00.000Z";
     completedAt := Some "2024-02-01T18:30:00.000Z";
     endDate := Some "2024-02-01T15:00:00.000Z";
     result := Some 4; reflection := Some "steady";
     leafId := Some "leaf-1"; graftedFromId := None;
     waterEntries :=
       Some [ {| water_timestamp := "2024-01-10T08:00:00.000Z";
                 water_content := "ran two kilometres"; water_prompt := None |} ];
     sunEntries := None |}.

Definition successor : Sprout :=
  {| id := "sprout-2"; title := "Run 10k"; season := S1w; environment := fertile;
     state := active; soilCost := 5;
     createdAt := "2024-02-02T10:00:00.000Z";
     activatedAt := Some "2024-02-02T10:00:00.000Z";
     completedAt := None;
     endDate := Some "2024-02-09T15:00:00.000Z";
     result := None; reflection := None;
     leafId := Some "leaf-1"; graftedFromId := Some "sprout-1";
     waterEntries := None; sunEntries := None |}.

(** A sprout grafted from an origin that is not in the sequence. *)
Definition orphan : Sprout :=
  {| id := "sprout-3"; title := "Swim"; season := S2w; environment := barren;
     state := active; soilCost := 8;
     createdAt := "2024-02-05T07:00:00.000Z";
     activatedAt := None; completedAt := None; endDate := None;
     result := None; reflection := None;
     leafId := Some "leaf-1"; graftedFromId := Some "sprout-0";
     waterEntries := None; sunEntries := None |}.

(** A cultivated sprout with one reflection of its own. *)
Definition cultivated : Sprout :=
  {| id := "sprout-4"; title := "Read"; season := S3m; environment := fertile;
     state := active; soilCost := 9;
     createdAt := "2024-02-06T07:00:00.000Z";
     activatedAt := None; completedAt := None; endDate := None;
     result := None; reflection := None;
     leafId := Some "leaf-1"; graftedFromId := None;
     waterEntries := None;
     sunEntries :=
       Some [ {| sun_timestamp := "2024-02-07T07:00:00.000Z";
                 sun_content := "a good week"; sun_prompt := None |} ] |}.

(** A cost table growing with the season and with the environment, and
    grafts that append the new sprout to the twig's collection. *)
Definition seasonBase (s : SproutSeason) : Z :=
  match s with
  | S1w => 1 | S2w => 2 | S1m => 3 | S3m => 5 | S6m => 8 | S1y => 12
  end.

Definition environmentFactor (e : SproutEnvironment) : Z :=
  match e with
  | fertile => 1 | firm => 2 | barren => 3
  end.

Definition planted (leaf origin : option string) (input : SproutInput) (n : nat) : Sprout :=
  {| id := String.append "sprout-new-" (ESDate.padDigits 3 (Z.of_nat n) "");
     title := in_title input; season := in_season input;
     environment := in_environment input; state := in_state input;
     soilCost := in_soilCost input;
     createdAt := in_activatedAt input;
     activatedAt := Some (in_activatedAt input);
     completedAt := None; endDate := Some (in_endDate input);
     result := None; reflection := None;
     leafId := leaf; graftedFromId := origin;
     waterEntries := None; sunEntries := None |}.

Definition addSprout (twigId : string) (make : nat -> Sprout)
    (nodes : gmap string NodeData) : gmap string NodeData :=
  match nodes !! twigId with
  | Some data =>
      let old := ES.orEmpty (sprouts data) in
      <[twigId := {| sprouts := Some (old ++ [make (length old)]);
                     leaves := leaves data;
                     twigSunEntries := twigSunEntries data |}]> nodes
  | None => nodes
  end.

Definition api : State.StateApi :=
  {| State.calculateSoilCost := fun s e => seasonBase s * environmentFactor e;
     State.graftFromLeaf := fun twigId leaf input =>
       addSprout twigId (planted (Some leaf) None input);
     State.graftSprout := fun twigId origin input =>
       addSprout twigId (planted (Some "leaf-1") (Some origin) input) |}.

(** A world whose store holds the array [ss] at location 0. *)
Definition worldWith (ss : list Sprout) : World :=
  {| heap := [SproutArr ss];
     nodeState :=
       {[ "twig-1" :=
            {| sprouts := Some ss;
               leaves := Some [ {| leaf_id := "leaf-1"; leaf_status := "active";
                                   leaf_createdAt := "2024-01-01T09:00:00.000Z" |} ];
               twigSunEntries := None |} ]};
     soilAvailable := 100;
     now := 1709294400000;
     currentTwigId := Some "twig-1";
     currentLeafId := Some "leaf-1";
     graftFromSproutId := None;
     selectedSeason := None;
     selectedEnvironment := None;
     logEl := LogBlank;
     titleEl := "";
     metaEl := (0%nat, 0%nat);
     calls := [] |}.

(** Weeks that start on Monday 00:00 UTC (day 0 of the epoch is a
    Thursday); an unreadable timestamp is in no week. *)
Definition mondayWeek : ShineDialog.WeekPolicy :=
  {| ShineDialog.inCurrentWeek := fun now stamp =>
       match ESDate.parseISO stamp with
       | Some t => (ESDate.Day t + 3) / 7 =? (ESDate.Day now + 3) / 7
       | None => false
       end |}.

(** The text of a prompt file: comments, blank lines and three prompts. *)
Definition promptFile : string :=
  "# Sun prompts
What mattered most this week?

   Where did your energy go?  
What will you let go of?
# end".

Definition prompts : list string := ShineDialog.sunPrompts promptFile.

Definition closedDialog : ShineDialog.Elements :=
  {| ShineDialog.shineDialogHidden := true;
     ShineDialog.shineDialogTitle := "";
     ShineDialog.shineDialogMeta := "";
     ShineDialog.shineDialogJournal := "";
     ShineDialog.journalPlaceholder := "";
     ShineDialog.journalFocused := false;
     ShineDialog.shineDialogSaveDisabled := true;
     ShineDialog.sunMeterFill := (0, 1);
     ShineDialog.sunMeterValue := (0, 0) |}.

(** Friday 2024-03-01 noon; the twig was reflected on the Tuesday before. *)
Definition shineWorld (sun : Z) : ShineDialog.World :=
  {| ShineDialog.nodeState :=
       {[ "twig-1" :=
            {| sprouts := None; leaves := None;
               twigSunEntries :=
                 Some [ {| sun_timestamp := "2024-02-27T10:00:00.000Z";
                           sun_content := "slow and steady";
                           sun_prompt := Some "What mattered most this week?" |} ] |} ]};
     ShineDialog.sunAvailable := sun;
     ShineDialog.sunCapacity := 3;
     ShineDialog.now := 1709294400000;
     ShineDialog.randoms := [6004799503160661; 123456789; 9007199254740991];
     ShineDialog.recentSunPrompts := [];
     ShineDialog.currentShiningSprout := None;
     ShineDialog.elements := closedDialog;
     ShineDialog.calls := [] |}.

Definition shineSprout : ShineDialog.ShineSprout :=
  {| ShineDialog.shine_id := "sprout-2"; ShineDialog.shine_title := "Run 10k";
     ShineDialog.shine_twigId := "twig-1"; ShineDialog.shine_twigLabel := "Health" |}.

(** The dialog open on [shineSprout] with a journal text typed in. *)
Definition journalling (sun : Z) : ShineDialog.World :=
  ShineDialog.set_currentShiningSprout (Some ("sprout-2", "twig-1"))
    (ShineDialog.set_elements
       (ShineDialog.set_placeholder "Where did your energy go?"
          (ShineDialog.set_journal "  into running  "
             (ShineDialog.set_hidden false closedDialog)))
       (shineWorld sun)).

(** The graft form filled in for a one-week fertile sprout (cost 1), over a
    ledger holding [soil]. *)
Definition filledForm : GraftForm :=
  {| formHidden := false; triggerHidden := true; titleValue := "  Run 10k ";
     seasonBtnSelected := Some S1w; envBtnSelected := Some fertile;
     soilCostText := None; soilCostWarning := false; confirmDisabled := false |}.

Definition graftReady (soil : Z) : World :=
  set_soilAvailable soil
    (set_graftFromSproutId (Some "sprout-1")
      (set_selectedSeason (Some S1w)
        (set_selectedEnvironment (Some fertile)
          (set_logEl (LogEntries (Some filledForm) []) (worldWith [first]))))).

End Demo.

(** ** The rest of [src/ui/leaf-view.ts]: relative dates, the listeners of
    the graft form and the api of the view *)
Module LeafViewApi.

Import Types View State ESDate.

(** The text [formatDateTime] returns.  The two locale formats are the
    host's: kept is which one is asked for and of which time value. *)
Inductive DateText : Type :=
  | LocaleTime (tv : Z)
  | Yesterday
  | DaysAgo (days : Z)
  | LocaleDate (tv : ES.number).

(** The assignments to [currentTwigId] and [currentLeafId]. *)
Definition set_current (twigId leafId : option string) (w : World) : World :=
  {| heap := heap w; nodeState := nodeState w; soilAvailable := soilAvailable w;
     now := now w; currentTwigId := twigId; currentLeafId := leafId;
     graftFromSproutId := graftFromSproutId w;
     selectedSeason := selectedSeason w;
     selectedEnvironment := selectedEnvironment w; logEl := logEl w;
     titleEl := titleEl w; metaEl := metaEl w; calls := calls w |}.

(** The view with its container: [isOpenClass] is the presence of the
    class [is-open] on it. *)
Record Panel : Type := {
  world : World;
  isOpenClass : bool;
}.

Definition P : Type -> Type := Eff.M Panel.

(** A computation of the closures run inside the panel. *)
Definition inWorld {A : Type} (m : M A) : P A :=
  fun p => let '(r, w') := m (world p) in
           (r, {| world := w'; isOpenClass := isOpenClass p |}).

Definition setOpenClass (b : bool) : P unit :=
  Eff.modify (fun p => {| world := world p; isOpenClass := b |}).

(** [classList] changes of the form and of its trigger. *)
Definition setHidden (form trigger : bool) (f : GraftForm) : GraftForm :=
  {| formHidden := form; triggerHidden := trigger; titleValue := titleValue f;
     seasonBtnSelected := seasonBtnSelected f; envBtnSelected := envBtnSelected f;
     soilCostText := soilCostText f; soilCostWarning := soilCostWarning f;
     confirmDisabled := confirmDisabled f |}.

Section Code.
Context {tz : TimeZone} {parser : DateParse} {api : StateApi}.

(** [formatDateTime]; [debugNow] is the value of [getDebugNow()], imported
    from [../state].  [Math.floor(diff / 86400000)] is computed on doubles:
    it is the integer quotient below for instants less than [2^26] days
    apart (beyond, the rounded quotient can reach the next integer).  An
    invalid date makes [days] [NaN], which fails the three tests. *)
Definition formatDateTime (debugNow : Z) (dateStr : string) : DateText :=
  match dateValue dateStr with
  | None => LocaleDate None
  | Some t =>
      let diff := debugNow - t in
      let days := diff / (1000 * 60 * 60 * 24) in
      if days =? 0 then LocaleTime t
      else if days =? 1 then Yesterday
      else if days <? 7 then DaysAgo days
      else LocaleDate (Some t)
  end.

(** The click listener of a [.graft-season-btn] carrying [data-season]. *)
Definition onSeasonClick (s : SproutSeason) : M unit :=
  w <- Eff.get ;;
  match LeafView.graftSection (logEl w) with
  | None => Eff.ret tt
  | Some form =>
      LeafView.setGraftSection
        {| formHidden := formHidden form; triggerHidden := triggerHidden form;
           titleValue := titleValue form;
           seasonBtnSelected := Some s; envBtnSelected := envBtnSelected form;
           soilCostText := soilCostText form;
           soilCostWarning := soilCostWarning form;
           confirmDisabled := confirmDisabled form |} ;;
      Eff.modify (set_selectedSeason (Some s)) ;;
      LeafView.updateGraftFormState
  end.

(** The click listener of a [.graft-env-btn] carrying [data-env]. *)
Definition onEnvClick (e : SproutEnvironment) : M unit :=
  w <- Eff.get ;;
  match LeafView.graftSection (logEl w) with
  | None => Eff.ret tt
  | Some form =>
      LeafView.setGraftSection
        {| formHidden := formHidden form; triggerHidden := triggerHidden form;
           titleValue := titleValue form;
           seasonBtnSelected := seasonBtnSelected form; envBtnSelected := Some e;
           soilCostText := soilCostText form;
           soilCostWarning := soilCostWarning form;
           confirmDisabled := confirmDisabled form |} ;;
      Eff.modify (set_selectedEnvironment (Some e)) ;;
      LeafView.updateGraftFormState
  end.

(** The [input] listener of the title field, after the user has made its
    value [v] (the [maxlength] of the field is the browser's to enforce). *)
Definition onTitleInput (v : string) : M unit :=
  w <- Eff.get ;;
  match LeafView.graftSection (logEl w) with
  | None => Eff.ret tt
  | Some form =>
      LeafView.setGraftSection
        {| formHidden := formHidden form; triggerHidden := triggerHidden form;
           titleValue := v;
           seasonBtnSelected := seasonBtnSelected form;
           envBtnSelected := envBtnSelected form;
           soilCostText := soilCostText form;
           soilCostWarning := soilCostWarning form;
           confirmDisabled := confirmDisabled form |} ;;
      LeafView.updateGraftFormState
  end.

(** The click listener of the close button. *)
Definition onBackClick : M unit := logCall OnClose.

Definition isOpen : P bool := fun p => (Some (isOpenClass p), p).

(** The [keydown] listener on the document. *)
Definition onKeydown (key : string) : P unit :=
  opened <- isOpen ;;
  if String.eqb key "Escape" && opened
  then inWorld
         (w <- Eff.get ;;
          match LeafView.graftSection (logEl w) with
          | Some form =>
              if negb (formHidden form)
              then LeafView.setGraftSection (setHidden true false form)
              else logCall OnClose
          | None => logCall OnClose
          end)
  else Eff.ret tt.

(** [open(leafId, twigId, _branchIndex, startWithGraftForm)]; the branch
    index is not used. *)
Definition open (leaf twigId : string) (startWithGraftForm : bool) : P unit :=
  inWorld (Eff.modify (set_current (Some twigId) (Some leaf)) ;;
           Eff.modify (set_selectedSeason None) ;;
           Eff.modify (set_selectedEnvironment None) ;;
           LeafView.render) ;;
  setOpenClass true ;;
  if startWithGraftForm
  then inWorld
         (w <- Eff.get ;;
          match LeafView.graftSection (logEl w) with
          | Some form => LeafView.setGraftSection (setHidden false true form)
          | None => Eff.ret tt
          end)
  else Eff.ret tt.

Definition close : P unit :=
  setOpenClass false ;;
  inWorld (Eff.modify (set_current None None)).

End Code.

End LeafViewApi.

(** ** The api of the view in the origin-chaining revision
    ([src/unnamed/part_000]) *)
Module LeafViewOriginApi.

Import Types View State ESDate.

Section Code.
Context {tz : TimeZone} {parser : DateParse} {api : StateApi}.

(** The [keydown] listener on the document: this revision has no trigger
    to show again. *)
Definition onKeydown (key : string) : LeafViewApi.P unit :=
  opened <- LeafViewApi.isOpen ;;
  if String.eqb key "Escape" && opened
  then LeafViewApi.inWorld
         (w <- Eff.get ;;
          match LeafViewOrigin.graftSection (logEl w) with
          | Some form =>
              if negb (formHidden form)
              then LeafView.setGraftSection
                     (LeafViewApi.setHidden true (triggerHidden form) form)
              else logCall OnClose
          | None => logCall OnClose
          end)
  else Eff.ret tt.

(** [open(leafId, twigId, _branchIndex)]. *)
Definition open (leaf twigId : string) : LeafViewApi.P unit :=
  LeafViewApi.inWorld
    (Eff.modify (LeafViewApi.set_current (Some twigId) (Some leaf)) ;;
     Eff.modify (set_graftFromSproutId None) ;;
     Eff.modify (set_selectedSeason None) ;;
     Eff.modify (set_selectedEnvironment None) ;;
     LeafViewOrigin.render) ;;
  LeafViewApi.setOpenClass true.

Definition close : LeafViewApi.P unit :=
  LeafViewApi.setOpenClass false ;;
  LeafViewApi.inWorld (Eff.modify (LeafViewApi.set_current None None)).

End Code.

End LeafViewOriginApi.

(** ** The listeners registered by [initShineDialog] *)
Module ShineDialogEvents.

Import Types ShineDialog.

Section Code.
Context {week : WeekPolicy}.

(** The [input] listener of the journal, after the user has made its value
    [v]. *)
Definition onJournalInput (v : string) : M unit :=
  element (set_journal v) ;;
  updateRadiateButtonState.

(** The click listener of the dialog: [onDialog] tells whether the target
    of the event is the dialog itself (its backdrop). *)
Definition onDialogClick (onDialog : bool) : M unit :=
  if onDialog then closeShineDialog else Eff.ret tt.

(** The [keydown] listener on the document. *)
Definition onKeydown (key : string) : M unit :=
  w <- Eff.get ;;
  if String.eqb key "Escape" && negb (shineDialogHidden (elements w))
  then closeShineDialog
  else Eff.ret tt.

End Code.

End ShineDialogEvents.

(** ** The calls a step adds to the trace *)
Module Trace.

Import View.

(** The calls made between the world [w] and a later world [w']. *)
Definition added (w w' : World) : list Call :=
  skipn (length (calls w)) (calls w').

End Trace.

(** ** When the confirm button of the graft form is live *)
Module Confirm.

Import Types View State.

(** The test [updateGraftFormState] enables the button on: a title that is
    not blank, both selections made and their cost within the available
    soil. *)
Definition enabledFor {api : StateApi} (w : World) (form : GraftForm) : bool :=
  match selectedSeason w, selectedEnvironment w with
  | Some season, Some env =>
      negb (String.eqb (ES.trim (titleValue form)) "")
      && (calculateSoilCost season env <=? soilAvailable w)
  | _, _ => false
  end.

End Confirm.

(** ** Further scenes for the host of [Demo] *)
Module Scenes.

Import Types View.

(** The twig of [Demo.worldWith] with its sprout but without the leaf the
    sprout names. *)
Definition leafless : World :=
  set_nodeState
    {[ "twig-1" := {| sprouts := Some [Demo.first]; leaves := None;
                      twigSunEntries := None |} ]}
    (Demo.worldWith [Demo.first]).

(** A sprout without a title on a twig that has no reflection yet. *)
Definition untitled : ShineDialog.ShineSprout :=
  {| ShineDialog.shine_id := "sprout-9"; ShineDialog.shine_title := "";
     ShineDialog.shine_twigId := "twig-2"; ShineDialog.shine_twigLabel := "Work" |}.

(** The view open on the graft form of [Demo.graftReady]. *)
Definition openPanel : LeafViewApi.Panel :=
  {| LeafViewApi.world := Demo.graftReady 5; LeafViewApi.isOpenClass := true |}.

End Scenes.

(** ** The prompt file, line by line *)
Module Prompts.

(** What a parsed prompt looks like: not empty, no comment, nothing for
    [trim] to remove and no line feed inside. *)
Definition clean (p : string) : Prop :=
  p <> "" /\ ES.startsWith p "#" = false /\ ES.trim p = p
  /\ ~ In "010"%char (list_ascii_of_string p).

(** The text holding [ps] one to a line: [ps.join('\n')]. *)
Definition lines (ps : list string) : string := String.concat (String "010" "") ps.

End Prompts.

(** ** The texts of the log as markup

    [renderLogEntry] puts the id of the sprout into a double-quoted
    attribute and the title, the prompt, the content, the reflection and
    the title of the origin into the content of elements, each as it is,
    and [render] assigns the result to [innerHTML].  [EntryHtml] and
    [GraftForm] keep what the templates themselves produce.  That is all
    the browser builds when the texts are inert as markup: a text without
    [<] adds no element to the content it is put in, and an attribute
    value without the double quote, [&], CR and NUL is read back as it was
    written.  What the browser builds from markup inside a text is not
    modelled: the properties of what a rendered log offers are stated for
    inert texts. *)
Module Markup.

Import Types.

Definition hasChar (c : ascii) (s : string) : bool :=
  existsb (Ascii.eqb c) (list_ascii_of_string s).

(** A text interpolated into the content of an element. *)
Definition text (s : string) : bool := negb (hasChar "<" s).

(** A text interpolated into a double-quoted attribute. *)
Definition attribute (s : string) : bool :=
  negb (hasChar "034" s || hasChar "&" s || hasChar "013" s || hasChar "000" s).

Definition optionalText (o : option string) : bool :=
  match o with
  | Some s => text s
  | None => true
  end.

(** The texts of a sprout that reach the log: [buildUnifiedLog] copies
    them into the entries and [renderLogEntry] interpolates them. *)
Definition inertSprout (s : Sprout) : bool :=
  attribute (id s) && text (title s) && optionalText (reflection s)
  && forallb (fun e => text (water_content e) && optionalText (water_prompt e))
             (ES.orEmpty (waterEntries s))
  && forallb (fun e => text (sun_content e) && optionalText (sun_prompt e))
             (ES.orEmpty (sunEntries s)).

Definition inert (ss : list Sprout) : Prop :=
  Forall (fun s => inertSprout s = true) ss.

End Markup.

(** ** The listeners of a rendered log as events

    What a user can do to the log of [leaf-view.ts] between two renders,
    the confirm button aside: each event runs the listener that
    [wireLogEvents] registered for it.  An exception in a listener does
    not keep the next event from being dispatched. *)
Module LeafViewEvents.

Import Types View State.

Inductive Event : Type :=
  | Trigger
  | Season (s : SproutSeason)
  | Environment (e : SproutEnvironment)
  | Title (v : string)
  | Cancel
  | Back.

Section Code.
Context {api : StateApi}.

Definition handle (ev : Event) : M unit :=
  match ev with
  | Trigger => LeafView.showGraftForm
  | Season s => LeafViewApi.onSeasonClick s
  | Environment e => LeafViewApi.onEnvClick e
  | Title v => LeafViewApi.onTitleInput v
  | Cancel => LeafView.hideGraftForm
  | Back => LeafViewApi.onBackClick
  end.

(** The world after the events, in order. *)
Fixpoint after (evs : list Event) (w : World) : World :=
  match evs with
  | [] => w
  | ev :: rest => after rest (snd (handle ev w))
  end.

End Code.

End LeafViewEvents.

(** The same for the origin-chaining revision, which has no trigger but a
    graft button on completion entries: [GraftBtn n] is the click on the
    button of the [n]-th entry of the log on display, if it has one. *)
Module LeafViewOriginEvents.

Import Types View State.

Inductive Event : Type :=
  | GraftBtn (n : nat)
  | Season (s : SproutSeason)
  | Environment (e : SproutEnvironment)
  | Title (v : string)
  | Cancel
  | Back.

Section Code.
Context {api : StateApi}.

Definition entryAt (n : nat) (l : LogHtml) : option EntryHtml :=
  match l with
  | LogEntries _ entries => entries !! n
  | _ => None
  end.

(** The listeners of the season buttons, the environment buttons and the
    title field are the text of [leaf-view.ts]. *)
Definition onSeasonClick (s : SproutSeason) : M unit :=
  w <- Eff.get ;;
  match LeafViewOrigin.graftSection (logEl w) with
  | None => Eff.ret tt
  | Some form =>
      LeafView.setGraftSection
        {| formHidden := formHidden form; triggerHidden := triggerHidden form;
           titleValue := titleValue form;
           seasonBtnSelected := Some s; envBtnSelected := envBtnSelected form;
           soilCostText := soilCostText form;
           soilCostWarning := soilCostWarning form;
           confirmDisabled := confirmDisabled form |} ;;
      Eff.modify (set_selectedSeason (Some s)) ;;
      LeafViewOrigin.updateGraftFormState
  end.

Definition onEnvClick (e : SproutEnvironment) : M unit :=
  w <- Eff.get ;;
  match LeafViewOrigin.graftSection (logEl w) with
  | None => Eff.ret tt
  | Some form =>
      LeafView.setGraftSection
        {| formHidden := formHidden form; triggerHidden := triggerHidden form;
           titleValue := titleValue form;
           seasonBtnSelected := seasonBtnSelected form; envBtnSelected := Some e;
           soilCostText := soilCostText form;
           soilCostWarning := soilCostWarning form;
           confirmDisabled := confirmDisabled form |} ;;
      Eff.modify (set_selectedEnvironment (Some e)) ;;
      LeafViewOrigin.updateGraftFormState
  end.

Definition onTitleInput (v : string) : M unit :=
  w <- Eff.get ;;
  match LeafViewOrigin.graftSection (logEl w) with
  | None => Eff.ret tt
  | Some form =>
      LeafView.setGraftSection
        {| formHidden := formHidden form; triggerHidden := triggerHidden form;
           titleValue := v;
           seasonBtnSelected := seasonBtnSelected form;
           envBtnSelected := envBtnSelected form;
           soilCostText := soilCostText form;
           soilCostWarning := soilCostWarning form;
           confirmDisabled := confirmDisabled form |} ;;
      LeafViewOrigin.updateGraftFormState
  end.

Definition handle (ev : Event) : M unit :=
  match ev with
  | GraftBtn n =>
      w <- Eff.get ;;
      match entryAt n (logEl w) with
      | Some btn => LeafViewOrigin.clickGraftBtn btn
      | None => Eff.ret tt
      end
  | Season s => onSeasonClick s
  | Environment e => onEnvClick e
  | Title v => onTitleInput v
  | Cancel => LeafViewOrigin.hideGraftForm
  | Back => logCall OnClose
  end.

Fixpoint after (evs : list Event) (w : World) : World :=
  match evs with
  | [] => w
  | ev :: rest => after rest (snd (handle ev w))
  end.

End Code.

End LeafViewOriginEvents.

(** ** The first clause of the claim on grafts, as it is written *)
Module Permit.

Import Types View State.

(** "A new graft is permitted only when the target leaf has no sprout in
    state active": whenever [doGraft] of [leaf-view.ts] commits a graft,
    no sprout of the leaf on view is active. *)
Definition onlyWithoutActive {tz : ESDate.TimeZone} {api : StateApi} : Prop :=
  forall (w : World) (twigId leaf : string) (input : SproutInput),
    In (GraftFromLeaf twigId leaf input) (Trace.added w (snd (LeafView.doGraft w))) ->
    Forall (fun s => state s <> active) (Offer.leafSprouts w).

(** A session on the leaf of [Demo.first], whose only sprout is completed:
    the log is rendered, the form opened and filled in and the graft
    confirmed ([grafted]); then, with no render in between, the form is
    opened and filled in again ([again]). *)
Definition fill (v : string) : list LeafViewEvents.Event :=
  [ LeafViewEvents.Trigger; LeafViewEvents.Season S1w;
    LeafViewEvents.Environment fertile; LeafViewEvents.Title v ].

Definition grafted : World :=
  snd (@LeafView.doGraft Demo.utcZone Demo.api
         (@LeafViewEvents.after Demo.api (fill "Run 10k")
            (snd (@LeafView.render Demo.isoParser (Demo.worldWith [Demo.first]))))).

Definition again : World := @LeafViewEvents.after Demo.api (fill "Run 21k") grafted.

End Permit.

(** * Properties *)

(** ** The calendar of ECMA-262 *)
Section DateFacts.
Import ESDate.

Lemma DayFromYear_next (y : Z) : DayFromYear (y + 1) = DayFromYear y + DaysInYear y.
Proof.
  unfold DayFromYear, DaysInYear.
  destruct (Z.eqb_spec (y mod 4) 0); cbn [negb];
  destruct (Z.eqb_spec (y mod 100) 0); cbn [negb];
  destruct (Z.eqb_spec (y mod 400) 0); cbn [negb];
  Z.div_mod_to_equations; lia.
Qed.

Lemma DaysInYear_cases (y : Z) : DaysInYear y = 365 \/ DaysInYear y = 366.
Proof.
  unfold DaysInYear.
  destruct (negb (y mod 4 =? 0)); [auto|].
  destruct (negb (y mod 100 =? 0)); [auto|].
  destruct (negb (y mod 400 =? 0)); auto.
Qed.

Lemma YearFromTime_spec (t : Z) :
  DayFromYear (YearFromTime t) <= Day t < DayFromYear (YearFromTime t + 1).
Proof.
  unfold YearFromTime. cbv zeta.
  set (d := Day t).
  set (y0 := 1970 + d * 400 / 146097).
  assert (H0 : DayFromYear (y0 - 1) <= d).
  { unfold DayFromYear, y0. Z.div_mod_to_equations. lia. }
  assert (H2 : d < DayFromYear (y0 + 2)).
  { unfold DayFromYear, y0. Z.div_mod_to_equations. lia. }
  destruct (Z.ltb_spec d (DayFromYear y0)).
  - replace (y0 - 1 + 1) with y0 by lia. lia.
  - destruct (Z.leb_spec (DayFromYear (y0 + 1)) d).
    + replace (y0 + 1 + 1) with (y0 + 2) by lia. lia.
    + lia.
Qed.

Lemma DayFromYear_mono (y1 y2 : Z) : y1 <= y2 -> DayFromYear y1 <= DayFromYear y2.
Proof. intros H. unfold DayFromYear. Z.div_mod_to_equations. lia. Qed.

Lemma YearFromTime_unique (t y : Z) :
  DayFromYear y <= Day t < DayFromYear (y + 1) -> YearFromTime t = y.
Proof.
  intros [Hlo Hhi]. pose proof (YearFromTime_spec t) as [Ylo Yhi].
  destruct (Z.lt_trichotomy (YearFromTime t) y) as [Hlt|[Heq|Hgt]]; [|exact Heq|].
  - pose proof (DayFromYear_mono (YearFromTime t + 1) y ltac:(lia)). lia.
  - pose proof (DayFromYear_mono (y + 1) (YearFromTime t) ltac:(lia)). lia.
Qed.

Lemma DayWithinYear_range (t : Z) :
  0 <= DayWithinYear t < DaysInYear (YearFromTime t).
Proof.
  unfold DayWithinYear. pose proof (YearFromTime_spec t) as [Hlo Hhi].
  rewrite DayFromYear_next in Hhi. lia.
Qed.

Lemma InLeapYear_days (t : Z) : DaysInYear (YearFromTime t) = 365 + InLeapYear t.
Proof.
  unfold InLeapYear. destruct (DaysInYear_cases (YearFromTime t)) as [H|H]; rewrite H; reflexivity.
Qed.

Lemma MonthFromTime_range (t : Z) : 0 <= MonthFromTime t <= 11.
Proof.
  unfold MonthFromTime. cbv zeta.
  repeat match goal with
         | |- context [if ?c then _ else _] => destruct c
         end; lia.
Qed.

Lemma MakeDay_in_year (y m d : Z) :
  0 <= m <= 11 ->
  MakeDay y m d
  = DayFromYear y + monthStart m (if DaysInYear y =? 366 then 1 else 0) + d - 1.
Proof.
  intros Hm. unfold MakeDay. cbv zeta.
  rewrite (Z.div_small m 12), (Z.mod_small m 12), Z.add_0_r by lia. reflexivity.
Qed.

Lemma MakeDay_date (y m d k : Z) : MakeDay y m (d + k) = MakeDay y m d + k.
Proof. unfold MakeDay. lia. Qed.

(** MakeDay undoes the split of a day number into year, month and date. *)
Lemma MakeDay_fields (t : Z) :
  MakeDay (YearFromTime t) (MonthFromTime t) (DateFromTime t) = Day t.
Proof.
  rewrite MakeDay_in_year by apply MonthFromTime_range.
  pose proof (DayWithinYear_range t) as Hr. rewrite InLeapYear_days in Hr.
  assert (Hd : Day t = DayFromYear (YearFromTime t) + DayWithinYear t)
    by (unfold DayWithinYear; lia).
  fold (InLeapYear t).
  unfold DateFromTime, MonthFromTime in *. cbv zeta.
  repeat match goal with
         | |- context [if ?a <? ?b then _ else _] => destruct (Z.ltb_spec a b)
         end;
  cbn [monthStart]; lia.
Qed.

Lemma MakeDate_Day (day time : Z) :
  0 <= time < msPerDay -> Day (MakeDate day time) = day.
Proof.
  intros H. unfold Day, MakeDate, msPerDay in *. Z.div_mod_to_equations. lia.
Qed.

Lemma MakeDate_TimeWithinDay (day time : Z) :
  0 <= time < msPerDay -> TimeWithinDay (MakeDate day time) = time.
Proof.
  intros H. unfold TimeWithinDay, MakeDate, msPerDay in *. Z.div_mod_to_equations. lia.
Qed.

Lemma MakeDate_split (t : Z) : MakeDate (Day t) (TimeWithinDay t) = t.
Proof. unfold MakeDate, Day, TimeWithinDay, msPerDay. Z.div_mod_to_equations. lia. Qed.

Lemma TimeWithinDay_range (t : Z) : 0 <= TimeWithinDay t < msPerDay.
Proof. unfold TimeWithinDay, msPerDay. apply Z.mod_pos_bound. lia. Qed.

(** The fields of the date MakeDay builds, for a date within its month. *)
Lemma fields_MakeDay (y m d time : Z) :
  0 <= m <= 11 -> 1 <= d <= DaysInMonth y m -> 0 <= time < msPerDay ->
  let t := MakeDate (MakeDay y m d) time in
  YearFromTime t = y /\ MonthFromTime t = m /\ DateFromTime t = d
  /\ TimeWithinDay t = time.
Proof.
  intros Hm Hd Htime. cbv zeta.
  assert (HDay : Day (MakeDate (MakeDay y m d) time) = MakeDay y m d)
    by (apply MakeDate_Day; assumption).
  assert (HTime : TimeWithinDay (MakeDate (MakeDay y m d) time) = time)
    by (apply MakeDate_TimeWithinDay; assumption).
  generalize dependent (MakeDate (MakeDay y m d) time). intros t HDay HTime.
  rewrite MakeDay_in_year in HDay by assumption.
  assert (Hy : YearFromTime t = y).
  { apply YearFromTime_unique. rewrite HDay, DayFromYear_next.
    unfold DaysInMonth in Hd.
    destruct (DaysInYear_cases y) as [E|E]; rewrite E in *; cbn [Z.eqb Pos.eqb] in *;
      assert (Hc : m = 0 \/ m = 1 \/ m = 2 \/ m = 3 \/ m = 4 \/ m = 5 \/ m = 6
                   \/ m = 7 \/ m = 8 \/ m = 9 \/ m = 10 \/ m = 11) by lia;
      repeat (destruct Hc as [Hc|Hc]; [subst m; cbn [monthStart] in *; lia|]);
      subst m; cbn [monthStart] in *; lia. }
  assert (Hl : InLeapYear t = if DaysInYear y =? 366 then 1 else 0)
    by (unfold InLeapYear; rewrite Hy; reflexivity).
  assert (Hw : DayWithinYear t
               = monthStart m (if DaysInYear y =? 366 then 1 else 0) + d - 1)
    by (unfold DayWithinYear; rewrite Hy; lia).
  split; [exact Hy|].
  assert (Hmonth : MonthFromTime t = m).
  { unfold MonthFromTime. cbv zeta. rewrite Hw, Hl. unfold DaysInMonth in Hd.
    destruct (DaysInYear_cases y) as [E|E]; rewrite E in *; cbn [Z.eqb Pos.eqb] in *;
      assert (Hc : m = 0 \/ m = 1 \/ m = 2 \/ m = 3 \/ m = 4 \/ m = 5 \/ m = 6
                   \/ m = 7 \/ m = 8 \/ m = 9 \/ m = 10 \/ m = 11) by lia;
      repeat (destruct Hc as [Hc|Hc]; [subst m; cbn [monthStart] in *;
        repeat match goal with
               | |- context [if ?a <? ?b then _ else _] => destruct (Z.ltb_spec a b)
               end; lia|]);
      subst m; cbn [monthStart] in *;
        repeat match goal with
               | |- context [if ?a <? ?b then _ else _] => destruct (Z.ltb_spec a b)
               end; lia. }
  split; [exact Hmonth|]. split.
  - unfold DateFromTime. cbv zeta. rewrite Hmonth, Hw, Hl. clear Hmonth.
    assert (Hc : m = 0 \/ m = 1 \/ m = 2 \/ m = 3 \/ m = 4 \/ m = 5 \/ m = 6
                 \/ m = 7 \/ m = 8 \/ m = 9 \/ m = 10 \/ m = 11) by lia.
    repeat (destruct Hc as [Hc|Hc]; [subst m; cbv iota beta delta [monthStart]; lia|]).
    subst m; cbv iota beta delta [monthStart]; lia.
  - exact HTime.
Qed.

End DateFacts.

(** ** The end date of a season *)
Section EndDateFacts.
Import ESDate Types.
Context {tz : TimeZone}.

Lemma MakeDay_normal (y m d : Z) : MakeDay (y + m / 12) (m mod 12) d = MakeDay y m d.
Proof.
  unfold MakeDay. cbv zeta.
  rewrite Z.mod_mod by lia.
  rewrite (Z.div_small (m mod 12) 12) by (apply Z.mod_pos_bound; lia).
  rewrite Z.add_0_r. reflexivity.
Qed.

Lemma MakeDay_next_year (y m d : Z) : MakeDay (y + 1) m d = MakeDay y (m + 12) d.
Proof.
  unfold MakeDay. cbv zeta.
  replace ((m + 12) / 12) with (m / 12 + 1) by (Z.div_mod_to_equations; lia).
  replace ((m + 12) mod 12) with (m mod 12) by (Z.div_mod_to_equations; lia).
  replace (y + 1 + m / 12) with (y + (m / 12 + 1)) by lia. reflexivity.
Qed.

(** setMonth(getMonth() + k) lands on [plusMonths k]. *)
Lemma plusMonths_MakeDay (k lt : Z) :
  Duration.plusMonths k lt
  = MakeDate (MakeDay (YearFromTime lt) (MonthFromTime lt + k) (DateFromTime lt))
             (TimeWithinDay lt).
Proof.
  unfold Duration.plusMonths, Duration.monthAfter.
  rewrite MakeDay_normal.
  replace (DateFromTime lt) with (1 + (DateFromTime lt - 1)) at 2 by lia.
  rewrite MakeDay_date. reflexivity.
Qed.

Lemma plusDays_MakeDay (k lt : Z) :
  Duration.plusDays k lt
  = MakeDate (MakeDay (YearFromTime lt) (MonthFromTime lt) (DateFromTime lt + k))
             (TimeWithinDay lt).
Proof.
  unfold Duration.plusDays. rewrite MakeDay_date, MakeDay_fields.
  rewrite <- (MakeDate_split lt) at 1. unfold MakeDate. lia.
Qed.

(** Evaluates the quotients and remainders by 12 of closed month numbers. *)
Ltac eval_months :=
  repeat match goal with
         | |- context [?a / 12] =>
             let q := eval vm_compute in (a / 12) in change (a / 12) with q
         | |- context [?a mod 12] =>
             let r := eval vm_compute in (a mod 12) in change (a mod 12) with r
         end.

Lemma MakeDay_months_bounds (y m d k : Z) :
  0 <= m <= 11 -> k = 1 \/ k = 3 \/ k = 6 \/ k = 12 ->
  MakeDay y m d <= MakeDay y (m + k) d <= MakeDay y m d + 367.
Proof.
  intros Hm Hk.
  assert (Hc : m = 0 \/ m = 1 \/ m = 2 \/ m = 3 \/ m = 4 \/ m = 5 \/ m = 6
               \/ m = 7 \/ m = 8 \/ m = 9 \/ m = 10 \/ m = 11) by lia.
  unfold MakeDay. cbv zeta.
  pose proof (DayFromYear_next y) as Hnext.
  destruct (DaysInYear_cases y) as [E|E]; rewrite E in *;
  destruct (DaysInYear_cases (y + 1)) as [E1|E1];
  repeat (destruct Hc as [Hc|Hc]; [|try subst m]); try subst m;
  repeat (destruct Hk as [Hk|Hk]; [|try subst k]); try subst k;
  eval_months; rewrite ?Z.add_0_r, ?E, ?E1; cbn [monthStart Z.eqb Pos.eqb]; lia.
Qed.

Lemma DateFromTime_pos (t : Z) : 1 <= DateFromTime t.
Proof.
  pose proof (DayWithinYear_range t) as Hr. rewrite InLeapYear_days in Hr.
  unfold DateFromTime, MonthFromTime. cbv zeta.
  repeat match goal with
         | |- context [if ?a <? ?b then _ else _] => destruct (Z.ltb_spec a b)
         end; lia.
Qed.

Lemma TimeClip_valid (x : Z) : Z.abs x <= maxTime -> TimeClip x = Some x.
Proof.
  intros H. unfold TimeClip.
  destruct (Z.gtb_spec (Z.abs x) maxTime); [lia|reflexivity].
Qed.

Lemma local_fields (lt : Z) :
  MakeDate (MakeDay (YearFromTime lt) (MonthFromTime lt) (DateFromTime lt))
           (TimeWithinDay lt) = lt.
Proof. rewrite MakeDay_fields. apply MakeDate_split. Qed.

Lemma plus_bounds (season : SproutSeason) (lt : Z) :
  lt <= Duration.plus season lt <= lt + 367 * msPerDay.
Proof.
  assert (Hmonths : forall k, k = 1 \/ k = 3 \/ k = 6 \/ k = 12 ->
            lt <= Duration.plusMonths k lt <= lt + 367 * msPerDay).
  { intros k Hk. rewrite plusMonths_MakeDay.
    pose proof (MakeDay_months_bounds (YearFromTime lt) (MonthFromTime lt)
                  (DateFromTime lt) k (MonthFromTime_range lt) Hk) as Hb.
    pose proof (local_fields lt) as Hlt. unfold MakeDate, msPerDay in *. lia. }
  destruct season; cbn [Duration.plus];
    try (apply Hmonths; lia); unfold Duration.plusDays, msPerDay; lia.
Qed.

Lemma anchored_time (t : Z) :
  TimeWithinDay (Duration.anchored t) = 15 * msPerHour
  /\ Day (Duration.anchored t) = Day t.
Proof.
  unfold Duration.anchored. split.
  - apply MakeDate_TimeWithinDay. unfold msPerHour, msPerDay. lia.
  - apply MakeDate_Day. unfold msPerHour, msPerDay. lia.
Qed.

Lemma anchored_bounds (t : Z) : t - msPerDay <= Duration.anchored t <= t + msPerDay.
Proof.
  unfold Duration.anchored, MakeDate, Day, msPerHour, msPerDay.
  Z.div_mod_to_equations. lia.
Qed.

Lemma getEndDate_run (season : SproutSeason) (t : Z) :
  (forall u b, Z.abs (LocalTZA u b) <= msPerDay) ->
  Z.abs t <= maxTime - 400 * msPerDay ->
  LeafView.getEndDate season (Some t)
  = Some (Duration.anchored (UTC (Duration.plus season (LocalTime t)))).
Proof.
  intros Htz Ht.
  assert (Hstart : newDateFrom (Some t) = Some t).
  { cbn [newDateFrom]. apply TimeClip_valid. unfold maxTime, msPerDay in *. lia. }
  assert (Hshift : Z.abs (UTC (Duration.plus season (LocalTime t)))
                   <= maxTime - 31 * msPerDay).
  { pose proof (plus_bounds season (LocalTime t)) as Hb.
    pose proof (Htz t true) as H1.
    pose proof (Htz (Duration.plus season (LocalTime t)) false) as H2.
    unfold UTC, LocalTime, maxTime, msPerDay in *. lia. }
  assert (Hanchor : setUTCHours (Some (UTC (Duration.plus season (LocalTime t)))) 15 0 0 0
                    = Some (Duration.anchored (UTC (Duration.plus season (LocalTime t))))).
  { cbn [setUTCHours]. change (MakeTime 15 0 0 0) with (15 * msPerHour).
    apply TimeClip_valid.
    pose proof (anchored_bounds (UTC (Duration.plus season (LocalTime t)))) as Hb.
    unfold Duration.anchored in *. unfold maxTime, msPerDay in *. lia. }
  unfold LeafView.getEndDate. rewrite Hstart. cbv zeta.
  rewrite <- Hanchor. f_equal.
  assert (Hclip : TimeClip (UTC (Duration.plus season (LocalTime t)))
                  = Some (UTC (Duration.plus season (LocalTime t)))).
  { apply TimeClip_valid. unfold maxTime, msPerDay in *. lia. }
  rewrite <- Hclip.
  destruct season; cbn [Duration.plus setDate setMonth setFullYear getDate getMonth
                          getFullYear numAdd];
    rewrite ?plusDays_MakeDay, ?plusMonths_MakeDay, ?MakeDay_next_year; reflexivity.
Qed.

Lemma anchored_clock (t : Z) :
  HourFromTime (Duration.anchored t) = 15
  /\ MinFromTime (Duration.anchored t) = 0
  /\ SecFromTime (Duration.anchored t) = 0
  /\ msFromTime (Duration.anchored t) = 0.
Proof.
  unfold HourFromTime, MinFromTime, SecFromTime, msFromTime, Duration.anchored,
    MakeDate, msPerDay, msPerHour, msPerMinute, msPerSecond.
  repeat split; Z.div_mod_to_equations; lia.
Qed.

Lemma plus_months_fields (season : SproutSeason) (k lt : Z) :
  Duration.months season = Some k ->
  let '(y, m) := Duration.monthAfter (YearFromTime lt) (MonthFromTime lt) k in
  DateFromTime lt <= DaysInMonth y m ->
  YearFromTime (Duration.plus season lt) = y
  /\ MonthFromTime (Duration.plus season lt) = m
  /\ DateFromTime (Duration.plus season lt) = DateFromTime lt
  /\ TimeWithinDay (Duration.plus season lt) = TimeWithinDay lt.
Proof.
  intros Hk.
  assert (Hplus : Duration.plus season lt = Duration.plusMonths k lt)
    by (destruct season; cbn in Hk |- *; congruence).
  rewrite Hplus. unfold Duration.plusMonths, Duration.monthAfter.
  intros Hd.
  replace (MakeDay (YearFromTime lt + (MonthFromTime lt + k) / 12)
                   ((MonthFromTime lt + k) mod 12) 1 + (DateFromTime lt - 1))
    with (MakeDay (YearFromTime lt + (MonthFromTime lt + k) / 12)
                  ((MonthFromTime lt + k) mod 12) (DateFromTime lt))
    by (rewrite <- MakeDay_date; f_equal; lia).
  apply fields_MakeDay.
  - pose proof (Z.mod_pos_bound (MonthFromTime lt + k) 12 ltac:(lia)). lia.
  - pose proof (DateFromTime_pos lt). lia.
  - apply TimeWithinDay_range.
Qed.

(** C7.  For every season and every start date at least 400 days inside the
    range of time values, in a time zone whose offsets stay within a day,
    [getEndDate] returns 15:00:00.000 UTC on the UTC day of the start plus
    the season's duration.  The duration is added on local time: [1w] and
    [2w] add 7 and 14 days; [1m], [3m], [6m] and [1y] move the date 1, 3, 6
    and 12 calendar months on, keeping the day of the month and the time of
    day whenever the day exists in the month reached. *)
Theorem getEndDate_adds_duration (season : SproutSeason) (t : Z) :
  (forall u b, Z.abs (LocalTZA u b) <= msPerDay) ->
  Z.abs t <= maxTime - 400 * msPerDay ->
  let lt := LocalTime t in
  let shifted := Duration.plus season lt in
  let e := Duration.anchored (UTC shifted) in
  LeafView.getEndDate season (Some t) = Some e
  /\ LeafViewOrigin.getEndDate season (Some t) = Some e
  /\ (HourFromTime e = 15 /\ MinFromTime e = 0 /\ SecFromTime e = 0 /\ msFromTime e = 0)
  /\ Day e = Day (UTC shifted)
  /\ (forall k, Duration.days season = Some k -> shifted = lt + k * msPerDay)
  /\ (forall k, Duration.months season = Some k ->
        let '(y, m) := Duration.monthAfter (YearFromTime lt) (MonthFromTime lt) k in
        DateFromTime lt <= DaysInMonth y m ->
        YearFromTime shifted = y /\ MonthFromTime shifted = m
        /\ DateFromTime shifted = DateFromTime lt
        /\ TimeWithinDay shifted = TimeWithinDay lt).
Proof.
  intros Htz Ht. cbv zeta.
  split; [apply getEndDate_run; assumption|].
  split; [apply getEndDate_run; assumption|].
  split; [apply anchored_clock|].
  split; [apply anchored_time|].
  split.
  - intros k Hk. destruct season; cbn in Hk |- *; try discriminate Hk;
      injection Hk as <-; reflexivity.
  - intros k Hk. apply (plus_months_fields season k (LocalTime t) Hk).
Qed.

End EndDateFacts.


(** ** Running the monad *)
Section EffFacts.
Context {S : Type}.

Lemma bind_run {A B : Type} (m : Eff.M S A) (k : A -> Eff.M S B) (w w' : S) (a : A) :
  m w = (Some a, w') -> Eff.bind m k w = k a w'.
Proof. intros H. unfold Eff.bind. rewrite H. reflexivity. Qed.

Lemma bind_throw {A B : Type} (m : Eff.M S A) (k : A -> Eff.M S B) (w w' : S) :
  m w = (None, w') -> Eff.bind m k w = (None, w').
Proof. intros H. unfold Eff.bind. rewrite H. reflexivity. Qed.

Lemma forOf_app {A : Type} (xs ys : list A) (body : A -> Eff.M S unit) (w : S) :
  Eff.forOf (xs ++ ys) body w
  = Eff.bind (Eff.forOf xs body) (fun _ => Eff.forOf ys body) w.
Proof.
  revert w. induction xs as [|x xs IH]; intros w; simpl.
  - reflexivity.
  - unfold Eff.bind in *. destruct (body x w) as [[[]|] w1]; [|reflexivity].
    apply IH.
Qed.

End EffFacts.

(** ** [Array.prototype.sort] returns a sorted permutation *)
Section SortFacts.
Context {A : Type} (key : A -> ES.number).

Local Abbreviation descBy := (ES.descBy key).
Local Abbreviation keyOrder := (ES.keyOrder key).

Lemma sortInsert_Permutation (cmp : A -> A -> ES.number) (x : A) (xs : list A) :
  Permutation (ES.sortInsert cmp x xs) (x :: xs).
Proof.
  induction xs as [|y ys IH]; simpl.
  - reflexivity.
  - destruct (ES.SortCompare cmp x y <=? 0).
    + reflexivity.
    + rewrite IH. apply perm_swap.
Qed.

Lemma sort_Permutation (cmp : A -> A -> ES.number) (xs : list A) :
  Permutation (ES.sort cmp xs) xs.
Proof.
  induction xs as [|x xs IH]; simpl.
  - reflexivity.
  - rewrite sortInsert_Permutation. now rewrite IH.
Qed.

Lemma sort_nil_inv (cmp : A -> A -> ES.number) (xs : list A) :
  ES.sort cmp xs = [] -> xs = [].
Proof.
  intros H. apply Permutation_nil. rewrite <- H. apply sort_Permutation.
Qed.

Lemma keyOrder_trans (a b c : A) : keyOrder a b -> keyOrder b c -> keyOrder a c.
Proof.
  intros (ka & kb & Ha & Hb & Hab) (kb' & kc & Hb' & Hc & Hbc).
  exists ka, kc. repeat split; try assumption.
  rewrite Hb in Hb'. injection Hb' as <-. lia.
Qed.

Lemma sortInsert_sorted (x : A) (xs : list A) :
  key x <> None ->
  Forall (fun y => key y <> None) xs ->
  StronglySorted keyOrder xs ->
  StronglySorted keyOrder (ES.sortInsert descBy x xs).
Proof.
  intros Hx Hxs Hs. induction Hs as [|y ys Hs IH Hy]; simpl.
  - constructor; constructor.
  - apply Forall_cons in Hxs as [Hky Hys].
    destruct (key x) as [kx|] eqn:Ex; [|congruence].
    destruct (key y) as [ky|] eqn:Ey; [|congruence].
    unfold ES.SortCompare, descBy. rewrite Ex, Ey. simpl.
    destruct (Z.leb_spec (ky - kx) 0) as [Hle|Hgt].
    + assert (Hxy : keyOrder x y) by (exists kx, ky; repeat split; auto; lia).
      constructor; [constructor; assumption|].
      constructor; [assumption|].
      eapply Forall_impl; [exact Hy|]. intros z Hz. eapply keyOrder_trans; eauto.
    + constructor; [apply IH; assumption|].
      assert (Hyx : keyOrder y x) by (exists ky, kx; repeat split; auto; lia).
      eapply Permutation_Forall; [symmetry; apply sortInsert_Permutation|].
      constructor; assumption.
Qed.

Lemma sort_sorted (xs : list A) :
  Forall (fun y => key y <> None) xs ->
  StronglySorted keyOrder (ES.sort descBy xs).
Proof.
  induction xs as [|x xs IH]; intros H; simpl.
  - constructor.
  - apply Forall_cons in H as [Hx Hxs]. apply sortInsert_sorted; auto.
    eapply Permutation_Forall; [symmetry; apply sort_Permutation|]. assumption.
Qed.

End SortFacts.

(** ** The store: pushes and the in-place sort touch only their own array *)
Section HeapFacts.
Import Types View.

Lemma set_heap_twice (h h' : Heap) (w : World) :
  set_heap h (set_heap h' w) = set_heap h w.
Proof. reflexivity. Qed.

Lemma set_heap_same (w : World) : set_heap (heap w) w = w.
Proof. destruct w; reflexivity. Qed.

Lemma push_run (h : Heap) (acc : list LogEntry) (e : LogEntry) (w : World) :
  push (length h) e (set_heap (h ++ [EntryArr acc]) w)
  = (Some tt, set_heap (h ++ [EntryArr (acc ++ [e])]) w).
Proof.
  unfold push. cbn [heap set_heap].
  rewrite list_lookup_middle by reflexivity.
  rewrite insert_app_r_alt by lia. rewrite Nat.sub_diag. reflexivity.
Qed.

Lemma readSprouts_run (h rest : Heap) (l : loc) (ss : list Sprout) (w : World) :
  h !! l = Some (SproutArr ss) ->
  readSprouts l (set_heap (h ++ rest) w) = (Some ss, set_heap (h ++ rest) w).
Proof.
  intros H. unfold readSprouts. cbn [heap set_heap].
  rewrite (lookup_app_l_Some _ _ _ _ H). reflexivity.
Qed.

Lemma readEntries_run (h : Heap) (acc : list LogEntry) (w : World) :
  readEntries (length h) (set_heap (h ++ [EntryArr acc]) w)
  = (Some acc, set_heap (h ++ [EntryArr acc]) w).
Proof.
  unfold readEntries. cbn [heap set_heap].
  rewrite list_lookup_middle by reflexivity. reflexivity.
Qed.

Lemma sortInPlace_run (h : Heap) (acc : list LogEntry) cmp (w : World) :
  sortInPlace (length h) cmp (set_heap (h ++ [EntryArr acc]) w)
  = (Some (length h), set_heap (h ++ [EntryArr (ES.sort cmp acc)]) w).
Proof.
  unfold sortInPlace. cbn [heap set_heap].
  rewrite list_lookup_middle by reflexivity.
  rewrite insert_app_r_alt by lia. rewrite Nat.sub_diag. reflexivity.
Qed.

(** A loop whose body appends [emit x] to the array appends their
    concatenation. *)
Lemma forOf_emit {A : Type} (body : A -> M unit) (emit : A -> list LogEntry) (h : Heap) :
  (forall x acc w,
      body x (set_heap (h ++ [EntryArr acc]) w)
      = (Some tt, set_heap (h ++ [EntryArr (acc ++ emit x)]) w)) ->
  forall xs acc w,
    Eff.forOf xs body (set_heap (h ++ [EntryArr acc]) w)
    = (Some tt, set_heap (h ++ [EntryArr (acc ++ flat_map emit xs)]) w).
Proof.
  intros Hbody xs. induction xs as [|x xs IH]; intros acc w; simpl.
  - rewrite app_nil_r. reflexivity.
  - rewrite (bind_run _ _ _ _ _ (Hbody x acc w)).
    rewrite IH. rewrite <- app_assoc. reflexivity.
Qed.

Lemma forOf_push {A : Type} (f : A -> LogEntry) (h : Heap) xs acc w :
  Eff.forOf xs (fun x => push (length h) (f x)) (set_heap (h ++ [EntryArr acc]) w)
  = (Some tt, set_heap (h ++ [EntryArr (acc ++ map f xs)]) w).
Proof.
  rewrite (forOf_emit _ (fun x => [f x]) h).
  - assert (E : flat_map (fun x => [f x]) xs = map f xs)
      by (induction xs; simpl; congruence).
    rewrite E. reflexivity.
  - intros. apply push_run.
Qed.

End HeapFacts.

(** ** What [buildUnifiedLog] leaves in the store *)
Section UnifiedLogFacts.
Import Types View.
Context {parser : DateParse}.

Lemma ifTruthy_emit (o : option string) (f : string -> LogEntry) (h : Heap) acc w :
  ifTruthy o (fun v => push (length h) (f v)) (set_heap (h ++ [EntryArr acc]) w)
  = (Some tt, set_heap (h ++ [EntryArr (acc ++ match o with
                                               | Some v => if String.eqb v "" then [] else [f v]
                                               | None => []
                                               end)]) w).
Proof.
  unfold ifTruthy. destruct o as [v|]; [destruct (String.eqb v "")|];
    rewrite ?app_nil_r; try reflexivity.
  apply push_run.
Qed.

Lemma originLabel_find (all : list Sprout) (sprout : Sprout) (origin : string) :
  graftedFromId sprout = Some origin ->
  ES.orElse (option_map title (find (fun s => ES.strictEq (id s) (graftedFromId sprout)) all))
            "previous sprout"
  = Timeline.originLabel all origin.
Proof.
  intros ->. unfold Timeline.originLabel. simpl.
  destruct (find _ all); reflexivity.
Qed.

Lemma LeafView_body_run (h : Heap) (l : loc) (ss : list Sprout) :
  h !! l = Some (SproutArr ss) ->
  forall sprout acc w,
    (push (length h)
       {| type := sprout_start;
          timestamp := ES.orElse (activatedAt sprout) (createdAt sprout);
          sproutId := id sprout; sproutTitle := title sprout;
          data := startData (season sprout) (environment sprout) |} ;;
     ifTruthy (graftedFromId sprout) (fun _ =>
       searched <- readSprouts l ;;
       let parent := find (fun s => ES.strictEq (id s) (graftedFromId sprout)) searched in
       push (length h)
         {| type := graft_origin; timestamp := createdAt sprout;
            sproutId := id sprout; sproutTitle := title sprout;
            data := graftData (ES.orElse (option_map title parent) "previous sprout") |}) ;;
     Eff.forOf (ES.orEmpty (waterEntries sprout)) (fun water =>
       push (length h)
         {| type := watering; timestamp := water_timestamp water;
            sproutId := id sprout; sproutTitle := title sprout;
            data := journalData (water_content water) (water_prompt water) |}) ;;
     Eff.forOf (ES.orEmpty (sunEntries sprout)) (fun sun =>
       push (length h)
         {| type := shining; timestamp := sun_timestamp sun;
            sproutId := id sprout; sproutTitle := title sprout;
            data := journalData (sun_content sun) (sun_prompt sun) |}) ;;
     ifTruthy (completedAt sprout) (fun completedAt =>
       push (length h)
         {| type := completion; timestamp := completedAt;
            sproutId := id sprout; sproutTitle := title sprout;
            data := completionData (result sprout) (reflection sprout)
                      (SproutState_eqb (state sprout) completed) |}))
      (set_heap (h ++ [EntryArr acc]) w)
    = (Some tt, set_heap (h ++ [EntryArr (acc ++ Timeline.eventsWithShining ss sprout)]) w).
Proof.
  intros Hl sprout acc w.
  rewrite (bind_run _ _ _ _ _ (push_run h acc _ w)).
  assert (Hgraft : forall acc',
    ifTruthy (graftedFromId sprout) (fun _ =>
       searched <- readSprouts l ;;
       let parent := find (fun s => ES.strictEq (id s) (graftedFromId sprout)) searched in
       push (length h)
         {| type := graft_origin; timestamp := createdAt sprout;
            sproutId := id sprout; sproutTitle := title sprout;
            data := graftData (ES.orElse (option_map title parent) "previous sprout") |})
      (set_heap (h ++ [EntryArr acc']) w)
    = (Some tt, set_heap (h ++ [EntryArr (acc' ++ Timeline.graftOriginEvents ss sprout)]) w)).
  { intros acc'. unfold ifTruthy, Timeline.graftOriginEvents.
    destruct (graftedFromId sprout) as [origin|] eqn:Eg;
      [destruct (String.eqb origin "")|]; rewrite ?app_nil_r; try reflexivity.
    rewrite (bind_run _ _ _ _ _ (readSprouts_run h _ l ss w Hl)).
    cbv zeta. rewrite push_run. rewrite <- Eg, (originLabel_find ss sprout origin Eg).
    reflexivity. }
  rewrite (bind_run _ _ _ _ _ (Hgraft _)).
  rewrite (bind_run _ _ _ _ _ (forOf_push _ h _ _ w)).
  rewrite (bind_run _ _ _ _ _ (forOf_push _ h _ _ w)).
  rewrite ifTruthy_emit.
  unfold Timeline.eventsWithShining, Timeline.wateringEvents, Timeline.shiningEvents,
    Timeline.completionEvents, Timeline.startEvent, ES.orElse.
  rewrite <- !app_assoc. reflexivity.
Qed.

Lemma LeafView_buildUnifiedLog_run (w : World) (l : loc) (ss : list Sprout) :
  heap w !! l = Some (SproutArr ss) ->
  LeafView.buildUnifiedLog l w
  = (Some (length (heap w)),
          set_heap (heap w ++ [EntryArr (ES.sort LeafView.byTimestampDesc
                                           (flat_map (Timeline.eventsWithShining ss) ss))]) w).
Proof.
  intros Hl. unfold LeafView.buildUnifiedLog.
  rewrite (bind_run newEntryArr _ w (set_heap (heap w ++ [EntryArr []]) w)
                    (length (heap w)) eq_refl).
  rewrite (bind_run _ _ _ _ _ (readSprouts_run (heap w) _ l ss w Hl)).
  erewrite bind_run;
    [|apply (forOf_emit _ (Timeline.eventsWithShining ss) (heap w));
      apply (LeafView_body_run (heap w) l ss Hl)].
  apply sortInPlace_run.
Qed.

Lemma Origin_body_run (h : Heap) (l : loc) (ss : list Sprout) :
  h !! l = Some (SproutArr ss) ->
  forall sprout acc w,
    (push (length h)
       {| type := sprout_start;
          timestamp := ES.orElse (activatedAt sprout) (createdAt sprout);
          sproutId := id sprout; sproutTitle := title sprout;
          data := startData (season sprout) (environment sprout) |} ;;
     ifTruthy (graftedFromId sprout) (fun _ =>
       searched <- readSprouts l ;;
       let parent := find (fun s => ES.strictEq (id s) (graftedFromId sprout)) searched in
       push (length h)
         {| type := graft_origin; timestamp := createdAt sprout;
            sproutId := id sprout; sproutTitle := title sprout;
            data := graftData (ES.orElse (option_map title parent) "previous sprout") |}) ;;
     Eff.forOf (ES.orEmpty (waterEntries sprout)) (fun water =>
       push (length h)
         {| type := watering; timestamp := water_timestamp water;
            sproutId := id sprout; sproutTitle := title sprout;
            data := journalData (water_content water) (water_prompt water) |}) ;;
     ifTruthy (completedAt sprout) (fun completedAt =>
       push (length h)
         {| type := completion; timestamp := completedAt;
            sproutId := id sprout; sproutTitle := title sprout;
            data := completionData (result sprout) (reflection sprout)
                      (SproutState_eqb (state sprout) completed) |}))
      (set_heap (h ++ [EntryArr acc]) w)
    = (Some tt, set_heap (h ++ [EntryArr (acc ++ Timeline.events ss sprout)]) w).
Proof.
  intros Hl sprout acc w.
  rewrite (bind_run _ _ _ _ _ (push_run h acc _ w)).
  assert (Hgraft : forall acc',
    ifTruthy (graftedFromId sprout) (fun _ =>
       searched <- readSprouts l ;;
       let parent := find (fun s => ES.strictEq (id s) (graftedFromId sprout)) searched in
       push (length h)
         {| type := graft_origin; timestamp := createdAt sprout;
            sproutId := id sprout; sproutTitle := title sprout;
            data := graftData (ES.orElse (option_map title parent) "previous sprout") |})
      (set_heap (h ++ [EntryArr acc']) w)
    = (Some tt, set_heap (h ++ [EntryArr (acc' ++ Timeline.graftOriginEvents ss sprout)]) w)).
  { intros acc'. unfold ifTruthy, Timeline.graftOriginEvents.
    destruct (graftedFromId sprout) as [origin|] eqn:Eg;
      [destruct (String.eqb origin "")|]; rewrite ?app_nil_r; try reflexivity.
    rewrite (bind_run _ _ _ _ _ (readSprouts_run h _ l ss w Hl)).
    cbv zeta. rewrite push_run. rewrite <- Eg, (originLabel_find ss sprout origin Eg).
    reflexivity. }
  rewrite (bind_run _ _ _ _ _ (Hgraft _)).
  rewrite (bind_run _ _ _ _ _ (forOf_push _ h _ _ w)).
  rewrite ifTruthy_emit.
  unfold Timeline.events, Timeline.wateringEvents,
    Timeline.completionEvents, Timeline.startEvent, ES.orElse.
  rewrite <- !app_assoc. reflexivity.
Qed.

Lemma Origin_buildUnifiedLog_run (w : World) (l : loc) (ss : list Sprout) :
  heap w !! l = Some (SproutArr ss) ->
  LeafViewOrigin.buildUnifiedLog l w
  = (Some (length (heap w)),
          set_heap (heap w ++ [EntryArr (ES.sort LeafViewOrigin.byTimestampDesc
                                           (flat_map (Timeline.events ss) ss))]) w).
Proof.
  intros Hl. unfold LeafViewOrigin.buildUnifiedLog.
  rewrite (bind_run newEntryArr _ w (set_heap (heap w ++ [EntryArr []]) w)
                    (length (heap w)) eq_refl).
  rewrite (bind_run _ _ _ _ _ (readSprouts_run (heap w) _ l ss w Hl)).
  erewrite bind_run;
    [|apply (forOf_emit _ (Timeline.events ss) (heap w));
      apply (Origin_body_run (heap w) l ss Hl)].
  apply sortInPlace_run.
Qed.

End UnifiedLogFacts.

(** ** The timeline claims *)
Section TimelineFacts.
Import Types View.
Context {parser : DateParse}.

Lemma returnsLog_LeafView (w : World) (l : loc) (ss : list Sprout) :
  heap w !! l = Some (SproutArr ss) ->
  returnsLog (LeafView.buildUnifiedLog l) w
    (ES.sort LeafView.byTimestampDesc (flat_map (Timeline.eventsWithShining ss) ss)).
Proof.
  intros Hl. eexists _, _. split.
  - apply LeafView_buildUnifiedLog_run, Hl.
  - cbn [heap set_heap]. apply list_lookup_middle. reflexivity.
Qed.

Lemma returnsLog_Origin (w : World) (l : loc) (ss : list Sprout) :
  heap w !! l = Some (SproutArr ss) ->
  returnsLog (LeafViewOrigin.buildUnifiedLog l) w
    (ES.sort LeafViewOrigin.byTimestampDesc (flat_map (Timeline.events ss) ss)).
Proof.
  intros Hl. eexists _, _. split.
  - apply Origin_buildUnifiedLog_run, Hl.
  - cbn [heap set_heap]. apply list_lookup_middle. reflexivity.
Qed.

Lemma setValue_In (field : option string) (v : string) :
  field = Some v -> String.eqb v "" = false -> In v (Timeline.setValue field).
Proof. intros -> E. unfold Timeline.setValue. rewrite E. left. reflexivity. Qed.

Lemma eventsWithShining_timestamps (all : list Sprout) (sprout : Sprout) (e : LogEntry) :
  In e (Timeline.eventsWithShining all sprout) ->
  In (timestamp e) (Timeline.timestamps sprout).
Proof.
  unfold Timeline.eventsWithShining, Timeline.timestamps.
  intros [<-|H].
  - unfold Timeline.startEvent. cbn [timestamp].
    destruct (activatedAt sprout) as [a|] eqn:Ea; [|left; reflexivity].
    destruct (String.eqb a "") eqn:E; [left; reflexivity|].
    right. apply in_or_app. left. eapply setValue_In; eauto.
  - rewrite !in_app_iff in H. cbn [In]. rewrite !in_app_iff.
    destruct H as [H|[H|[H|H]]].
    + unfold Timeline.graftOriginEvents in H.
      destruct (graftedFromId sprout) as [g|]; [|contradiction].
      destruct (String.eqb g ""); [contradiction|].
      destruct H as [<-|[]]. left. reflexivity.
    + right. right. right. left. unfold Timeline.wateringEvents in H.
      apply in_map_iff in H as (x & <- & Hx). apply in_map_iff. exists x. auto.
    + right. right. right. right. unfold Timeline.shiningEvents in H.
      apply in_map_iff in H as (x & <- & Hx). apply in_map_iff. exists x. auto.
    + right. right. left. unfold Timeline.completionEvents in H.
      destruct (completedAt sprout) as [c|] eqn:Ec; [|contradiction].
      destruct (String.eqb c "") eqn:E; [contradiction|].
      destruct H as [<-|[]]. cbn [timestamp]. eapply setValue_In; eauto.
Qed.

Lemma events_incl (all : list Sprout) (sprout : Sprout) (e : LogEntry) :
  In e (Timeline.events all sprout) -> In e (Timeline.eventsWithShining all sprout).
Proof.
  unfold Timeline.events, Timeline.eventsWithShining. cbn [In].
  rewrite !in_app_iff. tauto.
Qed.

Lemma validDates_events (ss : list Sprout) (emit : Sprout -> list LogEntry) :
  (forall s e, In e (emit s) -> In (timestamp e) (Timeline.timestamps s)) ->
  Timeline.validDates ss ->
  Forall (fun e => dateValue (timestamp e) <> None) (flat_map emit ss).
Proof.
  intros Hemit Hvalid. unfold Timeline.validDates in Hvalid.
  rewrite List.Forall_forall in *. intros e He.
  apply in_flat_map in He as (s & Hs & He).
  apply Hvalid. apply in_flat_map. exists s. split; [assumption|].
  apply Hemit, He.
Qed.

(** C1.  [buildUnifiedLog] returns the empty array on no sprouts, and on
    sprouts whose timestamps are dates it returns the entries most recent
    first: each entry is not older than every entry after it.  Both
    revisions. *)
Theorem buildUnifiedLog_newest_first (w : World) (l : loc) (ss : list Sprout) :
  heap w !! l = Some (SproutArr ss) ->
  Timeline.validDates ss ->
  (exists out, returnsLog (LeafView.buildUnifiedLog l) w out
               /\ (ss = [] -> out = [])
               /\ StronglySorted Timeline.notOlder out)
  /\ (exists out, returnsLog (LeafViewOrigin.buildUnifiedLog l) w out
                  /\ (ss = [] -> out = [])
                  /\ StronglySorted Timeline.notOlder out).
Proof.
  intros Hl Hvalid. split.
  - eexists. split; [apply returnsLog_LeafView, Hl|]. split.
    + intros ->. reflexivity.
    + apply (sort_sorted (fun e => dateValue (timestamp e))).
      apply validDates_events; [|assumption].
      intros s e. apply eventsWithShining_timestamps.
  - eexists. split; [apply returnsLog_Origin, Hl|]. split.
    + intros ->. reflexivity.
    + apply (sort_sorted (fun e => dateValue (timestamp e))).
      apply validDates_events; [|assumption].
      intros s e He. eapply eventsWithShining_timestamps, events_incl, He.
Qed.

(** C4, as amended.  The array returned holds, in some order, exactly the
    events of every sprout of the input: one [sprout-start] at [activatedAt]
    or else [createdAt]; one [graft-origin] at [createdAt] when
    [graftedFromId] is set; one [watering] per element of [waterEntries]; in
    [leaf-view.ts] also one [shining] per element of [sunEntries]; one
    [completion] at [completedAt] when it is set, carrying
    [state == completed]. *)
Theorem buildUnifiedLog_events (w : World) (l : loc) (ss : list Sprout) :
  heap w !! l = Some (SproutArr ss) ->
  (exists out, returnsLog (LeafView.buildUnifiedLog l) w out
               /\ Permutation out (flat_map (Timeline.eventsWithShining ss) ss))
  /\ (exists out, returnsLog (LeafViewOrigin.buildUnifiedLog l) w out
                  /\ Permutation out (flat_map (Timeline.events ss) ss)).
Proof.
  intros Hl. split.
  - eexists. split; [apply returnsLog_LeafView, Hl|]. apply sort_Permutation.
  - eexists. split; [apply returnsLog_Origin, Hl|]. apply sort_Permutation.
Qed.

Lemma find_none_originLabel (all : list Sprout) (origin : string) :
  (forall o, In o all -> id o <> origin) ->
  Timeline.originLabel all origin = "previous sprout".
Proof.
  intros Hno. unfold Timeline.originLabel.
  destruct (find _ all) as [parent|] eqn:E; [|reflexivity].
  apply find_some in E as [Hin Heq]. apply String.eqb_eq in Heq.
  exfalso. exact (Hno parent Hin Heq).
Qed.

(** C8.  A sprout whose [graftedFromId] is set to an id that no sprout of
    the input carries still gets its [graft-origin] entry, labelled
    ['previous sprout'].  Both revisions. *)
Theorem buildUnifiedLog_unresolved_origin
    (w : World) (l : loc) (ss : list Sprout) (sprout : Sprout) (origin : string) :
  heap w !! l = Some (SproutArr ss) ->
  In sprout ss ->
  graftedFromId sprout = Some origin ->
  origin <> "" ->
  (forall o, In o ss -> id o <> origin) ->
  let marker :=
    {| type := graft_origin; timestamp := createdAt sprout;
       sproutId := id sprout; sproutTitle := title sprout;
       data := graftData "previous sprout" |} in
  (exists out, returnsLog (LeafView.buildUnifiedLog l) w out /\ In marker out)
  /\ (exists out, returnsLog (LeafViewOrigin.buildUnifiedLog l) w out /\ In marker out).
Proof.
  intros Hl Hin Hg Hne Hno marker.
  assert (Hm : In marker (Timeline.graftOriginEvents ss sprout)).
  { unfold Timeline.graftOriginEvents. rewrite Hg.
    apply String.eqb_neq in Hne. rewrite Hne.
    rewrite (find_none_originLabel ss origin Hno). left. reflexivity. }
  split.
  - eexists. split; [apply returnsLog_LeafView, Hl|].
    eapply Permutation_in; [symmetry; apply sort_Permutation|].
    apply in_flat_map. exists sprout. split; [assumption|].
    unfold Timeline.eventsWithShining. right. apply in_or_app. left. exact Hm.
  - eexists. split; [apply returnsLog_Origin, Hl|].
    eapply Permutation_in; [symmetry; apply sort_Permutation|].
    apply in_flat_map. exists sprout. split; [assumption|].
    unfold Timeline.events. right. apply in_or_app. left. exact Hm.
Qed.

(** C9.  A call of [buildUnifiedLog] allocates the array it returns and
    does nothing else: the input array, its sprouts and every other
    component of the world are as before.  The entries returned depend on
    the sprouts alone: a second call right after the first, and a call in
    any other world that holds the same sprouts at any location, return the
    same entries.  Both revisions. *)
Theorem buildUnifiedLog_pure (w1 w2 : World) (l1 l2 : loc) (ss : list Sprout) :
  heap w1 !! l1 = Some (SproutArr ss) ->
  heap w2 !! l2 = Some (SproutArr ss) ->
  (exists out r1 w1' r1' w1'' r2 w2',
      LeafView.buildUnifiedLog l1 w1 = (Some r1, w1')
      /\ allocatesOnly w1 w1' r1 out
      /\ heap w1' !! l1 = Some (SproutArr ss)
      /\ LeafView.buildUnifiedLog l1 w1' = (Some r1', w1'')
      /\ allocatesOnly w1' w1'' r1' out
      /\ LeafView.buildUnifiedLog l2 w2 = (Some r2, w2')
      /\ allocatesOnly w2 w2' r2 out)
  /\ (exists out r1 w1' r1' w1'' r2 w2',
      LeafViewOrigin.buildUnifiedLog l1 w1 = (Some r1, w1')
      /\ allocatesOnly w1 w1' r1 out
      /\ heap w1' !! l1 = Some (SproutArr ss)
      /\ LeafViewOrigin.buildUnifiedLog l1 w1' = (Some r1', w1'')
      /\ allocatesOnly w1' w1'' r1' out
      /\ LeafViewOrigin.buildUnifiedLog l2 w2 = (Some r2, w2')
      /\ allocatesOnly w2 w2' r2 out).
Proof.
  intros H1 H2.
  assert (H1' : forall out,
    heap (set_heap (heap w1 ++ [EntryArr out]) w1) !! l1 = Some (SproutArr ss)).
  { intros out. cbn [heap set_heap]. apply lookup_app_l_Some, H1. }
  split.
  - do 7 eexists.
    split; [apply LeafView_buildUnifiedLog_run, H1|].
    split; [split; reflexivity|].
    split; [apply H1'|].
    split; [apply LeafView_buildUnifiedLog_run, H1'|].
    split; [split; reflexivity|].
    split; [apply LeafView_buildUnifiedLog_run, H2|].
    split; reflexivity.
  - do 7 eexists.
    split; [apply Origin_buildUnifiedLog_run, H1|].
    split; [split; reflexivity|].
    split; [apply H1'|].
    split; [apply Origin_buildUnifiedLog_run, H1'|].
    split; [split; reflexivity|].
    split; [apply Origin_buildUnifiedLog_run, H2|].
    split; reflexivity.
Qed.

End TimelineFacts.

(** *** The timeline claims on the scenario of section 8 *)

Lemma buildUnifiedLog_newest_first_witness :
  (exists out,
      View.returnsLog (@LeafView.buildUnifiedLog Demo.isoParser 0%nat)
                      (Demo.worldWith [Demo.first; Demo.successor]) out
      /\ ([Demo.first; Demo.successor] = [] -> out = [])
      /\ StronglySorted (@Timeline.notOlder Demo.isoParser) out)
  /\ (exists out,
      View.returnsLog (@LeafViewOrigin.buildUnifiedLog Demo.isoParser 0%nat)
                      (Demo.worldWith [Demo.first; Demo.successor]) out
      /\ ([Demo.first; Demo.successor] = [] -> out = [])
      /\ StronglySorted (@Timeline.notOlder Demo.isoParser) out).
Proof.
  apply (@buildUnifiedLog_newest_first Demo.isoParser
           (Demo.worldWith [Demo.first; Demo.successor]) 0%nat
           [Demo.first; Demo.successor]).
  - reflexivity.
  - unfold Timeline.validDates. simpl. repeat constructor; vm_compute; discriminate.
Defined.

Lemma buildUnifiedLog_events_witness :
  (exists out,
      View.returnsLog (@LeafView.buildUnifiedLog Demo.isoParser 0%nat)
                      (Demo.worldWith [Demo.cultivated; Demo.first]) out
      /\ Permutation out
           (flat_map (Timeline.eventsWithShining [Demo.cultivated; Demo.first])
                     [Demo.cultivated; Demo.first]))
  /\ (exists out,
      View.returnsLog (@LeafViewOrigin.buildUnifiedLog Demo.isoParser 0%nat)
                      (Demo.worldWith [Demo.cultivated; Demo.first]) out
      /\ Permutation out
           (flat_map (Timeline.events [Demo.cultivated; Demo.first])
                     [Demo.cultivated; Demo.first])).
Proof.
  apply (@buildUnifiedLog_events Demo.isoParser
           (Demo.worldWith [Demo.cultivated; Demo.first]) 0%nat
           [Demo.cultivated; Demo.first]).
  reflexivity.
Defined.

(** C4 as stated fails on [leaf-view.ts]: for a sprout with one reflection
    of its own the array returned holds a [shining] entry, so it is not made
    of the four kinds of events alone. *)
Lemma buildUnifiedLog_four_kinds_refuted :
  exists out,
    View.returnsLog (@LeafView.buildUnifiedLog Demo.isoParser 0%nat)
                    (Demo.worldWith [Demo.cultivated]) out
    /\ (exists e, In e out /\ Types.type e = Types.shining)
    /\ ~ Permutation out (flat_map (Timeline.events [Demo.cultivated]) [Demo.cultivated]).
Proof.
  eexists. split; [apply returnsLog_LeafView; reflexivity|]. split.
  - eexists. split; [left; reflexivity|]. reflexivity.
  - intros HP. apply Permutation_length in HP. vm_compute in HP. discriminate HP.
Qed.

Lemma buildUnifiedLog_unresolved_origin_witness :
  let marker :=
    {| Types.type := Types.graft_origin;
       Types.timestamp := Types.createdAt Demo.orphan;
       Types.sproutId := Types.id Demo.orphan;
       Types.sproutTitle := Types.title Demo.orphan;
       Types.data := Types.graftData "previous sprout" |} in
  (exists out,
      View.returnsLog (@LeafView.buildUnifiedLog Demo.isoParser 0%nat)
                      (Demo.worldWith [Demo.first; Demo.orphan]) out
      /\ In marker out)
  /\ (exists out,
      View.returnsLog (@LeafViewOrigin.buildUnifiedLog Demo.isoParser 0%nat)
                      (Demo.worldWith [Demo.first; Demo.orphan]) out
      /\ In marker out).
Proof.
  apply (@buildUnifiedLog_unresolved_origin Demo.isoParser
           (Demo.worldWith [Demo.first; Demo.orphan]) 0%nat
           [Demo.first; Demo.orphan] Demo.orphan "sprout-0").
  - reflexivity.
  - simpl. right. left. reflexivity.
  - reflexivity.
  - discriminate.
  - simpl. intros o [<-|[<-|[]]]; discriminate.
Defined.

Lemma buildUnifiedLog_pure_witness :
  exists out,
    View.returnsLog (@LeafView.buildUnifiedLog Demo.isoParser 0%nat)
                    (Demo.worldWith [Demo.first; Demo.successor]) out
    /\ View.returnsLog (@LeafView.buildUnifiedLog Demo.isoParser 1%nat)
         (View.set_heap [Types.EntryArr []; Types.SproutArr [Demo.first; Demo.successor]]
            (View.set_soilAvailable 3 (Demo.worldWith []))) out.
Proof.
  destruct (@buildUnifiedLog_pure Demo.isoParser
              (Demo.worldWith [Demo.first; Demo.successor])
              (View.set_heap [Types.EntryArr []; Types.SproutArr [Demo.first; Demo.successor]]
                 (View.set_soilAvailable 3 (Demo.worldWith [])))
              0%nat 1%nat [Demo.first; Demo.successor] eq_refl eq_refl)
    as [(out & r1 & w1' & r1' & w1'' & r2 & w2' & Ha & [Hr1 Hw1] & _ & _ & _ & Hb & [Hr2 Hw2]) _].
  exists out. split.
  - exists r1, w1'. split; [exact Ha|]. rewrite Hw1, Hr1. reflexivity.
  - exists r2, w2'. split; [exact Hb|]. rewrite Hw2, Hr2. reflexivity.
Defined.

(** ** The graft commit path *)
Section GraftFacts.
Import Types View State.
Context {tz : ESDate.TimeZone} {parser : DateParse} {api : StateApi}.

Lemma gtb_of_leb (a b : Z) : (a <=? b) = true -> (a >? b) = false.
Proof. intros H. apply Z.leb_le in H. rewrite Z.gtb_ltb. apply Z.ltb_ge. lia. Qed.

(** Closes the cases of a handler that returned before any call. *)
Ltac no_call :=
  solve [ exists []; cbn; rewrite ?app_nil_r;
          split; [reflexivity|]; split; [reflexivity|];
          split; [intros ? ? []|intros ? []] ].

(** Decides membership of a call in an explicit trace. *)
Ltac in_trace H :=
  cbn in H;
  repeat (destruct H as [H|H]; [try discriminate H; try (injection H; intros; subst)|]);
  try contradiction.

Lemma LeafView_doGraft_trace : Commit.spendsOnlyAfterCheck LeafView.doGraft.
Proof.
  intros w. cbv zeta.
  destruct w as [h ns soil t twig leaf from season env log tEl mEl cs].
  unfold LeafView.doGraft. cbn.
  destruct twig as [twig|]; [|no_call].
  destruct leaf as [leaf|]; [|no_call].
  destruct season as [season|]; [|no_call].
  destruct env as [env|]; [|no_call].
  destruct (String.eqb twig "" || String.eqb leaf ""); [no_call|].
  destruct log as [| |[form|] entries]; try no_call.
  cbn. destruct (String.eqb (ES.trim (titleValue form)) ""); [no_call|].
  unfold canAffordSoil, spendSoil, logCall, Eff.bind, Eff.get, Eff.modify, Eff.ret. cbn.
  destruct (calculateSoilCost season env <=? soil) eqn:E; cbn.
  - rewrite (gtb_of_leb _ _ E). cbn.
    destruct (LeafView.getEndDate season (Some t)) as [endDate|]; cbn;
      rewrite <- ?app_assoc; cbn; eexists; (split; [reflexivity|]);
      cbn; rewrite Z.eqb_refl; (split; [reflexivity|]);
      (split; [intros c ok H|intros c H]); in_trace H;
      (split; [reflexivity|]); (split; [apply Z.leb_le, E|]);
      exists season, env; repeat split; reflexivity.
  - exists [CanAffordSoil (calculateSoilCost season env) false].
    split; [reflexivity|]. split; [reflexivity|].
    split; [intros c ok H|intros c H]; in_trace H. reflexivity.
Qed.

Lemma getLeaf_run (w : World) : exists leaf, LeafView.getLeaf w = (Some leaf, w).
Proof.
  unfold LeafView.getLeaf, getLeafById, Eff.bind, Eff.get, Eff.ret.
  destruct (currentTwigId w) as [twig|]; [|eexists; reflexivity].
  destruct (currentLeafId w) as [leaf|]; [|eexists; reflexivity].
  destruct (String.eqb twig "" || String.eqb leaf ""); eexists; reflexivity.
Qed.

Lemma LeafView_getSprouts_run (w : World) :
  exists xs, LeafView.getSprouts w
             = (Some (length (heap w)), set_heap (heap w ++ [SproutArr xs]) w).
Proof.
  unfold LeafView.getSprouts, getSproutsByLeaf, Eff.bind, Eff.get.
  destruct (currentTwigId w) as [twig|]; [|eexists; reflexivity].
  destruct (currentLeafId w) as [leaf|]; [|eexists; reflexivity].
  destruct (String.eqb twig "" || String.eqb leaf ""); [eexists; reflexivity|].
  destruct (nodeState w !! twig) as [data|]; [|eexists; reflexivity].
  destruct (sprouts data); eexists; reflexivity.
Qed.

Lemma Origin_getSprouts_run (w : World) :
  exists xs, LeafViewOrigin.getSprouts w
             = (Some (length (heap w)), set_heap (heap w ++ [SproutArr xs]) w).
Proof. apply LeafView_getSprouts_run. Qed.

(** [render] of the origin-chaining revision never throws and calls nothing
    outside the view. *)
Lemma Origin_render_run (w : World) :
  exists w', LeafViewOrigin.render w = (Some tt, w') /\ calls w' = calls w
             /\ soilAvailable w' = soilAvailable w /\ nodeState w' = nodeState w.
Proof.
  unfold LeafViewOrigin.render, LeafViewOrigin.getLeaf.
  destruct (getLeaf_run w) as [leaf Hleaf]. rewrite (bind_run _ _ _ _ _ Hleaf).
  destruct leaf as [leaf|]; [|eexists; repeat split; reflexivity].
  destruct (Origin_getSprouts_run w) as [xs Hxs]. rewrite (bind_run _ _ _ _ _ Hxs).
  assert (Hread : readSprouts (length (heap w)) (set_heap (heap w ++ [SproutArr xs]) w)
                  = (Some xs, set_heap (heap w ++ [SproutArr xs]) w)).
  { unfold readSprouts. cbn [heap set_heap].
    rewrite list_lookup_middle by reflexivity. reflexivity. }
  rewrite (bind_run _ _ _ _ _ Hread). cbv zeta.
  assert (Hat : heap (set_heap (heap w ++ [SproutArr xs]) w) !! length (heap w)
                = Some (SproutArr xs)).
  { cbn [heap set_heap]. apply list_lookup_middle. reflexivity. }
  rewrite (bind_run _ _ _ _ _ (Origin_buildUnifiedLog_run _ _ _ Hat)).
  rewrite (bind_run _ _ _ _ _ (readEntries_run _ _ _)).
  unfold Eff.bind, Eff.modify, LeafViewOrigin.wireLogEvents, Eff.ret.
  destruct (ES.sort _ _); eexists; repeat split; reflexivity.
Qed.

Lemma Origin_doGraft_trace : Commit.spendsOnlyAfterCheck LeafViewOrigin.doGraft.
Proof.
  intros w. cbv zeta.
  destruct w as [h ns soil t twig leaf from season env log tEl mEl cs].
  unfold LeafViewOrigin.doGraft. cbn -[LeafViewOrigin.render].
  destruct twig as [twig|]; [|no_call].
  destruct from as [from|]; [|no_call].
  destruct season as [season|]; [|no_call].
  destruct env as [env|]; [|no_call].
  destruct (String.eqb twig "" || String.eqb from ""); [no_call|].
  destruct log as [| |[form|] entries]; try no_call.
  cbn -[LeafViewOrigin.render].
  destruct (String.eqb (ES.trim (titleValue form)) ""); [no_call|].
  unfold canAffordSoil, spendSoil, logCall, Eff.bind, Eff.get, Eff.modify, Eff.ret.
  cbn -[LeafViewOrigin.render].
  destruct (calculateSoilCost season env <=? soil) eqn:E; cbn -[LeafViewOrigin.render].
  - rewrite (gtb_of_leb _ _ E). cbn -[LeafViewOrigin.render].
    destruct (LeafViewOrigin.getEndDate season (Some t)) as [endDate|];
      cbn -[LeafViewOrigin.render].
    + match goal with
      | |- context [LeafViewOrigin.render ?W] =>
          destruct (Origin_render_run W) as (w2 & Hr & Hc & _); rewrite Hr
      end.
      cbn in Hc |- *. rewrite Hc, <- !app_assoc. cbn.
      eexists. split; [reflexivity|].
      cbn. rewrite Z.eqb_refl. split; [reflexivity|].
      split; [intros c ok H|intros c H]; in_trace H.
      split; [reflexivity|]. split; [apply Z.leb_le, E|].
      exists season, env. repeat split; reflexivity.
    + rewrite <- ?app_assoc. cbn. eexists. split; [reflexivity|].
      cbn. rewrite Z.eqb_refl. split; [reflexivity|].
      split; [intros c ok H|intros c H]; in_trace H.
      split; [reflexivity|]. split; [apply Z.leb_le, E|].
      exists season, env. repeat split; reflexivity.
  - exists [CanAffordSoil (calculateSoilCost season env) false].
    split; [reflexivity|]. split; [reflexivity|].
    split; [intros c ok H|intros c H]; in_trace H. reflexivity.
Qed.

(** C2.  In [doGraft], [spendSoil(cost)] comes only right after
    [canAffordSoil(cost)] answered [true] on the same cost, the one
    [calculateSoilCost] gives for the selected season and environment, so
    the spend never takes its insufficient-resource branch; and when
    [canAffordSoil(cost)] answers [false] the handler leaves the world as it
    found it (no soil spent, no sprout created), the query aside.  Both
    revisions. *)
Theorem doGraft_spends_only_after_check :
  Commit.spendsOnlyAfterCheck LeafView.doGraft
  /\ Commit.spendsOnlyAfterCheck LeafViewOrigin.doGraft.
Proof. split; [apply LeafView_doGraft_trace|apply Origin_doGraft_trace]. Qed.

End GraftFacts.

(** ** Where a graft is offered *)
Section OfferFacts.
Import Types View State.
Context {parser : DateParse}.

Lemma getSprouts_leafSprouts (w : World) :
  LeafView.getSprouts w
  = (Some (length (heap w)), set_heap (heap w ++ [SproutArr (Offer.leafSprouts w)]) w).
Proof.
  unfold LeafView.getSprouts, Offer.leafSprouts, getSproutsByLeaf, Eff.bind, Eff.get.
  destruct (currentTwigId w) as [twig|]; [|reflexivity].
  destruct (currentLeafId w) as [leaf|]; [|reflexivity].
  destruct (String.eqb twig "" || String.eqb leaf ""); [reflexivity|].
  destruct (nodeState w !! twig) as [data|]; [|reflexivity].
  destruct (sprouts data); reflexivity.
Qed.

Lemma existsb_active_false (ss : list Sprout) :
  existsb (fun s => SproutState_eqb (state s) active) ss = false ->
  Forall (fun s => state s <> active) ss.
Proof.
  intros H. apply List.Forall_forall. intros s Hs Hact.
  assert (Ht : existsb (fun s => SproutState_eqb (state s) active) ss = true).
  { apply existsb_exists. exists s. split; [assumption|]. rewrite Hact. reflexivity. }
  congruence.
Qed.

Lemma LeafView_render_offer (w : World) :
  Offer.offersGraftSection (logEl (snd (LeafView.render w))) ->
  Forall (fun s => state s <> active) (Offer.leafSprouts w).
Proof.
  unfold LeafView.render.
  destruct (getLeaf_run w) as [leaf Hleaf]. rewrite (bind_run _ _ _ _ _ Hleaf).
  rewrite (bind_run _ _ _ _ _ (getSprouts_leafSprouts w)).
  set (w1 := set_heap (heap w ++ [SproutArr (Offer.leafSprouts w)]) w).
  assert (Hread : readSprouts (length (heap w)) w1 = (Some (Offer.leafSprouts w), w1)).
  { unfold readSprouts, w1. cbn [heap set_heap].
    rewrite list_lookup_middle by reflexivity. reflexivity. }
  rewrite (bind_run _ _ _ _ _ Hread).
  rewrite (bind_run Eff.get _ w1 w1 w1 eq_refl).
  match goal with
  | |- context [Eff.bind ?blk _] =>
      assert (Hblk : exists w2, blk w1 = (Some tt, w2) /\ heap w2 = heap w1)
  end.
  { destruct leaf; destruct (Offer.leafSprouts w);
      destruct (currentTwigId w1) as [twig|]; destruct (currentLeafId w1) as [lf|];
      try (eexists; split; reflexivity).
    destruct (String.eqb twig "" || String.eqb lf ""); [eexists; split; reflexivity|].
    destruct (nodeState w1 !! twig); eexists; split; reflexivity. }
  destruct Hblk as (w2 & Hblk & Hheap). rewrite (bind_run _ _ _ _ _ Hblk).
  destruct (Offer.leafSprouts w) as [|s0 rest] eqn:Ess.
  - intros [form Hform]. discriminate Hform.
  - assert (Hat : heap w2 !! length (heap w) = Some (SproutArr (s0 :: rest))).
    { rewrite Hheap. unfold w1. cbn [heap set_heap].
      apply list_lookup_middle. reflexivity. }
    rewrite (bind_run _ _ _ _ _ (LeafView_buildUnifiedLog_run _ _ _ Hat)).
    rewrite (bind_run _ _ _ _ _ (readEntries_run _ _ _)).
    destruct (ES.sort _ _) as [|e0 es].
    + intros [form Hform]. discriminate Hform.
    + unfold Eff.bind, Eff.modify, LeafView.wireLogEvents, Eff.ret. cbn.
      unfold LeafView.renderGraftForm.
      destruct (SproutState_eqb (state s0) active
                || existsb (fun s => SproutState_eqb (state s) active) rest) eqn:E.
      * intros [form Hform]. discriminate Hform.
      * intros _. apply (existsb_active_false (s0 :: rest)). exact E.
Qed.

Lemma events_completion_success (all : list Sprout) (s : Sprout) (e : LogEntry) :
  In e (Timeline.events all s) ->
  type e = completion ->
  data_isSuccess (data e) = Some true ->
  sproutId e = id s /\ state s = completed.
Proof.
  unfold Timeline.events. cbn [In]. rewrite !in_app_iff.
  intros [<-|[H|[H|H]]] Ht Hs.
  - discriminate Ht.
  - unfold Timeline.graftOriginEvents in H.
    destruct (graftedFromId s) as [g|]; [|contradiction].
    destruct (String.eqb g ""); [contradiction|].
    destruct H as [<-|[]]. discriminate Ht.
  - unfold Timeline.wateringEvents in H.
    apply in_map_iff in H as (x & <- & _). discriminate Ht.
  - unfold Timeline.completionEvents in H.
    destruct (completedAt s) as [c|]; [|contradiction].
    destruct (String.eqb c ""); [contradiction|].
    destruct H as [<-|[]]. cbn in Hs |- *. split; [reflexivity|].
    destruct (state s); try reflexivity; discriminate Hs.
Qed.

Lemma Origin_button_origin (all : list Sprout) (e : LogEntry) (origin : string) :
  html_graftBtn (LeafViewOrigin.renderLogEntry e all) = Some origin ->
  type e = completion /\ data_isSuccess (data e) = Some true /\ sproutId e = origin.
Proof.
  unfold LeafViewOrigin.renderLogEntry.
  destruct (type e); cbn; try discriminate.
  destruct (find _ all); [|discriminate].
  destruct (data_isSuccess (data e)) as [[|]|]; try discriminate.
  intros H. injection H as <-. repeat split.
Qed.

Lemma Origin_buttons_completed (ss : list Sprout) (out : list LogEntry) :
  Permutation out (flat_map (Timeline.events ss) ss) ->
  forall origin,
    In origin (Offer.graftButtons
                 (LogEntries LeafViewOrigin.renderGraftForm
                    (map (fun e => LeafViewOrigin.renderLogEntry e ss) out))) ->
    exists s, In s ss /\ id s = origin /\ state s = completed.
Proof.
  intros HP origin Hin. unfold Offer.graftButtons in Hin.
  apply in_flat_map in Hin as (btn & Hbtn & Hor).
  apply in_map_iff in Hbtn as (e & <- & He).
  destruct (html_graftBtn (LeafViewOrigin.renderLogEntry e ss)) as [o|] eqn:Eb;
    [|contradiction].
  destruct Hor as [<-|[]].
  apply Origin_button_origin in Eb as (Ht & Hs & Hid).
  apply (Permutation_in _ HP) in He.
  apply in_flat_map in He as (s & Hs_in & He).
  destruct (events_completion_success ss s e He Ht Hs) as [Heq Hst].
  exists s. repeat split; [assumption|congruence|assumption].
Qed.

Lemma Origin_render_offer (w : World) :
  let w' := snd (LeafViewOrigin.render w) in
  logEl w' = logEl w
  \/ Forall (Offer.completedOnLeaf w) (Offer.graftButtons (logEl w')).
Proof.
  cbv zeta. unfold LeafViewOrigin.render, LeafViewOrigin.getLeaf.
  destruct (getLeaf_run w) as [leaf Hleaf]. rewrite (bind_run _ _ _ _ _ Hleaf).
  destruct leaf as [leaf|]; [|left; reflexivity].
  right.
  change LeafViewOrigin.getSprouts with LeafView.getSprouts.
  rewrite (bind_run _ _ _ _ _ (getSprouts_leafSprouts w)).
  set (w1 := set_heap (heap w ++ [SproutArr (Offer.leafSprouts w)]) w).
  assert (Hat : heap w1 !! length (heap w) = Some (SproutArr (Offer.leafSprouts w))).
  { unfold w1. cbn [heap set_heap]. apply list_lookup_middle. reflexivity. }
  assert (Hread : readSprouts (length (heap w)) w1 = (Some (Offer.leafSprouts w), w1)).
  { unfold readSprouts. rewrite Hat. reflexivity. }
  rewrite (bind_run _ _ _ _ _ Hread). cbv zeta.
  rewrite (bind_run _ _ _ _ _ (Origin_buildUnifiedLog_run _ _ _ Hat)).
  rewrite (bind_run _ _ _ _ _ (readEntries_run _ _ _)).
  unfold Eff.bind, Eff.modify, LeafViewOrigin.wireLogEvents, Eff.ret.
  pose proof (sort_Permutation LeafViewOrigin.byTimestampDesc
                (flat_map (Timeline.events (Offer.leafSprouts w)) (Offer.leafSprouts w)))
    as HP.
  destruct (ES.sort _ _) as [|e0 es] eqn:Es; cbn [snd logEl set_logEl].
  - constructor.
  - apply List.Forall_forall. intros origin Hin.
    apply (Origin_buttons_completed _ _ HP origin Hin).
Qed.

End OfferFacts.

Section OfferCommitFacts.
Import Types View State.
Context {tz : ESDate.TimeZone} {parser : DateParse} {api : StateApi}.

(** [doGraft] of [leaf-view.ts] grafts only through the graft section of
    the log on display, into the leaf on view. *)
Lemma LeafView_doGraft_section (w : World) :
  exists added,
    calls (snd (LeafView.doGraft w)) = calls w ++ added
    /\ forall twigId leaf,
         In (twigId, leaf) (Offer.leafGrafts added) ->
         Offer.offersGraftSection (logEl w)
         /\ currentTwigId w = Some twigId /\ currentLeafId w = Some leaf.
Proof.
  destruct w as [h ns soil t twig leaf from season env log tEl mEl cs].
  unfold LeafView.doGraft. cbn.
  assert (Hnone : exists added : list Call,
            cs = cs ++ added
            /\ forall twigId lf, In (twigId, lf) (Offer.leafGrafts added) ->
                 Offer.offersGraftSection log /\ twig = Some twigId /\ leaf = Some lf).
  { exists []. rewrite app_nil_r. split; [reflexivity|]. intros ? ? []. }
  destruct twig as [twig|]; [|exact Hnone].
  destruct leaf as [leaf|]; [|exact Hnone].
  destruct season as [season|]; [|exact Hnone].
  destruct env as [env|]; [|exact Hnone].
  destruct (String.eqb twig "" || String.eqb leaf ""); [exact Hnone|].
  destruct log as [| |[form|] entries]; try exact Hnone.
  cbn. destruct (String.eqb (ES.trim (titleValue form)) ""); [exact Hnone|].
  clear Hnone.
  unfold canAffordSoil, spendSoil, logCall, Eff.bind, Eff.get, Eff.modify, Eff.ret. cbn.
  destruct (calculateSoilCost season env <=? soil) eqn:E; cbn.
  - rewrite (gtb_of_leb _ _ E). cbn.
    destruct (LeafView.getEndDate season (Some t)) as [endDate|]; cbn;
      rewrite <- ?app_assoc; cbn; eexists; (split; [reflexivity|]);
      intros twigId lf H; cbn in H;
      repeat (destruct H as [H|H]; [injection H as <- <-|]); try contradiction;
      (split; [eexists; reflexivity|split; reflexivity]).
  - eexists. split; [reflexivity|]. intros ? ? [].
Qed.

(** [doGraft] of the origin-chaining revision grafts only from the sprout
    that [graftFromSproutId] names. *)
Lemma Origin_doGraft_origin (w : World) :
  exists added,
    calls (snd (LeafViewOrigin.doGraft w)) = calls w ++ added
    /\ forall twigId origin,
         In (twigId, origin) (Offer.sproutGrafts added) ->
         currentTwigId w = Some twigId /\ graftFromSproutId w = Some origin.
Proof.
  destruct w as [h ns soil t twig leaf from season env log tEl mEl cs].
  unfold LeafViewOrigin.doGraft. cbn -[LeafViewOrigin.render].
  assert (Hnone : exists added : list Call,
            cs = cs ++ added
            /\ forall twigId origin, In (twigId, origin) (Offer.sproutGrafts added) ->
                 twig = Some twigId /\ from = Some origin).
  { exists []. rewrite app_nil_r. split; [reflexivity|]. intros ? ? []. }
  destruct twig as [twig|]; [|exact Hnone].
  destruct from as [from|]; [|exact Hnone].
  destruct season as [season|]; [|exact Hnone].
  destruct env as [env|]; [|exact Hnone].
  destruct (String.eqb twig "" || String.eqb from ""); [exact Hnone|].
  destruct log as [| |[form|] entries]; try exact Hnone.
  cbn -[LeafViewOrigin.render].
  destruct (String.eqb (ES.trim (titleValue form)) ""); [exact Hnone|].
  clear Hnone.
  unfold canAffordSoil, spendSoil, logCall, Eff.bind, Eff.get, Eff.modify, Eff.ret.
  cbn -[LeafViewOrigin.render].
  destruct (calculateSoilCost season env <=? soil) eqn:E; cbn -[LeafViewOrigin.render].
  - rewrite (gtb_of_leb _ _ E). cbn -[LeafViewOrigin.render].
    destruct (LeafViewOrigin.getEndDate season (Some t)) as [endDate|];
      cbn -[LeafViewOrigin.render].
    + match goal with
      | |- context [LeafViewOrigin.render ?W] =>
          destruct (Origin_render_run W) as (w2 & Hr & Hc & _); rewrite Hr
      end.
      cbn in Hc |- *. rewrite Hc, <- !app_assoc. cbn.
      eexists. split; [reflexivity|].
      intros twigId origin H; cbn in H.
      repeat (destruct H as [H|H]; [injection H as <- <-|]); try contradiction.
      split; reflexivity.
    + rewrite <- ?app_assoc. cbn. eexists. split; [reflexivity|].
      intros twigId origin H; cbn in H.
      repeat (destruct H as [H|H]; [injection H as <- <-|]); try contradiction.
  - eexists. split; [reflexivity|]. intros ? ? [].
Qed.

(** The click on a graft button names the button's sprout, or nothing. *)
Lemma clickGraftBtn_origin (btn : EntryHtml) (w : World) (origin : string) :
  graftFromSproutId (snd (LeafViewOrigin.clickGraftBtn btn w)) = Some origin ->
  html_graftBtn btn = Some origin \/ graftFromSproutId w = Some origin.
Proof.
  destruct w as [h ns soil t twig leaf from season env log tEl mEl cs].
  unfold LeafViewOrigin.clickGraftBtn.
  destruct (html_graftBtn btn) as [o|]; [|cbn; auto].
  destruct (String.eqb o ""); [cbn; auto|].
  unfold LeafViewOrigin.updateGraftFormState, LeafView.setGraftSection,
    getSoilAvailable, canAffordSoil, logCall, Eff.bind, Eff.get,
    Eff.modify, Eff.ret, Eff.throw.
  cbn. destruct log as [| |[form|] entries]; cbn; auto.
  destruct season; destruct env; cbn; auto.
Qed.

End OfferCommitFacts.

(** *** The graft claims on the scenario *)

(** With soil for the cost the handler checks, spends, grafts and closes. *)
Example doGraft_affordable :
  View.calls (snd (@LeafView.doGraft Demo.utcZone Demo.api (Demo.graftReady 5)))
  = [ View.CanAffordSoil 1 true; View.SpendSoil 1 true; View.OnSoilChange;
      View.GraftFromLeaf "twig-1" "leaf-1"
        {| View.in_title := "Run 10k"; View.in_season := Types.S1w;
           View.in_environment := Types.fertile; View.in_state := Types.active;
           View.in_soilCost := 1;
           View.in_activatedAt := "2024-03-01T12:00:00.000Z";
           View.in_endDate := "2024-03-08T15:00:00.000Z" |};
      View.OnSave; View.OnClose ]
  /\ View.soilAvailable (snd (@LeafView.doGraft Demo.utcZone Demo.api (Demo.graftReady 5))) = 4.
Proof. split; vm_compute; reflexivity. Qed.

(** Without it the only trace of the click is the failed check. *)
Example doGraft_unaffordable :
  snd (@LeafView.doGraft Demo.utcZone Demo.api (Demo.graftReady 0))
  = View.set_calls [View.CanAffordSoil 1 false] (Demo.graftReady 0).
Proof. vm_compute. reflexivity. Qed.

Lemma doGraft_spends_only_after_check_witness :
  exists added,
    View.calls (snd (@LeafView.doGraft Demo.utcZone Demo.api (Demo.graftReady 5)))
    = View.calls (Demo.graftReady 5) ++ added
    /\ View.guardedSpends None added = true
    /\ In (View.SpendSoil 1 true) added.
Proof.
  destruct (proj1 (@doGraft_spends_only_after_check Demo.utcZone Demo.isoParser Demo.api)
              (Demo.graftReady 5)) as (added & Hcalls & Hguard & _).
  exists added. split; [exact Hcalls|]. split; [exact Hguard|].
  vm_compute in Hcalls. rewrite <- Hcalls. right. left. reflexivity.
Defined.

(** ** The shine dialog *)
Section ShineFacts.
Import Types ShineDialog.
Context {week : WeekPolicy}.

Lemma lastN_app {A : Type} (k : nat) (xs ys : list A) :
  Rotation.lastN k (Rotation.lastN k xs ++ ys) = Rotation.lastN k (xs ++ ys).
Proof.
  unfold Rotation.lastN.
  rewrite <- (drop_app_le xs ys (length xs - k)) by lia.
  rewrite drop_drop, length_drop, length_app. f_equal. lia.
Qed.

Lemma lastN_length {A : Type} (k : nat) (xs : list A) :
  (length (Rotation.lastN k xs) <= k)%nat.
Proof. unfold Rotation.lastN. rewrite length_drop. lia. Qed.

Lemma lastN_short {A : Type} (k : nat) (xs : list A) :
  (length xs <= k)%nat -> Rotation.lastN k xs = xs.
Proof.
  intros H. unfold Rotation.lastN. replace (length xs - k)%nat with 0%nat by lia.
  reflexivity.
Qed.

Lemma limit_nonneg (pool : list string) : 0 <= RECENT_SUN_PROMPT_LIMIT pool.
Proof.
  unfold RECENT_SUN_PROMPT_LIMIT.
  apply Z.min_glb; [lia|]. apply Z.div_pos; lia.
Qed.

(** The [push] followed by the conditional [shift] keeps the last
    [limit pool] prompts. *)
Lemma push_shift_lastN (pool : list string) (recent : list (option string))
    (p : option string) :
  (length recent <= Rotation.limit pool)%nat ->
  (if RECENT_SUN_PROMPT_LIMIT pool <? Z.of_nat (length (recent ++ [p]))
   then tail (recent ++ [p]) else recent ++ [p])
  = Rotation.lastN (Rotation.limit pool) (recent ++ [p]).
Proof.
  intros Hlen. unfold Rotation.limit in *.
  pose proof (limit_nonneg pool) as Hk.
  rewrite length_app. cbn [length].
  destruct (Z.ltb_spec (RECENT_SUN_PROMPT_LIMIT pool) (Z.of_nat (length recent + 1))) as [H|H].
  - unfold Rotation.lastN. rewrite length_app. cbn [length].
    replace (length recent + 1 - Z.to_nat (RECENT_SUN_PROMPT_LIMIT pool))%nat
      with 1%nat by lia.
    destruct (recent ++ [p]); reflexivity.
  - symmetry. apply lastN_short. rewrite length_app. cbn [length]. lia.
Qed.

(** The index [Math.floor(Math.random() * n)] is below [n]. *)
Lemma random_index_lt (r : Z) (n : nat) :
  0 <= r < 2 ^ 53 -> (0 < n)%nat ->
  (Z.to_nat (r * Z.of_nat n / 2 ^ 53) < n)%nat.
Proof.
  intros Hr Hn.
  assert (0 <= r * Z.of_nat n / 2 ^ 53 < Z.of_nat n).
  { split.
    - apply Z.div_pos; [nia|lia].
    - apply Z.div_lt_upper_bound; [lia|]. nia. }
  lia.
Qed.

(** What one call of [getRandomSunPrompt] does to the world. *)
Lemma getRandomSunPrompt_run (pool : list string) (w : World) :
  let available :=
    List.filter (fun p => negb (includes (recentSunPrompts w) p)) pool in
  let chosen := if (0 <? length available)%nat then available else pool in
  exists r,
    0 <= r < 2 ^ 53
    /\ let prompt := chosen !! Z.to_nat (r * Z.of_nat (length chosen) / 2 ^ 53) in
       let pushed := recentSunPrompts w ++ [prompt] in
       getRandomSunPrompt pool w
       = (Some prompt,
          set_recentSunPrompts
            (if RECENT_SUN_PROMPT_LIMIT pool <? Z.of_nat (length pushed)
             then tail pushed else pushed)
            (set_randoms (tail (randoms w)) w)).
Proof.
  cbv zeta. destruct w as [ns sun cap t rs recent cur els cs].
  unfold getRandomSunPrompt, Math_random, Eff.bind, Eff.get, Eff.modify, Eff.when, Eff.ret.
  cbn [recentSunPrompts randoms set_randoms set_recentSunPrompts nodeState sunAvailable
       sunCapacity now currentShiningSprout elements calls].
  destruct rs as [|r rs].
  - exists 0. split; [lia|]. cbn [tail].
    destruct (RECENT_SUN_PROMPT_LIMIT pool <? _); reflexivity.
  - exists (r mod 2 ^ 53). split; [apply Z.mod_pos_bound; lia|]. cbn [tail].
    destruct (RECENT_SUN_PROMPT_LIMIT pool <? _); reflexivity.
Qed.

Lemma getRandomSunPrompt_step (pool : list string) (w : World) :
  pool <> [] ->
  (length (recentSunPrompts w) <= Rotation.limit pool)%nat ->
  exists p w',
    getRandomSunPrompt pool w = (Some (Some p), w')
    /\ In p pool
    /\ ((exists q, In q pool /\ includes (recentSunPrompts w) q = false) ->
        includes (recentSunPrompts w) p = false)
    /\ recentSunPrompts w'
       = Rotation.lastN (Rotation.limit pool) (recentSunPrompts w ++ [Some p])
    /\ (length (recentSunPrompts w') <= Rotation.limit pool)%nat.
Proof.
  intros Hpool Hlen.
  destruct (getRandomSunPrompt_run pool w) as (r & Hr & Hrun). cbv zeta in Hrun.
  set (available := List.filter (fun p => negb (includes (recentSunPrompts w) p)) pool) in *.
  set (chosen := if (0 <? length available)%nat then available else pool) in *.
  assert (Hchosen : (0 < length chosen)%nat).
  { unfold chosen. destruct (Nat.ltb_spec 0 (length available)); [assumption|].
    destruct pool; [congruence|cbn; lia]. }
  destruct (lookup_lt_is_Some_2 chosen _ (random_index_lt r (length chosen) Hr Hchosen))
    as [p Hp].
  rewrite Hp in Hrun.
  assert (Hin : In p chosen) by (apply list_elem_of_In; eapply list_elem_of_lookup_2; eauto).
  eexists p, _. split; [exact Hrun|].
  split; [|split; [|split]].
  - unfold chosen in Hin. destruct (0 <? length available)%nat; [|assumption].
    apply List.filter_In in Hin. tauto.
  - intros (q & Hq & Hnew).
    assert (Hqa : In q available).
    { apply List.filter_In. split; [assumption|]. rewrite Hnew. reflexivity. }
    unfold chosen in Hin.
    destruct (Nat.ltb_spec 0 (length available)) as [_|Hz].
    + apply List.filter_In in Hin as [_ Hp']. apply negb_true_iff in Hp'. exact Hp'.
    + destruct available; [contradiction|cbn in Hz; lia].
  - cbn [recentSunPrompts set_recentSunPrompts]. apply push_shift_lastN, Hlen.
  - cbn [recentSunPrompts set_recentSunPrompts].
    rewrite (push_shift_lastN pool _ _ Hlen). apply lastN_length.
Qed.

Lemma getRandomSunPrompt_buffer (pool : list string) (w : World) :
  (length (recentSunPrompts w) <= Rotation.limit pool)%nat ->
  exists prompt w',
    getRandomSunPrompt pool w = (Some prompt, w')
    /\ recentSunPrompts w'
       = Rotation.lastN (Rotation.limit pool) (recentSunPrompts w ++ [prompt]).
Proof.
  intros Hlen. destruct (getRandomSunPrompt_run pool w) as (r & _ & Hrun).
  cbv zeta in Hrun. eexists _, _. split; [exact Hrun|].
  cbn [recentSunPrompts set_recentSunPrompts]. apply push_shift_lastN, Hlen.
Qed.

Lemma draws_buffer (pool : list string) (n : nat) (w : World) :
  (length (recentSunPrompts w) <= Rotation.limit pool)%nat ->
  length (fst (Rotation.draws pool n w)) = n
  /\ recentSunPrompts (snd (Rotation.draws pool n w))
     = Rotation.lastN (Rotation.limit pool)
         (recentSunPrompts w ++ fst (Rotation.draws pool n w)).
Proof.
  revert w. induction n as [|n IH]; intros w Hlen.
  - cbn. rewrite app_nil_r. split; [reflexivity|].
    symmetry. apply lastN_short, Hlen.
  - destruct (getRandomSunPrompt_buffer pool w Hlen) as (p & w1 & Hrun & Hrecent).
    cbn [Rotation.draws]. rewrite Hrun.
    assert (Hlen1 : (length (recentSunPrompts w1) <= Rotation.limit pool)%nat)
      by (rewrite Hrecent; apply lastN_length).
    destruct (IH w1 Hlen1) as (Hn & Hrec).
    destruct (Rotation.draws pool n w1) as [ps w2]. cbn [fst snd] in *.
    split; [cbn; congruence|].
    rewrite Hrec, Hrecent, lastN_app, <- app_assoc. reflexivity.
Qed.

(** C6.  The bound of the recent buffer is [k = min(10, floor(size / 3))].
    Over any number of calls from the empty buffer, the buffer holds the
    last [k] values returned and so never more than [k] elements.  On a
    non-empty pool a call returns a prompt of the pool, one not among the
    recent prompts whenever the pool has such a prompt and otherwise any
    prompt of the full pool. *)
Theorem getRandomSunPrompt_rotation (pool : list string) :
  RECENT_SUN_PROMPT_LIMIT pool = Z.min 10 (Z.of_nat (length pool) / 3)
  /\ (forall n w,
        recentSunPrompts w = [] ->
        length (fst (Rotation.draws pool n w)) = n
        /\ recentSunPrompts (snd (Rotation.draws pool n w))
           = Rotation.lastN (Rotation.limit pool) (fst (Rotation.draws pool n w))
        /\ (length (recentSunPrompts (snd (Rotation.draws pool n w)))
            <= Rotation.limit pool)%nat)
  /\ (pool <> [] ->
      forall w,
        (length (recentSunPrompts w) <= Rotation.limit pool)%nat ->
        exists p w',
          getRandomSunPrompt pool w = (Some (Some p), w')
          /\ In p pool
          /\ ((exists q, In q pool /\ includes (recentSunPrompts w) q = false) ->
              includes (recentSunPrompts w) p = false)
          /\ recentSunPrompts w'
             = Rotation.lastN (Rotation.limit pool) (recentSunPrompts w ++ [Some p])
          /\ (length (recentSunPrompts w') <= Rotation.limit pool)%nat).
Proof.
  split; [reflexivity|]. split.
  - intros n w Hempty.
    assert (Hlen : (length (recentSunPrompts w) <= Rotation.limit pool)%nat)
      by (rewrite Hempty; cbn; lia).
    destruct (draws_buffer pool n w Hlen) as (Hn & Hrec).
    rewrite Hempty in Hrec. cbn [app] in Hrec.
    repeat split; try assumption.
    rewrite Hrec. apply lastN_length.
  - intros Hpool w Hlen. apply getRandomSunPrompt_step; assumption.
Qed.

(** The rejections of [openShineDialog] and the order of its checks. *)
Lemma openShineDialog_gated (pool : list string) (sprout : ShineSprout) (w : World) :
  shoneThisWeek w (shine_twigId sprout) = true ->
  openShineDialog pool sprout w
  = (Some tt,
     set_calls
       (calls w ++ [ WasShoneThisWeek (shine_twigId sprout) true;
                     OnSetStatus
                       "Already reflected on this facet this week! Come back next week."
                       warning ]) w).
Proof.
  intros H. unfold openShineDialog, wasShoneThisWeek, onSetStatus, logCall,
    Eff.bind, Eff.get, Eff.modify, Eff.ret.
  cbn [fst snd]. rewrite H.
  destruct w. cbn. rewrite <- app_assoc. reflexivity.
Qed.

Lemma openShineDialog_order (pool : list string) (sprout : ShineSprout) (w : World) :
  shoneThisWeek w (shine_twigId sprout) = false ->
  exists rest,
    calls (snd (openShineDialog pool sprout w))
    = calls w ++ WasShoneThisWeek (shine_twigId sprout) false
                 :: CanAffordSun (1 <=? sunAvailable w) :: rest.
Proof.
  intros H. unfold openShineDialog.
  assert (Hgate : wasShoneThisWeek (shine_twigId sprout) w
                  = (Some false,
                     set_calls (calls w ++ [WasShoneThisWeek (shine_twigId sprout) false]) w)).
  { unfold wasShoneThisWeek, logCall, Eff.bind, Eff.get, Eff.modify, Eff.ret.
    rewrite H. reflexivity. }
  rewrite (bind_run _ _ _ _ _ Hgate).
  set (w1 := set_calls _ w).
  assert (Hsun : canAffordSun w1
                 = (Some (1 <=? sunAvailable w),
                    set_calls (calls w1 ++ [CanAffordSun (1 <=? sunAvailable w)]) w1))
    by reflexivity.
  rewrite (bind_run _ _ _ _ _ Hsun).
  destruct (1 <=? sunAvailable w); cbn [negb].
  - set (w2 := set_calls _ w1).
    unfold Eff.bind at 1. cbn [Eff.modify].
    unfold element. unfold Eff.bind at 1. cbn [Eff.modify].
    unfold Eff.bind at 1. cbn [Eff.modify].
    unfold Eff.bind at 1. cbn [Eff.modify].
    match goal with
    | |- context [Eff.bind (getRandomSunPrompt pool) _ ?W] =>
        destruct (getRandomSunPrompt_run pool W) as (r & _ & Hrun);
        cbv zeta in Hrun; rewrite (bind_run _ _ _ _ _ Hrun)
    end.
    unfold updateRadiateButtonState, element, Eff.bind, Eff.get, Eff.modify.
    cbn. exists []. rewrite <- !app_assoc. reflexivity.
  - unfold onSetStatus, logCall, Eff.modify. cbn.
    eexists. rewrite <- !app_assoc. reflexivity.
Qed.

(** C5.  [openShineDialog] asks [wasShoneThisWeek] first.  On a twig
    already reflected on this week it reports the weekly limit and returns:
    whatever the sun balance, the affordability check is not reached and
    nothing else changes.  Otherwise the affordability check is the next
    call.  The gate does not read the sun balance. *)
Theorem openShineDialog_weekly_gate_first
    (pool : list string) (sprout : ShineSprout) (w : World) :
  (shoneThisWeek w (shine_twigId sprout) = true ->
   openShineDialog pool sprout w
   = (Some tt,
      set_calls
        (calls w ++ [ WasShoneThisWeek (shine_twigId sprout) true;
                      OnSetStatus
                        "Already reflected on this facet this week! Come back next week."
                        warning ]) w))
  /\ (shoneThisWeek w (shine_twigId sprout) = false ->
      exists rest,
        calls (snd (openShineDialog pool sprout w))
        = calls w ++ WasShoneThisWeek (shine_twigId sprout) false
                     :: CanAffordSun (1 <=? sunAvailable w) :: rest)
  /\ (forall sun,
        shoneThisWeek (set_sunAvailable sun w) (shine_twigId sprout)
        = shoneThisWeek w (shine_twigId sprout)).
Proof.
  split; [apply openShineDialog_gated|]. split; [apply openShineDialog_order|].
  intros sun. reflexivity.
Qed.

Lemma saveSunEntry_blank (w : World) :
  ES.trim (shineDialogJournal (elements w)) = "" ->
  saveSunEntry w = (Some tt, w).
Proof.
  intros H. unfold saveSunEntry, Eff.bind, Eff.get. rewrite H. reflexivity.
Qed.

Lemma saveSunEntry_records (w : World) (sproutId twigId : string) :
  ES.trim (shineDialogJournal (elements w)) <> "" ->
  1 <= sunAvailable w ->
  currentShiningSprout w = Some (sproutId, twigId) ->
  let w' := snd (saveSunEntry w) in
  let entry := ES.trim (shineDialogJournal (elements w)) in
  let prompt := journalPlaceholder (elements w) in
  fst (saveSunEntry w) = Some tt
  /\ sunAvailable w' = sunAvailable w - 1
  /\ Rotation.reflections w' twigId
     = Rotation.reflections w twigId
       ++ [ {| sun_timestamp := ESDate.formatISO (now w);
               sun_content := entry; sun_prompt := Some prompt |} ]
  /\ calls w'
     = calls w ++ [ CanAffordSun true; SpendSun true;
                    AddSunEntry twigId entry prompt;
                    OnSetStatus "Light radiated on this life facet!" info ].
Proof.
  intros Hentry Hsun Hcur. cbv zeta.
  apply String.eqb_neq in Hentry.
  assert (Hle : (1 <=? sunAvailable w) = true) by (apply Z.leb_le; exact Hsun).
  assert (Hgt : (1 >? sunAvailable w) = false) by (apply gtb_of_leb; exact Hle).
  destruct w as [ns sun cap t rs recent cur els cs]. cbn in *. subst cur.
  unfold saveSunEntry, canAffordSun, spendSun, updateSunMeter, addSunEntry,
    closeShineDialog, onSetStatus, element, getSunAvailable, getSunCapacity,
    logCall, Eff.bind, Eff.get, Eff.modify, Eff.ret.
  cbn. rewrite Hentry. cbn. rewrite Hle. cbn. rewrite Hgt. cbn.
  split; [reflexivity|]. split; [reflexivity|]. split.
  - unfold Rotation.reflections. cbn. rewrite lookup_insert_eq.
    destruct (ns !! twigId); reflexivity.
  - rewrite <- !app_assoc. reflexivity.
Qed.

(** C10.  [saveSunEntry] does not ask [wasShoneThisWeek]: with a journal
    text that is not blank, sun to spend and a sprout in the dialog, it
    spends one sun and appends one reflection entry to the twig, whether or
    not the twig was reflected on this week; its calls are the
    affordability check, the spend, the entry and the status.  On a blank
    journal text it changes nothing. *)
Theorem saveSunEntry_no_gate (w : World) (sproutId twigId : string) :
  (ES.trim (shineDialogJournal (elements w)) = "" -> saveSunEntry w = (Some tt, w))
  /\ (ES.trim (shineDialogJournal (elements w)) <> "" ->
      1 <= sunAvailable w ->
      currentShiningSprout w = Some (sproutId, twigId) ->
      let w' := snd (saveSunEntry w) in
      let entry := ES.trim (shineDialogJournal (elements w)) in
      let prompt := journalPlaceholder (elements w) in
      fst (saveSunEntry w) = Some tt
      /\ sunAvailable w' = sunAvailable w - 1
      /\ Rotation.reflections w' twigId
         = Rotation.reflections w twigId
           ++ [ {| sun_timestamp := ESDate.formatISO (now w);
                   sun_content := entry; sun_prompt := Some prompt |} ]
      /\ calls w'
         = calls w ++ [ CanAffordSun true; SpendSun true;
                        AddSunEntry twigId entry prompt;
                        OnSetStatus "Light radiated on this life facet!" info ]).
Proof.
  split; [apply saveSunEntry_blank|apply saveSunEntry_records].
Qed.

End ShineFacts.

(** *** The shine dialog claims on a twig already reflected on this week *)

Lemma openShineDialog_weekly_gate_first_witness :
  (@ShineDialog.shoneThisWeek Demo.mondayWeek (Demo.shineWorld 3) "twig-1" = true
   /\ @ShineDialog.openShineDialog Demo.mondayWeek Demo.prompts Demo.shineSprout
        (Demo.shineWorld 3)
      = (Some tt,
         ShineDialog.set_calls
           [ ShineDialog.WasShoneThisWeek "twig-1" true;
             ShineDialog.OnSetStatus
               "Already reflected on this facet this week! Come back next week."
               ShineDialog.warning ]
           (Demo.shineWorld 3)))
  /\ (exists rest,
        ShineDialog.calls
          (snd (@ShineDialog.openShineDialog Demo.mondayWeek Demo.prompts Demo.shineSprout
                  (ShineDialog.set_nodeState ∅ (Demo.shineWorld 0))))
        = ShineDialog.WasShoneThisWeek "twig-1" false
            :: ShineDialog.CanAffordSun false :: rest).
Proof.
  split; [split; [vm_compute; reflexivity|]|].
  - apply (@openShineDialog_weekly_gate_first Demo.mondayWeek Demo.prompts
             Demo.shineSprout (Demo.shineWorld 3)).
    vm_compute. reflexivity.
  - apply (@openShineDialog_weekly_gate_first Demo.mondayWeek Demo.prompts
             Demo.shineSprout (ShineDialog.set_nodeState ∅ (Demo.shineWorld 0))).
    vm_compute. reflexivity.
Defined.

Lemma getRandomSunPrompt_rotation_witness :
  exists p w',
    ShineDialog.getRandomSunPrompt Demo.prompts (Demo.shineWorld 3) = (Some (Some p), w')
    /\ In p Demo.prompts
    /\ ShineDialog.recentSunPrompts w' = [Some p].
Proof.
  destruct (getRandomSunPrompt_rotation Demo.prompts) as (_ & _ & H).
  assert (Hpool : Demo.prompts <> []) by (vm_compute; discriminate).
  assert (Hlen : (length (ShineDialog.recentSunPrompts (Demo.shineWorld 3))
                  <= Rotation.limit Demo.prompts)%nat) by (vm_compute; lia).
  destruct (H Hpool (Demo.shineWorld 3) Hlen) as (p & w' & Hrun & Hin & _ & Hrec & _).
  exists p, w'. split; [exact Hrun|]. split; [exact Hin|]. exact Hrec.
Defined.

Lemma saveSunEntry_no_gate_witness :
  @ShineDialog.shoneThisWeek Demo.mondayWeek (Demo.journalling 2) "twig-1" = true
  /\ ShineDialog.sunAvailable (snd (ShineDialog.saveSunEntry (Demo.journalling 2))) = 1
  /\ length (Rotation.reflections (snd (ShineDialog.saveSunEntry (Demo.journalling 2)))
                                  "twig-1") = 2%nat
  /\ ShineDialog.saveSunEntry
       (ShineDialog.set_elements
          (ShineDialog.set_journal "   " Demo.closedDialog) (Demo.journalling 2))
     = (Some tt,
        ShineDialog.set_elements
          (ShineDialog.set_journal "   " Demo.closedDialog) (Demo.journalling 2)).
Proof.
  split; [vm_compute; reflexivity|].
  destruct (saveSunEntry_no_gate (Demo.journalling 2) "sprout-2" "twig-1") as [_ H].
  destruct H as (_ & Hsun & Hrefl & _).
  - vm_compute. discriminate.
  - vm_compute. discriminate.
  - reflexivity.
  - split; [rewrite Hsun; reflexivity|]. split; [rewrite Hrefl; reflexivity|].
    apply (saveSunEntry_no_gate
             (ShineDialog.set_elements
                (ShineDialog.set_journal "   " Demo.closedDialog) (Demo.journalling 2))
             "sprout-2" "twig-1").
    reflexivity.
Defined.

(** A journal of no-break spaces (U+00A0) and tabs is blank to [trim], as
    one of spaces is: the save returns at once and the dialog stays as it
    is.  Around a text the no-break spaces are removed. *)
Example saveSunEntry_nbsp :
  let blank := String "160" (String "009" (String "160" "")) in
  let w := ShineDialog.set_elements
             (ShineDialog.set_journal blank
                (ShineDialog.elements (Demo.journalling 2)))
             (Demo.journalling 2) in
  ES.trim blank = ""
  /\ @ShineDialog.saveSunEntry w = (Some tt, w)
  /\ ES.trim (String "160" (String.append "Run 10k" (String "160" ""))) = "Run 10k".
Proof. cbv zeta. split; [|split]; vm_compute; reflexivity. Qed.

(** A title of no-break spaces is blank as well: the title listener leaves
    the confirm button disabled and [doGraft] returns at its test of the
    title, in both revisions. *)
Example doGraft_nbsp :
  let w := snd (@LeafViewApi.onTitleInput Demo.api (String "160" (String "160" ""))
                  (Demo.graftReady 5)) in
  option_map View.confirmDisabled (LeafView.graftSection (View.logEl w)) = Some true
  /\ Trace.added (Demo.graftReady 5) w = [View.CanAffordSoil 1 true]
  /\ @LeafView.doGraft Demo.utcZone Demo.api w = (Some tt, w)
  /\ @LeafViewOrigin.doGraft Demo.utcZone Demo.isoParser Demo.api w = (Some tt, w).
Proof. cbv zeta. split; [|split; [|split]]; vm_compute; reflexivity. Qed.

(** *** The end date on concrete starts *)

(** A start on 31 January 2023: a month on there is no such day, and the
    date runs into March. *)
Example getEndDate_month_end :
  @LeafView.getEndDate Demo.utcZone Types.S1m (ESDate.parseISO "2023-01-31T12:00:00.000Z")
  = ESDate.parseISO "2023-03-03T15:00:00.000Z".
Proof. vm_compute. reflexivity. Qed.

(** A start earlier in the day than the anchor ends later than start plus
    duration, a start later in the day ends earlier. *)
Example getEndDate_week :
  @LeafView.getEndDate Demo.utcZone Types.S1w (ESDate.parseISO "2024-03-01T20:00:00.000Z")
  = ESDate.parseISO "2024-03-08T15:00:00.000Z".
Proof. vm_compute. reflexivity. Qed.

(** In a zone nine hours ahead, 31 January 20:00 UTC is 1 February 05:00
    local; a month on is 1 March 05:00 local, 29 February in UTC. *)
Lemma getEndDate_adds_duration_witness :
  @LeafView.getEndDate Demo.tokyoZone Types.S1m (Some 1706731200000)
  = Some 1709218800000
  /\ ESDate.parseISO "2024-01-31T20:00:00.000Z" = Some 1706731200000
  /\ ESDate.parseISO "2024-02-29T15:00:00.000Z" = Some 1709218800000.
Proof.
  split; [|split; vm_compute; reflexivity].
  destruct (@getEndDate_adds_duration Demo.tokyoZone Types.S1m 1706731200000) as [H _].
  - intros u b. vm_compute. discriminate.
  - vm_compute. discriminate.
  - rewrite H. vm_compute. reflexivity.
Defined.
(** * Further properties

    What the rest of the two files shows: the parsing of the prompt file,
    the dialog and the view around the handlers above, the order of equal
    timestamps, the healing of a missing leaf, the outcomes of a graft and
    the dates the view writes and reads. *)

(** ** [String.prototype.trim] *)
Section TrimFacts.

Lemma trimEnd_keep (c : ascii) (s : string) :
  ES.isWhiteSpace c = false -> ES.trimEnd (String c s) = String c (ES.trimEnd s).
Proof.
  intros H. cbn [ES.trimEnd]. destruct (ES.trimEnd s); [rewrite H|]; reflexivity.
Qed.

Lemma trimEnd_cons (c d : ascii) (s r : string) :
  ES.trimEnd s = String d r -> ES.trimEnd (String c s) = String c (String d r).
Proof. intros H. cbn [ES.trimEnd]. rewrite H. reflexivity. Qed.

Lemma trimEnd_idem (s : string) : ES.trimEnd (ES.trimEnd s) = ES.trimEnd s.
Proof.
  induction s as [|c s IH]; [reflexivity|].
  cbn [ES.trimEnd]. destruct (ES.trimEnd s) as [|d r] eqn:E.
  - destruct (ES.isWhiteSpace c) eqn:Ec; [reflexivity|].
    cbn [ES.trimEnd]. rewrite Ec. reflexivity.
  - apply trimEnd_cons. exact IH.
Qed.

Lemma trimStart_head (s : string) :
  ES.trimStart s = ""
  \/ exists c r, ES.trimStart s = String c r /\ ES.isWhiteSpace c = false.
Proof.
  induction s as [|c s IH]; [left; reflexivity|].
  cbn [ES.trimStart]. destruct (ES.isWhiteSpace c) eqn:Ec; [exact IH|].
  right. exists c, s. split; [reflexivity|assumption].
Qed.

Lemma trim_idem (s : string) : ES.trim (ES.trim s) = ES.trim s.
Proof.
  unfold ES.trim. destruct (trimStart_head s) as [E|(c & r & E & Hc)]; rewrite E.
  - reflexivity.
  - rewrite (trimEnd_keep c r Hc). cbn [ES.trimStart]. rewrite Hc.
    rewrite <- (trimEnd_keep c r Hc). apply trimEnd_idem.
Qed.

End TrimFacts.

(** ** The prompt pool *)
Section PromptFacts.
Import ShineDialog.

Lemma split_nonempty (sep : ascii) (s : string) : ES.split sep s <> [].
Proof.
  destruct s as [|c s]; [discriminate|].
  cbn [ES.split]. destruct (Ascii.eqb c sep); [discriminate|].
  destruct (ES.split sep s); discriminate.
Qed.

Lemma split_app (sep : ascii) (a b : string) :
  ES.split sep (String.append a (String sep b)) = ES.split sep a ++ ES.split sep b.
Proof.
  induction a as [|c a IH].
  - change (String.append "" (String sep b)) with (String sep b).
    cbn [ES.split]. rewrite Ascii.eqb_refl. reflexivity.
  - change (String.append (String c a) (String sep b))
      with (String c (String.append a (String sep b))).
    cbn [ES.split]. destruct (Ascii.eqb c sep); [rewrite IH; reflexivity|].
    rewrite IH. pose proof (split_nonempty sep a) as Hne.
    destruct (ES.split sep a) as [|piece pieces]; [congruence|reflexivity].
Qed.

Lemma split_one (sep : ascii) (s : string) :
  ~ In sep (list_ascii_of_string s) -> ES.split sep s = [s].
Proof.
  induction s as [|c s IH]; [reflexivity|].
  cbn [list_ascii_of_string In ES.split]. intros H.
  destruct (Ascii.eqb_spec c sep) as [->|Hc]; [tauto|].
  rewrite IH by tauto. reflexivity.
Qed.

Lemma split_pieces (sep : ascii) (s piece : string) :
  In piece (ES.split sep s) -> ~ In sep (list_ascii_of_string piece).
Proof.
  revert piece. induction s as [|c s IH]; intros piece.
  - cbn. intros [<-|[]]. cbn. tauto.
  - cbn [ES.split]. destruct (Ascii.eqb_spec c sep) as [->|Hc].
    + intros [<-|H]; [cbn; tauto|apply IH, H].
    + pose proof (split_nonempty sep s) as Hne.
      destruct (ES.split sep s) as [|p ps]; [congruence|].
      intros [<-|H].
      * cbn [list_ascii_of_string In]. intros [E|E]; [congruence|].
        apply (IH p); [left; reflexivity|exact E].
      * apply IH. right. exact H.
Qed.

Lemma trimStart_chars (c : ascii) (s : string) :
  In c (list_ascii_of_string (ES.trimStart s)) -> In c (list_ascii_of_string s).
Proof.
  induction s as [|d s IH]; [tauto|].
  cbn [ES.trimStart]. destruct (ES.isWhiteSpace d); [|tauto].
  intros H. right. apply IH, H.
Qed.

Lemma trimEnd_chars (c : ascii) (s : string) :
  In c (list_ascii_of_string (ES.trimEnd s)) -> In c (list_ascii_of_string s).
Proof.
  induction s as [|d s IH]; [tauto|].
  cbn [ES.trimEnd]. destruct (ES.trimEnd s) as [|e r].
  - destruct (ES.isWhiteSpace d); cbn; tauto.
  - cbn [list_ascii_of_string In] in *. tauto.
Qed.

Lemma trim_chars (c : ascii) (s : string) :
  In c (list_ascii_of_string (ES.trim s)) -> In c (list_ascii_of_string s).
Proof. intros H. apply trimStart_chars, trimEnd_chars, H. Qed.

Lemma sunPrompts_lines (a b : string) :
  sunPrompts (String.append a (String "010" b)) = sunPrompts a ++ sunPrompts b.
Proof. unfold sunPrompts. rewrite split_app, map_app, List.filter_app. reflexivity. Qed.

Lemma sunPrompts_line (line : string) :
  ~ In "010"%char (list_ascii_of_string line) ->
  sunPrompts line
  = if negb (String.eqb (ES.trim line) "") && negb (ES.startsWith (ES.trim line) "#")
    then [ES.trim line] else [].
Proof. intros H. unfold sunPrompts. rewrite (split_one _ _ H). reflexivity. Qed.

Lemma sunPrompts_skipped (line : string) :
  ~ In "010"%char (list_ascii_of_string line) ->
  ES.trim line = "" \/ ES.startsWith (ES.trim line) "#" = true ->
  sunPrompts line = [].
Proof.
  intros H Hs. rewrite (sunPrompts_line line H).
  destruct Hs as [->| ->]; [reflexivity|]. rewrite andb_false_r. reflexivity.
Qed.

Lemma sunPrompts_kept (p : string) : Prompts.clean p -> sunPrompts p = [p].
Proof.
  intros (Hne & Hc & Ht & Hlf). rewrite (sunPrompts_line p Hlf), Ht, Hc.
  apply String.eqb_neq in Hne. rewrite Hne. reflexivity.
Qed.

Lemma sunPrompts_In_clean (sunPromptsRaw p : string) :
  In p (sunPrompts sunPromptsRaw) -> Prompts.clean p.
Proof.
  unfold sunPrompts. rewrite List.filter_In, in_map_iff.
  rewrite andb_true_iff, !negb_true_iff, String.eqb_neq.
  intros [(line & <- & Hin) [Hne Hc]].
  split; [exact Hne|]. split; [exact Hc|]. split; [apply trim_idem|].
  intros H. apply trim_chars in H. exact (split_pieces _ _ _ Hin H).
Qed.

Lemma sunPrompts_lines_back (ps : list string) :
  Forall Prompts.clean ps -> sunPrompts (Prompts.lines ps) = ps.
Proof.
  unfold Prompts.lines. induction 1 as [|p ps Hp Hps IH]; [reflexivity|].
  destruct ps as [|q ps].
  - cbn [String.concat]. apply sunPrompts_kept, Hp.
  - change (String.concat (String "010" "") (p :: q :: ps))
      with (String.append p (String.append (String "010" "")
                               (String.concat (String "010" "") (q :: ps)))).
    change (String.append (String "010" "") ?x) with (String "010" x).
    rewrite sunPrompts_lines, IH, (sunPrompts_kept p Hp). reflexivity.
Qed.

(** X1.  A prompt parsed from the asset is not empty, is no comment, holds
    no line feed and has no white space at either end.  The text is read
    line by line: the prompts of two texts joined by a line feed are those
    of the first followed by those of the second, and a line that is blank
    or, after its leading white space, starts with [#] gives none.  So a
    list of such prompts written one to a line is read back as it is, in
    order. *)
Theorem sunPrompts_clean :
  (forall sunPromptsRaw p, In p (sunPrompts sunPromptsRaw) -> Prompts.clean p)
  /\ (forall a b,
        sunPrompts (String.append a (String "010" b)) = sunPrompts a ++ sunPrompts b)
  /\ (forall line,
        ~ In "010"%char (list_ascii_of_string line) ->
        ES.trim line = "" \/ ES.startsWith (ES.trim line) "#" = true ->
        sunPrompts line = [])
  /\ (forall ps, Forall Prompts.clean ps -> sunPrompts (Prompts.lines ps) = ps).
Proof.
  split; [exact sunPrompts_In_clean|]. split; [exact sunPrompts_lines|].
  split; [exact sunPrompts_skipped|exact sunPrompts_lines_back].
Qed.

End PromptFacts.

(** ** The shine dialog beyond its gates *)
Section ShineMore.
Import Types ShineDialog.
Context {week : WeekPolicy}.

Lemma includes_In (recent : list (option string)) (q : string) :
  includes recent q = true <-> In (Some q) recent.
Proof.
  unfold includes. rewrite existsb_exists. split.
  - intros (x & Hin & Hx). destruct x as [s|]; [|discriminate Hx].
    cbn in Hx. apply String.eqb_eq in Hx. subst s. exact Hin.
  - intros Hin. exists (Some q). split; [exact Hin|]. cbn. apply String.eqb_refl.
Qed.

Lemma limit_lt_pool (pool : list string) :
  pool <> [] -> RECENT_SUN_PROMPT_LIMIT pool < Z.of_nat (length pool).
Proof.
  intros H. unfold RECENT_SUN_PROMPT_LIMIT.
  assert (0 < Z.of_nat (length pool)) by (destruct pool; [congruence|cbn; lia]).
  pose proof (Z.le_min_r 10 (Z.of_nat (length pool) / 3)).
  assert (Z.of_nat (length pool) / 3 < Z.of_nat (length pool))
    by (apply Z.div_lt; lia).
  lia.
Qed.

Lemma limit_bound (pool : list string) (n : nat) :
  Z.of_nat n <= RECENT_SUN_PROMPT_LIMIT pool <-> (n <= Rotation.limit pool)%nat.
Proof.
  unfold Rotation.limit. pose proof (limit_nonneg pool). lia.
Qed.

Lemma some_prompt_not_recent (pool : list string) (recent : list (option string)) :
  NoDup pool -> pool <> [] ->
  Z.of_nat (length recent) <= RECENT_SUN_PROMPT_LIMIT pool ->
  exists q, In q pool /\ includes recent q = false.
Proof.
  intros Hnd Hne Hlen. apply NoDup_ListNoDup in Hnd.
  destruct (existsb (fun q => negb (includes recent q)) pool) eqn:E.
  - apply existsb_exists in E as (q & Hq & Hn). apply negb_true_iff in Hn. eauto.
  - exfalso.
    assert (Hincl : incl (map Some pool) recent).
    { intros x Hx. apply in_map_iff in Hx as (q & <- & Hq).
      apply includes_In. destruct (includes recent q) eqn:Ei; [reflexivity|].
      assert (existsb (fun q => negb (includes recent q)) pool = true)
        by (apply existsb_exists; exists q; rewrite Ei; auto).
      congruence. }
    assert (Hnd' : List.NoDup (map Some pool)).
    { apply List.NoDup_map_inv with (f := fun o : option string =>
                                              match o with Some s => s | None => "" end).
      rewrite map_map, map_id. exact Hnd. }
    pose proof (List.NoDup_incl_length Hnd' Hincl) as Hle.
    rewrite length_map in Hle.
    pose proof (limit_lt_pool pool Hne). lia.
Qed.

(** X2.  On a pool without repeated prompts, with the buffer within its
    bound, [getRandomSunPrompt] returns a prompt of the pool that is not in
    the buffer of recent prompts: the fallback to the whole pool is never
    taken, and the buffer stays within its bound. *)
Theorem getRandomSunPrompt_fresh (pool : list string) (w : World) :
  NoDup pool -> pool <> [] ->
  Z.of_nat (length (recentSunPrompts w)) <= RECENT_SUN_PROMPT_LIMIT pool ->
  exists p w',
    getRandomSunPrompt pool w = (Some (Some p), w')
    /\ In p pool
    /\ ~ In (Some p) (recentSunPrompts w)
    /\ Z.of_nat (length (recentSunPrompts w')) <= RECENT_SUN_PROMPT_LIMIT pool.
Proof.
  intros Hnd Hne Hlen.
  destruct (getRandomSunPrompt_step pool w Hne) as (p & w' & Hrun & Hin & Hnew & _ & Hlen').
  { apply limit_bound, Hlen. }
  exists p, w'. split; [exact Hrun|]. split; [exact Hin|]. split.
  - intros Hrep. apply includes_In in Hrep.
    rewrite (Hnew (some_prompt_not_recent pool _ Hnd Hne Hlen)) in Hrep. discriminate.
  - apply limit_bound, Hlen'.
Qed.

Lemma getRandomSunPrompt_nil (w : World) :
  getRandomSunPrompt [] w
  = (Some None,
     set_recentSunPrompts (tail (recentSunPrompts w ++ [None]))
       (set_randoms (tail (randoms w)) w)).
Proof.
  destruct (getRandomSunPrompt_run [] w) as (r & _ & Hrun). cbv zeta in Hrun.
  cbn [List.filter length Nat.ltb Nat.leb] in Hrun.
  rewrite Hrun. f_equal. f_equal.
  change (RECENT_SUN_PROMPT_LIMIT []) with 0.
  rewrite length_app. cbn [length].
  destruct (Z.ltb_spec 0 (Z.of_nat (length (recentSunPrompts w) + 1))); [reflexivity|lia].
Qed.

Lemma wasShoneThisWeek_run (twigId : string) (w : World) :
  wasShoneThisWeek twigId w
  = (Some (shoneThisWeek w twigId),
     set_calls (calls w ++ [WasShoneThisWeek twigId (shoneThisWeek w twigId)]) w).
Proof. reflexivity. Qed.

Lemma canAffordSun_run (w : World) :
  canAffordSun w
  = (Some (1 <=? sunAvailable w),
     set_calls (calls w ++ [CanAffordSun (1 <=? sunAvailable w)]) w).
Proof. reflexivity. Qed.

(** What a successful [openShineDialog] leaves. *)
Lemma openShineDialog_opens (pool : list string) (sprout : ShineSprout) (w : World) :
  shoneThisWeek w (shine_twigId sprout) = false ->
  1 <= sunAvailable w ->
  exists prompt rs recent,
    openShineDialog pool sprout w
    = (Some tt,
       {| nodeState := nodeState w; sunAvailable := sunAvailable w;
          sunCapacity := sunCapacity w; now := now w;
          randoms := rs; recentSunPrompts := recent;
          currentShiningSprout := Some (shine_id sprout, shine_twigId sprout);
          elements :=
            {| shineDialogHidden := false;
               shineDialogTitle := ES.orElse (Some (shine_title sprout)) "Untitled Sprout";
               shineDialogMeta := shine_twigLabel sprout;
               shineDialogJournal := "";
               journalPlaceholder := match prompt with
                                     | Some p => p
                                     | None => "undefined"
                                     end;
               journalFocused := true;
               shineDialogSaveDisabled := true;
               sunMeterFill := sunMeterFill (elements w);
               sunMeterValue := sunMeterValue (elements w) |};
          calls := calls w ++ [ WasShoneThisWeek (shine_twigId sprout) false;
                                CanAffordSun true ] |})
    /\ (pool = [] -> prompt = None)
    /\ (pool <> [] ->
        Z.of_nat (length (recentSunPrompts w)) <= RECENT_SUN_PROMPT_LIMIT pool ->
        exists p, prompt = Some p /\ In p pool
                  /\ (NoDup pool -> ~ In (Some p) (recentSunPrompts w))
                  /\ Z.of_nat (length recent) <= RECENT_SUN_PROMPT_LIMIT pool).
Proof.
  intros Hgate Hsun. apply Z.leb_le in Hsun.
  unfold openShineDialog.
  rewrite (bind_run _ _ _ _ _ (wasShoneThisWeek_run _ w)). rewrite Hgate.
  rewrite (bind_run _ _ _ _ _ (canAffordSun_run _)).
  cbn [sunAvailable set_calls]. rewrite Hsun. cbn [negb].
  unfold Eff.bind at 1. cbn [Eff.modify].
  unfold element. unfold Eff.bind at 1. cbn [Eff.modify].
  unfold Eff.bind at 1. cbn [Eff.modify].
  unfold Eff.bind at 1. cbn [Eff.modify].
  match goal with
  | |- context [Eff.bind (getRandomSunPrompt pool) _ ?W] => set (W0 := W)
  end.
  destruct (getRandomSunPrompt pool W0) as [[prompt|] w1] eqn:Hrun.
  2:{ destruct (getRandomSunPrompt_run pool W0) as (r & _ & Hr). cbv zeta in Hr.
      rewrite Hr in Hrun. discriminate Hrun. }
  rewrite (bind_run _ _ _ _ _ Hrun).
  exists prompt, (randoms w1), (recentSunPrompts w1). split; [|split].
  - destruct (getRandomSunPrompt_run pool W0) as (r & _ & Hr). cbv zeta in Hr.
    rewrite Hr in Hrun. injection Hrun as _ <-. subst W0.
    destruct w as [ns sun cap t rs recent cur els cs].
    unfold updateRadiateButtonState, element, Eff.bind, Eff.get, Eff.modify.
    cbn. rewrite <- ?app_assoc. reflexivity.
  - intros ->. rewrite getRandomSunPrompt_nil in Hrun. congruence.
  - intros Hne Hlen.
    assert (HW : recentSunPrompts W0 = recentSunPrompts w) by reflexivity.
    destruct (getRandomSunPrompt_step pool W0 Hne) as (p & w' & Hrun' & Hin & Hnew & _ & Hlen').
    { rewrite HW. apply limit_bound, Hlen. }
    rewrite Hrun' in Hrun. injection Hrun as <- <-.
    exists p. split; [reflexivity|]. split; [exact Hin|]. split.
    + intros Hnd Hrep. rewrite HW in Hnew. apply includes_In in Hrep.
      rewrite (Hnew (some_prompt_not_recent pool _ Hnd Hne Hlen)) in Hrep. discriminate.
    + apply limit_bound, Hlen'.
Qed.

Lemma openShineDialog_no_sun (pool : list string) (sprout : ShineSprout) (w : World) :
  shoneThisWeek w (shine_twigId sprout) = false ->
  sunAvailable w < 1 ->
  openShineDialog pool sprout w
  = (Some tt,
     set_calls (calls w ++ [ WasShoneThisWeek (shine_twigId sprout) false;
                             CanAffordSun false;
                             OnSetStatus "No sun left this week!" warning ]) w).
Proof.
  intros Hgate Hsun. apply Z.leb_gt in Hsun.
  unfold openShineDialog.
  rewrite (bind_run _ _ _ _ _ (wasShoneThisWeek_run _ w)). rewrite Hgate.
  rewrite (bind_run _ _ _ _ _ (canAffordSun_run _)).
  cbn [sunAvailable set_calls]. rewrite Hsun. cbn [negb].
  destruct w. unfold onSetStatus, logCall, Eff.modify. cbn.
  rewrite <- !app_assoc. reflexivity.
Qed.

(** X3.  With an empty prompt pool [getRandomSunPrompt] returns
    [undefined] and drops it from the buffer at once (the bound is 0), and
    a dialog that opens shows the placeholder text ["undefined"]. *)
Theorem openShineDialog_empty_pool (sprout : ShineSprout) (w : World) :
  shoneThisWeek w (shine_twigId sprout) = false ->
  1 <= sunAvailable w ->
  fst (getRandomSunPrompt [] w) = Some None
  /\ recentSunPrompts (snd (getRandomSunPrompt [] w)) = tail (recentSunPrompts w ++ [None])
  /\ let w' := snd (openShineDialog [] sprout w) in
     shineDialogHidden (elements w') = false
     /\ journalPlaceholder (elements w') = "undefined".
Proof.
  intros Hgate Hsun. rewrite getRandomSunPrompt_nil.
  split; [reflexivity|]. split; [reflexivity|].
  destruct (openShineDialog_opens [] sprout w Hgate Hsun)
    as (prompt & rs & recent & Hrun & Hnil & _).
  rewrite Hrun, (Hnil eq_refl). split; reflexivity.
Qed.

(** X4.  [openShineDialog] never throws, never changes the sun balance or
    [nodeState], and calls neither [spendSun] nor [addSunEntry]: opening
    costs nothing. *)
Theorem openShineDialog_spends_nothing
    (pool : list string) (sprout : ShineSprout) (w : World) :
  let w' := snd (openShineDialog pool sprout w) in
  fst (openShineDialog pool sprout w) = Some tt
  /\ sunAvailable w' = sunAvailable w
  /\ nodeState w' = nodeState w
  /\ exists added,
       calls w' = calls w ++ added
       /\ forall c, In c added ->
            match c with
            | SpendSun _ | AddSunEntry _ _ _ | OnSunMeterChange => False
            | _ => True
            end.
Proof.
  cbv zeta. destruct (shoneThisWeek w (shine_twigId sprout)) eqn:Hgate.
  - rewrite (openShineDialog_gated pool sprout w Hgate). cbn [fst snd].
    repeat split; try (destruct w; reflexivity).
    eexists. split; [destruct w; reflexivity|].
    intros c [<-|[<-|[]]]; exact I.
  - destruct (Z.le_gt_cases 1 (sunAvailable w)) as [Hsun|Hsun].
    + destruct (openShineDialog_opens pool sprout w Hgate Hsun)
        as (prompt & rs & recent & Hrun & _).
      rewrite Hrun. cbn [fst snd sunAvailable nodeState calls].
      repeat split. eexists. split; [reflexivity|].
      intros c [<-|[<-|[]]]; exact I.
    + rewrite (openShineDialog_no_sun pool sprout w Hgate Hsun). cbn [fst snd].
      repeat split; try (destruct w; reflexivity).
      eexists. split; [destruct w; reflexivity|].
      intros c [<-|[<-|[<-|[]]]]; exact I.
Qed.

(** X5.  From a hidden dialog, [openShineDialog] shows the dialog exactly
    when the twig was not reflected on this week and there is sun to spend.
    Shown, it is on the given sprout, titled by the sprout's title or
    ["Untitled Sprout"] for an empty one, with an empty journal and the save
    button disabled, and no status was reported.  Not shown, the elements,
    the current sprout and the prompt buffer are as before and one warning
    was reported, after the queries. *)
Theorem openShineDialog_shows_iff
    (pool : list string) (sprout : ShineSprout) (w : World) :
  shineDialogHidden (elements w) = true ->
  let w' := snd (openShineDialog pool sprout w) in
  (shineDialogHidden (elements w') = false
   <-> shoneThisWeek w (shine_twigId sprout) = false /\ 1 <= sunAvailable w)
  /\ (shineDialogHidden (elements w') = false ->
      currentShiningSprout w' = Some (shine_id sprout, shine_twigId sprout)
      /\ shineDialogTitle (elements w')
         = (if String.eqb (shine_title sprout) "" then "Untitled Sprout"
            else shine_title sprout)
      /\ shineDialogMeta (elements w') = shine_twigLabel sprout
      /\ shineDialogJournal (elements w') = ""
      /\ shineDialogSaveDisabled (elements w') = true
      /\ calls w' = calls w ++ [ WasShoneThisWeek (shine_twigId sprout) false;
                                 CanAffordSun true ])
  /\ (shineDialogHidden (elements w') = true ->
      elements w' = elements w
      /\ currentShiningSprout w' = currentShiningSprout w
      /\ recentSunPrompts w' = recentSunPrompts w
      /\ exists asked message,
           calls w' = calls w ++ asked ++ [OnSetStatus message warning]
           /\ forall c, In c asked -> forall m k, c <> OnSetStatus m k).
Proof.
  intros Hhidden. cbv zeta.
  destruct (shoneThisWeek w (shine_twigId sprout)) eqn:Hgate.
  - rewrite (openShineDialog_gated pool sprout w Hgate). cbn [snd].
    assert (E : elements (set_calls (calls w ++
                  [WasShoneThisWeek (shine_twigId sprout) true;
                   OnSetStatus "Already reflected on this facet this week! Come back next week." warning]) w)
                = elements w) by (destruct w; reflexivity).
    rewrite E, Hhidden. split; [|split].
    + split; [discriminate|]. intros [? _]; discriminate.
    + discriminate.
    + intros _. repeat split; try (destruct w; reflexivity).
      exists [WasShoneThisWeek (shine_twigId sprout) true]. eexists.
      split; [destruct w; reflexivity|].
      intros c [<-|[]] m k; discriminate.
  - destruct (Z.le_gt_cases 1 (sunAvailable w)) as [Hsun|Hsun].
    + destruct (openShineDialog_opens pool sprout w Hgate Hsun)
        as (prompt & rs & recent & Hrun & _).
      rewrite Hrun. cbn [snd elements shineDialogHidden currentShiningSprout calls
                         shineDialogTitle shineDialogMeta shineDialogJournal
                         shineDialogSaveDisabled].
      split; [|split].
      * split; auto.
      * intros _. repeat split.
      * discriminate.
    + rewrite (openShineDialog_no_sun pool sprout w Hgate Hsun). cbn [snd].
      assert (E : elements (set_calls (calls w ++
                    [WasShoneThisWeek (shine_twigId sprout) false; CanAffordSun false;
                     OnSetStatus "No sun left this week!" warning]) w)
                  = elements w) by (destruct w; reflexivity).
      rewrite E, Hhidden. split; [|split].
      * split; [discriminate|]. intros [_ ?]; lia.
      * discriminate.
      * intros _. repeat split; try (destruct w; reflexivity).
        exists [WasShoneThisWeek (shine_twigId sprout) false; CanAffordSun false].
        eexists. split; [destruct w; reflexivity|].
        intros c [<-|[<-|[]]] m k; discriminate.
Qed.

(** X6.  With a journal text that is not blank, [saveSunEntry] always
    returns and closes the dialog (hidden, journal emptied, no current
    sprout).  It takes one sun exactly when there is sun to spend and a
    current sprout, so the balance never becomes negative; without sun it
    reports the warning and records nothing; without a current sprout it
    only asks the balance. *)
Theorem saveSunEntry_closes (w : World) :
  ES.trim (shineDialogJournal (elements w)) <> "" ->
  let w' := snd (saveSunEntry w) in
  fst (saveSunEntry w) = Some tt
  /\ (shineDialogHidden (elements w') = true
      /\ shineDialogJournal (elements w') = ""
      /\ currentShiningSprout w' = None)
  /\ sunAvailable w'
     = (if (1 <=? sunAvailable w)
        then match currentShiningSprout w with
             | Some _ => sunAvailable w - 1
             | None => sunAvailable w
             end
        else sunAvailable w)
  /\ (0 <= sunAvailable w -> 0 <= sunAvailable w')
  /\ (sunAvailable w < 1 ->
      nodeState w' = nodeState w
      /\ calls w' = calls w ++ [ CanAffordSun false;
                                 OnSetStatus "No sun left this week!" warning ])
  /\ (currentShiningSprout w = None -> 1 <= sunAvailable w ->
      nodeState w' = nodeState w
      /\ calls w' = calls w ++ [CanAffordSun true]).
Proof.
  intros Hentry. cbv zeta. apply String.eqb_neq in Hentry.
  destruct w as [ns sun cap t rs recent cur els cs]. cbn in Hentry.
  unfold saveSunEntry, canAffordSun, spendSun, updateSunMeter, addSunEntry,
    closeShineDialog, onSetStatus, element, getSunAvailable, getSunCapacity,
    logCall, Eff.bind, Eff.get, Eff.modify, Eff.ret.
  cbn. rewrite Hentry. cbn.
  destruct (Z.leb_spec 1 sun) as [Hle|Hgt]; cbn.
  - destruct cur as [[sproutId twigId]|]; cbn.
    + rewrite (gtb_of_leb 1 sun) by (apply Z.leb_le; exact Hle). cbn.
      split; [reflexivity|]. split; [repeat split|]. split; [reflexivity|].
      split; [lia|]. split; [intros; lia|intros; discriminate].
    + split; [reflexivity|]. split; [repeat split|]. split; [reflexivity|].
      split; [lia|]. split; [intros; lia|intros; split; reflexivity].
  - split; [reflexivity|]. split; [repeat split|]. split; [reflexivity|].
    split; [lia|]. split; [|intros; lia].
    intros _. split; [reflexivity|]. rewrite <- ?app_assoc. reflexivity.
Qed.

Lemma saveSunEntry_asks (w : World) :
  ES.trim (shineDialogJournal (elements w)) <> "" ->
  exists rest,
    calls (snd (saveSunEntry w)) = calls w ++ CanAffordSun (1 <=? sunAvailable w) :: rest.
Proof.
  intros Hentry. apply String.eqb_neq in Hentry.
  destruct w as [ns sun cap t rs recent cur els cs]. cbn in Hentry.
  unfold saveSunEntry, canAffordSun, spendSun, updateSunMeter, addSunEntry,
    closeShineDialog, onSetStatus, element, getSunAvailable, getSunCapacity,
    logCall, Eff.bind, Eff.get, Eff.modify, Eff.ret.
  cbn. rewrite Hentry. cbn.
  destruct (1 <=? sun); cbn.
  - destruct cur as [[sproutId twigId]|]; cbn.
    + destruct (1 >? sun); cbn; eexists; rewrite <- ?app_assoc; reflexivity.
    + eexists. reflexivity.
  - eexists. rewrite <- ?app_assoc. reflexivity.
Qed.

Lemma length_zero_string (s : string) : (0 <? String.length s)%nat = false <-> s = "".
Proof.
  destruct s; cbn; split; intros H; try reflexivity; try discriminate.
Qed.

(** X7.  After the [input] listener of the journal, the save button is
    disabled exactly when the text is blank, which is exactly when
    [saveSunEntry] would change nothing: the button and the guard of the
    handler agree. *)
Theorem save_button_agrees (v : string) (w : World) :
  let w' := snd (ShineDialogEvents.onJournalInput v w) in
  shineDialogJournal (elements w') = v
  /\ (shineDialogSaveDisabled (elements w') = true <-> ES.trim v = "")
  /\ (shineDialogSaveDisabled (elements w') = true <-> saveSunEntry w' = (Some tt, w')).
Proof.
  cbv zeta.
  assert (Hrun : ShineDialogEvents.onJournalInput v w
                 = (Some tt,
                    set_elements
                      (set_saveDisabled (negb (0 <? String.length (ES.trim v))%nat)
                         (set_journal v (elements w))) w)).
  { destruct w as [ns sun cap t rs recent cur els cs]. reflexivity. }
  rewrite Hrun. cbn [snd].
  set (w' := set_elements _ w).
  assert (Hj : shineDialogJournal (elements w') = v) by (destruct w; reflexivity).
  assert (Hd : shineDialogSaveDisabled (elements w')
               = negb (0 <? String.length (ES.trim v))%nat) by (destruct w; reflexivity).
  assert (Hblank : shineDialogSaveDisabled (elements w') = true <-> ES.trim v = "").
  { rewrite Hd, negb_true_iff. apply length_zero_string. }
  split; [exact Hj|]. split; [exact Hblank|].
  rewrite Hblank. split.
  - intros H. apply saveSunEntry_blank. rewrite Hj. exact H.
  - intros Hsame. destruct (String.eqb_spec (ES.trim v) "") as [E|E]; [exact E|exfalso].
    destruct (saveSunEntry_asks w') as [rest Hcalls]; [rewrite Hj; exact E|].
    rewrite Hsame in Hcalls. cbn [snd] in Hcalls.
    apply (f_equal (@length Call)) in Hcalls. rewrite length_app in Hcalls.
    cbn [length] in Hcalls. lia.
Qed.

(** X8.  Dismissing a shown dialog (the close and cancel buttons, a click
    on the backdrop, the Escape key) after any text was typed hides it,
    empties the journal and forgets the sprout, without spending sun,
    touching [nodeState] or calling anything; [saveSunEntry] is a no-op
    afterwards. *)
Theorem dismissal_discards (v : string) (w : World) (dismiss : M unit) :
  shineDialogHidden (elements w) = false ->
  In dismiss [ closeShineDialog; ShineDialogEvents.onDialogClick true;
               ShineDialogEvents.onKeydown "Escape" ] ->
  let typed := snd (ShineDialogEvents.onJournalInput v w) in
  let w' := snd (dismiss typed) in
  fst (dismiss typed) = Some tt
  /\ shineDialogHidden (elements w') = true
  /\ shineDialogJournal (elements w') = ""
  /\ currentShiningSprout w' = None
  /\ sunAvailable w' = sunAvailable w
  /\ nodeState w' = nodeState w
  /\ calls w' = calls w
  /\ saveSunEntry w' = (Some tt, w').
Proof.
  intros Hvisible Hin. cbv zeta.
  assert (Hsame : dismiss (snd (ShineDialogEvents.onJournalInput v w))
                  = closeShineDialog (snd (ShineDialogEvents.onJournalInput v w))).
  { destruct Hin as [<-|[<-|[<-|[]]]]; try reflexivity.
    destruct w as [ns sun cap t rs recent cur els cs]. cbn in Hvisible.
    unfold ShineDialogEvents.onKeydown, ShineDialogEvents.onJournalInput,
      updateRadiateButtonState, element, Eff.bind, Eff.get, Eff.modify.
    cbn. rewrite Hvisible. reflexivity. }
  rewrite Hsame.
  destruct w as [ns sun cap t rs recent cur els cs].
  repeat split.
Qed.

End ShineMore.

(** ** Stability of the sort *)
Section StableFacts.
Context {A : Type} (key : A -> ES.number).

Local Abbreviation at_ k := (fun a : A => bool_decide (key a = Some k)).

Lemma sortInsert_filter (k : Z) (x : A) (xs : list A) :
  List.filter (at_ k) (ES.sortInsert (ES.descBy key) x xs)
  = (if at_ k x then [x] else []) ++ List.filter (at_ k) xs.
Proof.
  induction xs as [|y ys IH].
  { cbn [ES.sortInsert List.filter].
    destruct (bool_decide (key x = Some k)); reflexivity. }
  cbn [ES.sortInsert].
  destruct (Z.leb_spec (ES.SortCompare (ES.descBy key) x y) 0) as [Hle|Hgt].
  - cbn [List.filter]. destruct (bool_decide (key x = Some k)); reflexivity.
  - cbn [List.filter]. rewrite IH.
    destruct (bool_decide (key x = Some k)) eqn:Ex; [|reflexivity].
    apply bool_decide_eq_true in Ex.
    assert (Ey : bool_decide (key y = Some k) = false).
    { apply bool_decide_eq_false. intros Ey.
      unfold ES.SortCompare, ES.descBy in Hgt. rewrite Ex, Ey in Hgt.
      cbn in Hgt. lia. }
    rewrite Ey. reflexivity.
Qed.

Lemma sort_filter (k : Z) (xs : list A) :
  List.filter (at_ k) (ES.sort (ES.descBy key) xs) = List.filter (at_ k) xs.
Proof.
  induction xs as [|x xs IH]; [reflexivity|].
  cbn [ES.sort]. rewrite sortInsert_filter, IH. cbn [List.filter].
  destruct (bool_decide (key x = Some k)); reflexivity.
Qed.

End StableFacts.

Section StableLog.
Import Types View.
Context {parser : DateParse}.

(** X9.  Entries whose timestamps are the same instant keep the order in
    which [buildUnifiedLog] pushed them: sprouts in the order of the input
    and, for one sprout, start, graft origin, waterings, (in
    [leaf-view.ts]) shinings, completion.  Both revisions; the timestamps
    are valid dates, which makes the comparator consistent. *)
Theorem buildUnifiedLog_stable (w : World) (l : loc) (ss : list Sprout) :
  heap w !! l = Some (SproutArr ss) ->
  Timeline.validDates ss ->
  (exists out,
      returnsLog (LeafView.buildUnifiedLog l) w out
      /\ forall k,
           List.filter (fun e => bool_decide (dateValue (timestamp e) = Some k)) out
           = List.filter (fun e => bool_decide (dateValue (timestamp e) = Some k))
               (flat_map (Timeline.eventsWithShining ss) ss))
  /\ (exists out,
         returnsLog (LeafViewOrigin.buildUnifiedLog l) w out
         /\ forall k,
              List.filter (fun e => bool_decide (dateValue (timestamp e) = Some k)) out
              = List.filter (fun e => bool_decide (dateValue (timestamp e) = Some k))
                  (flat_map (Timeline.events ss) ss)).
Proof.
  intros Hl _. split.
  - eexists. split; [apply returnsLog_LeafView, Hl|].
    intros k. apply (sort_filter (fun e => dateValue (timestamp e))).
  - eexists. split; [apply returnsLog_Origin, Hl|].
    intros k. apply (sort_filter (fun e => dateValue (timestamp e))).
Qed.

End StableLog.

(** ** What [render] of [leaf-view.ts] shows and stores *)
Section RenderFacts.
Import Types View State.
Context {parser : DateParse}.

Lemma log_nonempty (ss : list Sprout) :
  ss <> [] ->
  ES.sort LeafView.byTimestampDesc (flat_map (Timeline.eventsWithShining ss) ss) <> [].
Proof.
  intros Hss Hnil. apply sort_nil_inv in Hnil.
  destruct ss as [|s rest]; [congruence|]. discriminate Hnil.
Qed.

Lemma events_at_least (all ss : list Sprout) :
  (length ss <= length (flat_map (Timeline.eventsWithShining all) ss))%nat.
Proof.
  induction ss as [|s ss IH]; [cbn; lia|].
  cbn [flat_map length]. rewrite length_app.
  assert (1 <= length (Timeline.eventsWithShining all s))%nat
    by (unfold Timeline.eventsWithShining; cbn [length]; lia).
  lia.
Qed.

Lemma leafSprouts_cons (w : World) (s0 : Sprout) (rest : list Sprout) :
  Offer.leafSprouts w = s0 :: rest ->
  exists twig leaf data,
    currentTwigId w = Some twig /\ currentLeafId w = Some leaf
    /\ (String.eqb twig "" || String.eqb leaf "") = false
    /\ nodeState w !! twig = Some data.
Proof.
  unfold Offer.leafSprouts.
  destruct (currentTwigId w) as [twig|]; [|discriminate].
  destruct (currentLeafId w) as [leaf|]; [|discriminate].
  destruct (String.eqb twig "" || String.eqb leaf "") eqn:E; [discriminate|].
  destruct (nodeState w !! twig) as [data|] eqn:En; [|discriminate].
  intros _. exists twig, leaf, data. repeat split; reflexivity || assumption.
Qed.

Lemma LeafView_render_run (w : World) :
  let ss := Offer.leafSprouts w in
  let out := ES.sort LeafView.byTimestampDesc
               (flat_map (Timeline.eventsWithShining ss) ss) in
  exists w2,
    LeafView.render w
    = (Some tt,
       set_logEl
         (match ss with
          | [] => LogEmpty
          | _ :: _ =>
              LogEntries
                (LeafView.renderGraftForm
                   (existsb (fun s => SproutState_eqb (state s) active) ss))
                (map LeafView.renderLogEntry out)
          end)
         (set_heap (heap w ++ SproutArr ss :: match ss with
                                              | [] => []
                                              | _ :: _ => [EntryArr out]
                                              end) w2))
    /\ ((w2 = w /\ (ss = [] \/ exists lf, fst (LeafView.getLeaf w) = Some (Some lf)))
        \/ (fst (LeafView.getLeaf w) = Some None /\ ss <> []
            /\ exists twig leaf data,
                 currentTwigId w = Some twig /\ currentLeafId w = Some leaf
                 /\ nodeState w !! twig = Some data
                 /\ w2 = set_calls (calls w ++ [SaveState])
                           (set_nodeState
                              (<[twig := {| sprouts := sprouts data;
                                            leaves := Some (ES.orEmpty (leaves data)
                                                            ++ [ {| leaf_id := leaf;
                                                                    leaf_status := "active";
                                                                    leaf_createdAt :=
                                                                      ESDate.formatISO (now w) |} ]);
                                            twigSunEntries := twigSunEntries data |}]>
                                 (nodeState w)) w))).
Proof.
  cbv zeta. unfold LeafView.render.
  destruct (getLeaf_run w) as [leaf Hleaf]. rewrite (bind_run _ _ _ _ _ Hleaf).
  rewrite (bind_run _ _ _ _ _ (getSprouts_leafSprouts w)).
  set (w1 := set_heap (heap w ++ [SproutArr (Offer.leafSprouts w)]) w).
  assert (Hread : readSprouts (length (heap w)) w1 = (Some (Offer.leafSprouts w), w1)).
  { unfold readSprouts, w1. cbn [heap set_heap].
    rewrite list_lookup_middle by reflexivity. reflexivity. }
  rewrite (bind_run _ _ _ _ _ Hread).
  rewrite (bind_run Eff.get _ w1 w1 w1 eq_refl).
  destruct (Offer.leafSprouts w) as [|s0 rest] eqn:Ess.
  - exists w. split; [|left; split; [reflexivity|left; reflexivity]].
    destruct leaf; reflexivity.
  - pose proof (log_nonempty (s0 :: rest) ltac:(discriminate)) as Hout.
    destruct (leafSprouts_cons w s0 rest Ess) as (twig & lf & data & Htwig & Hlf & Hne & Hdata).
    destruct leaf as [found|].
    + exists w. split; [|left; split; [reflexivity|right; exists found; rewrite Hleaf; reflexivity]].
      rewrite (bind_run (Eff.ret tt) _ w1 w1 tt eq_refl).
      assert (Hat : heap w1 !! length (heap w) = Some (SproutArr (s0 :: rest))).
      { unfold w1. cbn [heap set_heap]. apply list_lookup_middle. reflexivity. }
      rewrite (bind_run _ _ _ _ _ (LeafView_buildUnifiedLog_run _ _ _ Hat)).
      rewrite (bind_run _ _ _ _ _ (readEntries_run _ _ _)).
      destruct (ES.sort _ _) as [|e0 es] eqn:Esort; [congruence|].
      unfold Eff.bind, Eff.modify, LeafView.wireLogEvents, Eff.ret.
      unfold w1. destruct w. cbn. rewrite <- ?app_assoc. reflexivity.
    + eexists. split; [|right; split; [rewrite Hleaf; reflexivity|split; [discriminate|]];
                        exists twig, lf, data; repeat split; try eassumption; reflexivity].
      assert (Hc1 : currentTwigId w1 = Some twig) by (unfold w1; exact Htwig).
      assert (Hc2 : currentLeafId w1 = Some lf) by (unfold w1; exact Hlf).
      assert (Hn1 : nodeState w1 = nodeState w) by reflexivity.
      rewrite Hc1, Hc2, Hne, Hn1, Hdata.
      set (ns' := <[twig := _]> (nodeState w)).
      assert (Hblk : (Eff.modify (set_nodeState ns') ;; saveState) w1
                     = (Some tt, set_calls (calls w ++ [SaveState]) (set_nodeState ns' w1)))
        by reflexivity.
      rewrite (bind_run _ _ _ _ _ Hblk).
      set (w2 := set_calls _ _).
      assert (Hat : heap w2 !! length (heap w) = Some (SproutArr (s0 :: rest))).
      { unfold w2, w1. cbn [heap set_heap set_calls set_nodeState].
        apply list_lookup_middle. reflexivity. }
      rewrite (bind_run _ _ _ _ _ (LeafView_buildUnifiedLog_run _ _ _ Hat)).
      rewrite (bind_run _ _ _ _ _ (readEntries_run _ _ _)).
      destruct (ES.sort _ _) as [|e0 es] eqn:Esort; [congruence|].
      unfold Eff.bind, Eff.modify, LeafView.wireLogEvents, Eff.ret.
      unfold w2, w1, ns'. destruct w. cbn. rewrite <- ?app_assoc. reflexivity.
Qed.

Lemma find_app_none {A : Type} (p : A -> bool) (xs ys : list A) :
  find p xs = None -> find p (xs ++ ys) = find p ys.
Proof.
  induction xs as [|x xs IH]; [reflexivity|].
  cbn [find app]. destruct (p x); [discriminate|exact IH].
Qed.

Lemma getLeaf_found (w : World) (twig leaf : string) (data : NodeData) :
  currentTwigId w = Some twig -> currentLeafId w = Some leaf ->
  (String.eqb twig "" || String.eqb leaf "") = false ->
  nodeState w !! twig = Some data ->
  LeafView.getLeaf w
  = (Some (find (fun l => String.eqb (leaf_id l) leaf) (ES.orEmpty (leaves data))), w).
Proof.
  intros Htwig Hleaf Hne Hdata.
  unfold LeafView.getLeaf, getLeafById, Eff.bind, Eff.get, Eff.ret.
  rewrite Htwig, Hleaf, Hne, Hdata. reflexivity.
Qed.

Lemma LeafView_render_frame (w : World) :
  exists w',
    LeafView.render w = (Some tt, w')
    /\ (selectedSeason w' = selectedSeason w
        /\ selectedEnvironment w' = selectedEnvironment w
        /\ currentTwigId w' = currentTwigId w
        /\ currentLeafId w' = currentLeafId w
        /\ soilAvailable w' = soilAvailable w
        /\ graftFromSproutId w' = graftFromSproutId w)
    /\ (forall form,
          LeafView.graftSection (logEl w') = Some form ->
          form = {| formHidden := true; triggerHidden := false; titleValue := "";
                    seasonBtnSelected := None; envBtnSelected := None;
                    soilCostText := None; soilCostWarning := false;
                    confirmDisabled := true |}).
Proof.
  destruct (LeafView_render_run w) as (w2 & Hrun & Hheal). cbv zeta in Hrun.
  eexists. split; [exact Hrun|]. split.
  - destruct Hheal as [[-> _]|(_ & _ & twig & leaf & data & _ & _ & _ & ->)]; repeat split.
  - intros form. cbn [logEl set_logEl].
    destruct (Offer.leafSprouts w); [discriminate|].
    unfold LeafView.graftSection, LeafView.renderGraftForm.
    destruct (existsb _ _); [discriminate|]. congruence.
Qed.

(** X10.  [render] of [leaf-view.ts] never throws and shows the empty
    message exactly when the leaf has no sprout (the second test, on an
    empty log, never fires).  For texts that are inert as markup it offers
    the graft section exactly when the leaf has sprouts and none of them is
    active; a section offered is fresh: form hidden, trigger shown, title
    empty, nothing selected, confirm disabled; and the entries shown are as
    many as the events of the sprouts, at least one per sprout. *)
Theorem render_shows (w : World) :
  let w' := snd (LeafView.render w) in
  let ss := Offer.leafSprouts w in
  fst (LeafView.render w) = Some tt
  /\ (logEl w' = LogEmpty <-> ss = [])
  /\ (Markup.inert ss ->
      (Offer.offersGraftSection (logEl w')
       <-> ss <> [] /\ Forall (fun s => state s <> active) ss)
      /\ (forall form,
            LeafView.graftSection (logEl w') = Some form ->
            form = {| formHidden := true; triggerHidden := false; titleValue := "";
                      seasonBtnSelected := None; envBtnSelected := None;
                      soilCostText := None; soilCostWarning := false;
                      confirmDisabled := true |})
      /\ (forall graft entries,
            logEl w' = LogEntries graft entries ->
            length entries = length (flat_map (Timeline.eventsWithShining ss) ss)
            /\ (length ss <= length entries)%nat)).
Proof.
  cbv zeta. destruct (LeafView_render_run w) as (w2 & Hrun & _). cbv zeta in Hrun.
  rewrite Hrun. cbn [fst snd].
  assert (Hlog : forall l h, logEl (set_logEl l (set_heap h w2)) = l) by reflexivity.
  rewrite Hlog.
  destruct (Offer.leafSprouts w) as [|s0 rest] eqn:Ess.
  - split; [reflexivity|]. split; [tauto|]. intros _. split; [|split].
    + split; [intros [form Hf]; discriminate Hf|intros [H _]; congruence].
    + intros form Hf. discriminate Hf.
    + intros g es He. discriminate He.
  - split; [reflexivity|]. split; [split; discriminate|]. intros _. split; [|split].
    + unfold Offer.offersGraftSection, LeafView.graftSection, LeafView.renderGraftForm.
      destruct (existsb _ (s0 :: rest)) eqn:E.
      * split; [intros [form Hf]; discriminate Hf|].
        intros [_ Hall]. apply existsb_exists in E as (s & Hs & Hact).
        rewrite List.Forall_forall in Hall. specialize (Hall s Hs).
        destruct (state s); try discriminate Hact. congruence.
      * split; [|intros _; eexists; reflexivity].
        intros _. split; [discriminate|]. apply existsb_active_false, E.
    + intros form. unfold LeafView.graftSection, LeafView.renderGraftForm.
      destruct (existsb _ (s0 :: rest)); [discriminate|]. congruence.
    + intros g es He.
      apply (f_equal (fun l => match l with
                               | LogEntries _ es => length es
                               | _ => 0%nat
                               end)) in He.
      cbv beta iota in He. rewrite <- He, length_map.
      rewrite (Permutation_length (sort_Permutation LeafView.byTimestampDesc _)).
      split; [reflexivity|].
      apply events_at_least.
Qed.

(** X11.  When the leaf on view has sprouts but is not among the leaves of
    its twig, [render] creates it (status ["active"], created at the clock
    time) and calls [saveState] once; the sprouts of the leaf are the
    same, the leaf is found afterwards, and rendering again stores and
    saves nothing more. *)
Theorem render_heals_missing_leaf (w : World) :
  Offer.leafSprouts w <> [] ->
  fst (LeafView.getLeaf w) = Some None ->
  let w' := snd (LeafView.render w) in
  exists twig leaf,
    currentTwigId w = Some twig /\ currentLeafId w = Some leaf
    /\ fst (LeafView.getLeaf w')
       = Some (Some {| leaf_id := leaf; leaf_status := "active";
                       leaf_createdAt := ESDate.formatISO (now w) |})
    /\ calls w' = calls w ++ [SaveState]
    /\ Offer.leafSprouts w' = Offer.leafSprouts w
    /\ nodeState (snd (LeafView.render w')) = nodeState w'
    /\ calls (snd (LeafView.render w')) = calls w'.
Proof.
  intros Hss Hmissing. cbv zeta.
  destruct (LeafView_render_run w) as (w2 & Hrun & Hheal). cbv zeta in Hrun.
  destruct Hheal as [[_ [Hnil|[lf Hlf]]]|(_ & _ & twig & leaf & data & Htwig & Hleaf & Hdata & Hw2)];
    [congruence|congruence|].
  rewrite Hrun. cbn [snd].
  set (w' := set_logEl _ _).
  destruct (Offer.leafSprouts w) as [|s0 rest] eqn:Ess; [congruence|].
  destruct (leafSprouts_cons w s0 rest Ess) as (twig' & leaf' & data' & Htwig' & Hleaf' & Hne & Hdata').
  rewrite Htwig in Htwig'. injection Htwig' as <-.
  rewrite Hleaf in Hleaf'. injection Hleaf' as <-.
  rewrite Hdata in Hdata'. injection Hdata' as <-.
  rewrite (getLeaf_found w twig leaf data Htwig Hleaf Hne Hdata) in Hmissing.
  cbn [fst] in Hmissing. injection Hmissing as Hfind.
  set (created := {| leaf_id := leaf; leaf_status := "active";
                     leaf_createdAt := ESDate.formatISO (now w) |}) in *.
  set (data1 := {| sprouts := sprouts data;
                   leaves := Some (ES.orEmpty (leaves data) ++ [created]);
                   twigSunEntries := twigSunEntries data |}) in *.
  assert (Hc1 : currentTwigId w' = Some twig) by (unfold w'; rewrite Hw2; exact Htwig).
  assert (Hc2 : currentLeafId w' = Some leaf) by (unfold w'; rewrite Hw2; exact Hleaf).
  assert (Hn : nodeState w' = <[twig := data1]> (nodeState w))
    by (unfold w'; rewrite Hw2; reflexivity).
  assert (Hd : nodeState w' !! twig = Some data1) by (rewrite Hn; apply lookup_insert_eq).
  assert (Hfound : LeafView.getLeaf w' = (Some (Some created), w')).
  { rewrite (getLeaf_found w' twig leaf data1 Hc1 Hc2 Hne Hd). f_equal. f_equal.
    unfold data1. cbn [leaves ES.orEmpty].
    rewrite (find_app_none _ _ _ Hfind). cbn [find created leaf_id].
    rewrite String.eqb_refl. reflexivity. }
  assert (Hss' : Offer.leafSprouts w' = Offer.leafSprouts w).
  { unfold Offer.leafSprouts. rewrite Hc1, Hc2, Htwig, Hleaf, Hne, Hd, Hdata. reflexivity. }
  exists twig, leaf. split; [exact Htwig|]. split; [exact Hleaf|].
  split; [rewrite Hfound; reflexivity|].
  split; [unfold w'; rewrite Hw2; reflexivity|].
  split; [rewrite Hss', Ess; reflexivity|].
  destruct (LeafView_render_run w') as (w3 & Hrun' & Hheal'). cbv zeta in Hrun'.
  rewrite Hrun'. cbn [snd].
  destruct Hheal' as [[-> _]|(Hnone & _)]; [split; reflexivity|].
  rewrite Hfound in Hnone. discriminate Hnone.
Qed.

(** X12.  [render] of [leaf-view.ts] never changes the soil balance, the
    selection or the ids on view, the sprouts of any twig, or an array that
    was already in the store; it calls nothing but [saveState], at most
    once and only when it creates the missing leaf of a leaf with
    sprouts, and without that call [nodeState] is untouched. *)
Theorem render_keeps_ledger (w : World) :
  let w' := snd (LeafView.render w) in
  (soilAvailable w' = soilAvailable w
   /\ selectedSeason w' = selectedSeason w
   /\ selectedEnvironment w' = selectedEnvironment w
   /\ currentTwigId w' = currentTwigId w
   /\ currentLeafId w' = currentLeafId w)
  /\ (forall twig, (sprouts <$> nodeState w' !! twig) = (sprouts <$> nodeState w !! twig))
  /\ (forall l o, heap w !! l = Some o -> heap w' !! l = Some o)
  /\ (exists saved, calls w' = calls w ++ saved
                    /\ (saved = [] \/ saved = [SaveState])
                    /\ (saved = [] -> nodeState w' = nodeState w)
                    /\ (saved = [SaveState] ->
                        Offer.leafSprouts w <> []
                        /\ fst (LeafView.getLeaf w) = Some None)).
Proof.
  cbv zeta. destruct (LeafView_render_run w) as (w2 & Hrun & Hheal). cbv zeta in Hrun.
  rewrite Hrun. cbn [snd].
  set (L := match Offer.leafSprouts w with [] => LogEmpty | _ :: _ => _ end).
  set (H := match Offer.leafSprouts w with [] => [] | _ :: _ => _ end).
  assert (Hheap : forall l o, heap w !! l = Some o ->
            (heap w ++ SproutArr (Offer.leafSprouts w) :: H) !! l = Some o).
  { intros l o Hl. apply lookup_app_l_Some. exact Hl. }
  destruct Hheal as [[-> _]|(Hnone & Hss & twig & leaf & data & Htwig & Hleaf & Hdata & ->)].
  - split; [repeat split|]. split; [reflexivity|]. split; [exact Hheap|].
    exists []. rewrite app_nil_r. split; [reflexivity|]. split; [left; reflexivity|].
    split; [reflexivity|discriminate].
  - split; [repeat split|]. split; [|split; [exact Hheap|]].
    + intros twig'. cbn [nodeState set_logEl set_heap set_calls set_nodeState].
      destruct (decide (twig = twig')) as [<-|Hne].
      * rewrite lookup_insert_eq, Hdata. reflexivity.
      * rewrite lookup_insert_ne by exact Hne. reflexivity.
    + exists [SaveState]. split; [reflexivity|]. split; [right; reflexivity|].
      split; [discriminate|]. intros _. split; assumption.
Qed.

End RenderFacts.

(** ** The ISO strings the view writes *)
Section IsoFacts.
Import ESDate Types.

Lemma digitOf_digitChar (v : Z) : digitOf (digitChar v) = Some (v mod 10).
Proof.
  pose proof (Z.mod_pos_bound v 10 ltac:(lia)) as H.
  assert (Hc : v mod 10 = 0 \/ v mod 10 = 1 \/ v mod 10 = 2 \/ v mod 10 = 3
               \/ v mod 10 = 4 \/ v mod 10 = 5 \/ v mod 10 = 6 \/ v mod 10 = 7
               \/ v mod 10 = 8 \/ v mod 10 = 9) by lia.
  unfold digitChar.
  repeat (destruct Hc as [Hc|Hc]; [rewrite Hc; reflexivity|]).
  rewrite Hc. reflexivity.
Qed.

Lemma readDigits_add (n m : nat) (acc : Z) (cs : list ascii) :
  readDigits (n + m) acc cs
  = match readDigits n acc cs with
    | Some (a, r) => readDigits m a r
    | None => None
    end.
Proof.
  revert acc cs. induction n as [|n IH]; intros acc cs; [reflexivity|].
  cbn [Nat.add readDigits]. destruct cs as [|c rest]; [reflexivity|].
  destruct (digitOf c) as [d|]; [apply IH|reflexivity].
Qed.

Lemma readDigits_snoc (n : nat) (acc : Z) (cs : list ascii) :
  readDigits (S n) acc cs
  = match readDigits n acc cs with
    | Some (a, c :: r) =>
        match digitOf c with
        | Some d => Some (10 * a + d, r)
        | None => None
        end
    | _ => None
    end.
Proof.
  rewrite <- Nat.add_1_r, readDigits_add.
  destruct (readDigits n acc cs) as [[a [|c r]]|]; reflexivity.
Qed.

Lemma readDigits_pad (n : nat) (v acc : Z) (tail : string) :
  0 <= v < 10 ^ Z.of_nat n ->
  readDigits n acc (list_ascii_of_string (padDigits n v tail))
  = Some (acc * 10 ^ Z.of_nat n + v, list_ascii_of_string tail).
Proof.
  revert v tail. induction n as [|n IH]; intros v tail Hv.
  - cbn in *. f_equal. f_equal. lia.
  - rewrite readDigits_snoc. cbn [padDigits].
    assert (Hpow : 10 ^ Z.of_nat (S n) = 10 * 10 ^ Z.of_nat n)
      by (rewrite Nat2Z.inj_succ, Z.pow_succ_r by lia; reflexivity).
    rewrite IH by (rewrite Hpow in Hv; Z.div_mod_to_equations; lia).
    cbn [list_ascii_of_string]. rewrite digitOf_digitChar. f_equal. f_equal.
    rewrite Hpow. pose proof (Z.div_mod v 10 ltac:(lia)) as Hdm.
    set (p := 10 ^ Z.of_nat n) in *. set (q := v / 10) in *. set (r := v mod 10) in *.
    rewrite Hdm. ring.
Qed.

Lemma padDigits_append (n : nat) (v : Z) (tail s : string) :
  String.append (padDigits n v tail) s = padDigits n v (String.append tail s).
Proof.
  revert v tail. induction n as [|n IH]; intros v tail; [reflexivity|].
  cbn [padDigits]. rewrite IH. reflexivity.
Qed.

Lemma DateFromTime_le (t : Z) :
  DateFromTime t <= DaysInMonth (YearFromTime t) (MonthFromTime t).
Proof.
  pose proof (DayWithinYear_range t) as Hr. pose proof (InLeapYear_days t) as Hl.
  assert (Hb : InLeapYear t = 0 \/ InLeapYear t = 1)
    by (unfold InLeapYear; destruct (_ =? 366); auto).
  unfold DaysInMonth, DateFromTime, MonthFromTime. cbv zeta. rewrite Hl in *.
  revert Hr Hb. generalize (InLeapYear t) as l. generalize (DayWithinYear t) as d.
  intros d l Hr [->| ->];
    repeat match goal with
           | |- context [if ?a <? ?b then _ else _] => destruct (Z.ltb_spec a b)
           end; cbn; try lia.
  - change (365 + 0 =? 366) with false. cbv iota. lia.
  - change (365 + 1 =? 366) with true. cbv iota. lia.
Qed.

Lemma year_range_time (t : Z) :
  0 <= YearFromTime t <= 9999 -> Z.abs t <= maxTime.
Proof.
  intros Hy. pose proof (YearFromTime_spec t) as Hs.
  pose proof (DayFromYear_mono 0 (YearFromTime t) ltac:(lia)) as H0.
  pose proof (DayFromYear_mono (YearFromTime t + 1) 10000 ltac:(lia)) as H1.
  assert (E0 : DayFromYear 0 = -719528) by reflexivity.
  assert (E1 : DayFromYear 10000 = 2932897) by reflexivity.
  unfold maxTime, Day, msPerDay in *. Z.div_mod_to_equations. lia.
Qed.

Lemma clock_fields (t : Z) :
  MakeTime (HourFromTime t) (MinFromTime t) (SecFromTime t) (msFromTime t)
  = TimeWithinDay t.
Proof.
  unfold MakeTime, HourFromTime, MinFromTime, SecFromTime, msFromTime, TimeWithinDay,
    msPerDay, msPerHour, msPerMinute, msPerSecond.
  Z.div_mod_to_equations. lia.
Qed.

(** [Date.parse] reads back what [toISOString] wrote. *)
Lemma parseISO_formatISO (t : Z) :
  0 <= YearFromTime t <= 9999 -> parseISO (formatISO t) = Some t.
Proof.
  intros Hy. unfold formatISO. cbv zeta.
  assert (Hyear : (0 <=? YearFromTime t) && (YearFromTime t <=? 9999) = true)
    by (apply andb_true_iff; split; apply Z.leb_le; lia).
  rewrite Hyear. rewrite padDigits_append.
  match goal with
  | |- context [String.append "" ?x] => change (String.append "" x) with x
  end.
  pose proof (MonthFromTime_range t) as Hm.
  pose proof (DateFromTime_pos t) as Hd1.
  pose proof (DateFromTime_le t) as Hd2.
  assert (Hd3 : DaysInMonth (YearFromTime t) (MonthFromTime t) <= 31).
  { unfold DaysInMonth. destruct (MonthFromTime t) as [|[| |]|];
      try destruct (DaysInYear _ =? 366); try lia.
    all: repeat match goal with |- context [match ?p with _ => _ end] => destruct p end; lia. }
  pose proof (Z.mod_pos_bound (t / msPerHour) 24 ltac:(lia)) as Hh.
  pose proof (Z.mod_pos_bound (t / msPerMinute) 60 ltac:(lia)) as Hmi.
  pose proof (Z.mod_pos_bound (t / msPerSecond) 60 ltac:(lia)) as Hs.
  pose proof (Z.mod_pos_bound t msPerSecond ltac:(unfold msPerSecond; lia)) as Hms.
  unfold parseISO.
  rewrite (readDigits_pad 4) by (cbn; lia). cbn [list_ascii_of_string readChar Ascii.eqb Bool.eqb].
  rewrite (readDigits_pad 2) by (cbn; lia). cbn [list_ascii_of_string readChar Ascii.eqb Bool.eqb].
  rewrite (readDigits_pad 2) by (cbn; lia). cbn [list_ascii_of_string readChar Ascii.eqb Bool.eqb].
  rewrite (readDigits_pad 2) by (unfold HourFromTime; cbn; lia).
  cbn [list_ascii_of_string readChar Ascii.eqb Bool.eqb].
  rewrite (readDigits_pad 2) by (unfold MinFromTime; cbn; lia).
  cbn [list_ascii_of_string readChar Ascii.eqb Bool.eqb].
  rewrite (readDigits_pad 2) by (unfold SecFromTime; cbn; lia).
  cbn [list_ascii_of_string readChar Ascii.eqb Bool.eqb].
  rewrite (readDigits_pad 3) by (unfold msFromTime, msPerSecond in *; cbn; lia).
  cbn [list_ascii_of_string].
  rewrite !Z.mul_0_l, !Z.add_0_l.
  replace (MonthFromTime t + 1 - 1) with (MonthFromTime t) by lia.
  assert (Hok : (1 <=? MonthFromTime t + 1) && (MonthFromTime t + 1 <=? 12)
                && (1 <=? DateFromTime t)
                && (DateFromTime t <=? DaysInMonth (YearFromTime t) (MonthFromTime t))
                && (HourFromTime t <=? 23) && (MinFromTime t <=? 59)
                && (SecFromTime t <=? 59) = true).
  { unfold HourFromTime, MinFromTime, SecFromTime.
    repeat (apply andb_true_iff; split); apply Z.leb_le; lia. }
  rewrite Hok. rewrite MakeDay_fields, clock_fields, MakeDate_split.
  apply TimeClip_valid, year_range_time, Hy.
Qed.

Lemma YearFromTime_le (t1 t2 : Z) : t1 <= t2 -> YearFromTime t1 <= YearFromTime t2.
Proof.
  intros H. pose proof (YearFromTime_spec t1) as H1. pose proof (YearFromTime_spec t2) as H2.
  destruct (Z.le_gt_cases (YearFromTime t1) (YearFromTime t2)) as [Hle|Hgt]; [exact Hle|].
  pose proof (DayFromYear_mono (YearFromTime t2 + 1) (YearFromTime t1) ltac:(lia)) as Hm.
  assert (Day t1 <= Day t2) by (unfold Day, msPerDay; Z.div_mod_to_equations; lia).
  lia.
Qed.

Lemma year_window (t e : Z) :
  0 <= YearFromTime t <= 9997 -> t <= e <= t + 370 * msPerDay ->
  0 <= YearFromTime e <= 9999.
Proof.
  intros Hy He. split.
  - pose proof (YearFromTime_le t e ltac:(lia)). lia.
  - destruct (Z.le_gt_cases (YearFromTime e) 9999) as [Hle|Hgt]; [exact Hle|exfalso].
    pose proof (YearFromTime_spec t) as Ht. pose proof (YearFromTime_spec e) as Hs.
    pose proof (DayFromYear_mono (YearFromTime t + 1) 9998 ltac:(lia)) as H1.
    pose proof (DayFromYear_mono 10000 (YearFromTime e) ltac:(lia)) as H2.
    assert (E1 : DayFromYear 9998 = 2932167) by reflexivity.
    assert (E2 : DayFromYear 10000 = 2932897) by reflexivity.
    assert (Day e <= Day t + 370)
      by (unfold Day, msPerDay in *; Z.div_mod_to_equations; lia).
    lia.
Qed.

Lemma year_range_clock (t : Z) :
  0 <= YearFromTime t <= 9997 -> Z.abs t <= maxTime - 400 * msPerDay.
Proof.
  intros Hy. pose proof (YearFromTime_spec t) as Hs.
  pose proof (DayFromYear_mono 0 (YearFromTime t) ltac:(lia)) as H0.
  pose proof (DayFromYear_mono (YearFromTime t + 1) 10000 ltac:(lia)) as H1.
  assert (E0 : DayFromYear 0 = -719528) by reflexivity.
  assert (E1 : DayFromYear 10000 = 2932897) by reflexivity.
  unfold maxTime, Day, msPerDay in *. Z.div_mod_to_equations. lia.
Qed.

End IsoFacts.

(** ** The end dates of the six seasons *)
Section EndDateOrder.
Import ESDate Types.
Context {tz : TimeZone}.

Ltac reduce_months :=
  repeat match goal with
         | |- context [?a / 12] =>
             let q := eval vm_compute in (a / 12) in change (a / 12) with q
         | |- context [?a mod 12] =>
             let r := eval vm_compute in (a mod 12) in change (a mod 12) with r
         end.

Lemma MakeDay_months_apart (y m d : Z) :
  0 <= m <= 11 ->
  MakeDay y m d + 28 <= MakeDay y (m + 1) d
  /\ MakeDay y (m + 1) d + 28 <= MakeDay y (m + 3) d
  /\ MakeDay y (m + 3) d + 28 <= MakeDay y (m + 6) d
  /\ MakeDay y (m + 6) d + 28 <= MakeDay y (m + 12) d.
Proof.
  intros Hm.
  assert (Hc : m = 0 \/ m = 1 \/ m = 2 \/ m = 3 \/ m = 4 \/ m = 5 \/ m = 6
               \/ m = 7 \/ m = 8 \/ m = 9 \/ m = 10 \/ m = 11) by lia.
  unfold MakeDay. cbv zeta.
  pose proof (DayFromYear_next y) as Hnext.
  destruct (DaysInYear_cases y) as [E|E]; rewrite E in *;
  destruct (DaysInYear_cases (y + 1)) as [E1|E1];
  repeat (destruct Hc as [Hc|Hc]; [|try subst m]); try subst m;
  reduce_months; rewrite ?Z.add_0_r, ?E, ?E1; cbn [monthStart Z.eqb Pos.eqb]; lia.
Qed.

Lemma plus_apart (lt : Z) :
  lt + 7 * msPerDay = Duration.plus S1w lt
  /\ Duration.plus S1w lt + 7 * msPerDay <= Duration.plus S2w lt
  /\ Duration.plus S2w lt + 14 * msPerDay <= Duration.plus S1m lt
  /\ Duration.plus S1m lt + 28 * msPerDay <= Duration.plus S3m lt
  /\ Duration.plus S3m lt + 28 * msPerDay <= Duration.plus S6m lt
  /\ Duration.plus S6m lt + 28 * msPerDay <= Duration.plus S1y lt.
Proof.
  cbn [Duration.plus]. rewrite !plusMonths_MakeDay.
  pose proof (MakeDay_months_apart (YearFromTime lt) (MonthFromTime lt)
                (DateFromTime lt) (MonthFromTime_range lt)) as (H1 & H3 & H6 & H12).
  pose proof (local_fields lt) as Hlt.
  unfold Duration.plusDays, MakeDate, msPerDay in *. lia.
Qed.

Lemma anchored_apart (x y : Z) :
  x + 3 * msPerDay <= y -> Duration.anchored x + 2 * msPerDay <= Duration.anchored y.
Proof.
  unfold Duration.anchored, MakeDate, Day, msPerDay, msPerHour.
  intros H. Z.div_mod_to_equations. lia.
Qed.

(** The end date lies between 4 and 370 days after the start. *)
Lemma endDate_window (season : SproutSeason) (t : Z) :
  (forall u b, Z.abs (LocalTZA u b) <= msPerDay) ->
  Z.abs t <= maxTime - 400 * msPerDay ->
  exists e, LeafView.getEndDate season (Some t) = Some e
            /\ t + 4 * msPerDay <= e <= t + 370 * msPerDay.
Proof.
  intros Htz Ht. eexists. split; [apply getEndDate_run; assumption|].
  pose proof (plus_apart (LocalTime t)) as (H1 & H2 & H3 & H4 & H5 & H6).
  pose proof (plus_bounds season (LocalTime t)) as Hb.
  pose proof (Htz t true) as Ha.
  pose proof (Htz (Duration.plus season (LocalTime t)) false) as Hc.
  pose proof (anchored_bounds (UTC (Duration.plus season (LocalTime t)))) as Hanch.
  assert (Hlow : LocalTime t + 7 * msPerDay <= Duration.plus season (LocalTime t))
    by (destruct season; unfold msPerDay in *; lia).
  unfold UTC, LocalTime, msPerDay in *. lia.
Qed.

(** X22.  For a start date at least 400 days inside the range of time
    values, in a time zone whose offsets stay within a day, [getEndDate]
    returns a date for each season, the one-week end date is at least four
    days after the start, and a longer season ends strictly later:
    [1w] before [2w] before [1m] before [3m] before [6m] before [1y]. *)
Theorem getEndDate_increasing (t : Z) :
  (forall u b, Z.abs (LocalTZA u b) <= msPerDay) ->
  Z.abs t <= maxTime - 400 * msPerDay ->
  exists e1w e2w e1m e3m e6m e1y,
    LeafView.getEndDate S1w (Some t) = Some e1w
    /\ LeafView.getEndDate S2w (Some t) = Some e2w
    /\ LeafView.getEndDate S1m (Some t) = Some e1m
    /\ LeafView.getEndDate S3m (Some t) = Some e3m
    /\ LeafView.getEndDate S6m (Some t) = Some e6m
    /\ LeafView.getEndDate S1y (Some t) = Some e1y
    /\ t + 4 * msPerDay <= e1w
    /\ e1w < e2w /\ e2w < e1m /\ e1m < e3m /\ e3m < e6m /\ e6m < e1y.
Proof.
  intros Htz Ht.
  eexists _, _, _, _, _, _.
  do 6 (split; [apply getEndDate_run; assumption|]).
  pose proof (plus_apart (LocalTime t)) as (H1 & H2 & H3 & H4 & H5 & H6).
  pose proof (Htz t true) as Ha.
  assert (Hgap : forall s1 s2,
             Duration.plus s1 (LocalTime t) + 7 * msPerDay <= Duration.plus s2 (LocalTime t) ->
             Duration.anchored (UTC (Duration.plus s1 (LocalTime t)))
             < Duration.anchored (UTC (Duration.plus s2 (LocalTime t)))).
  { intros s1 s2 H.
    pose proof (Htz (Duration.plus s1 (LocalTime t)) false).
    pose proof (Htz (Duration.plus s2 (LocalTime t)) false).
    pose proof (anchored_apart (UTC (Duration.plus s1 (LocalTime t)))
                  (UTC (Duration.plus s2 (LocalTime t)))) as Hap.
    unfold UTC, msPerDay in *. lia. }
  split.
  - pose proof (Htz (Duration.plus S1w (LocalTime t)) false) as Hb.
    pose proof (anchored_bounds (UTC (Duration.plus S1w (LocalTime t)))) as Hanch.
    unfold UTC, LocalTime, msPerDay in *. lia.
  - repeat split; apply Hgap; unfold msPerDay in *; lia.
Qed.

End EndDateOrder.

(** ** The handlers and the api of the view *)
Section PanelFacts.
Import Types View State ESDate LeafViewApi.
Context {tz : TimeZone} {parser : DateParse} {api : StateApi}.

(** The three ways [doGraft] of [leaf-view.ts] can end: before any call or
    on a refused check, with the soil spent and an exception, or with the
    graft committed. *)
Lemma LeafView_doGraft_run (w : World) :
  (LeafView.doGraft w = (Some tt, w)
   /\ (forall twig leaf season env form,
         currentTwigId w = Some twig -> currentLeafId w = Some leaf ->
         (String.eqb twig "" || String.eqb leaf "") = false ->
         selectedSeason w = Some season -> selectedEnvironment w = Some env ->
         LeafView.graftSection (logEl w) = Some form ->
         ES.trim (titleValue form) = ""))
  \/ (exists season env,
        selectedSeason w = Some season /\ selectedEnvironment w = Some env
        /\ soilAvailable w < calculateSoilCost season env
        /\ LeafView.doGraft w
           = (Some tt,
              set_calls (calls w ++ [CanAffordSoil (calculateSoilCost season env) false]) w))
  \/ (exists twig leaf season env form entries,
        currentTwigId w = Some twig /\ currentLeafId w = Some leaf
        /\ (String.eqb twig "" || String.eqb leaf "") = false
        /\ selectedSeason w = Some season /\ selectedEnvironment w = Some env
        /\ logEl w = LogEntries (Some form) entries
        /\ ES.trim (titleValue form) <> ""
        /\ calculateSoilCost season env <= soilAvailable w
        /\ let cost := calculateSoilCost season env in
           let spent := set_calls (calls w ++ [ CanAffordSoil cost true;
                                                SpendSoil cost true; OnSoilChange ])
                          (set_soilAvailable (soilAvailable w - cost) w) in
           match LeafView.getEndDate season (Some (now w)) with
           | None => LeafView.doGraft w = (None, spent)
           | Some endDate =>
               let input := {| in_title := ES.trim (titleValue form);
                               in_season := season; in_environment := env;
                               in_state := active; in_soilCost := cost;
                               in_activatedAt := formatISO (now w);
                               in_endDate := formatISO endDate |} in
               LeafView.doGraft w
               = (Some tt,
                  set_calls (calls w ++ [ CanAffordSoil cost true; SpendSoil cost true;
                                          OnSoilChange; GraftFromLeaf twig leaf input;
                                          OnSave; OnClose ])
                    (set_selectedEnvironment None
                       (set_selectedSeason None
                          (set_logEl
                             (LogEntries
                                (Some {| formHidden := true; triggerHidden := false;
                                         titleValue := "";
                                         seasonBtnSelected := None;
                                         envBtnSelected := None;
                                         soilCostText := soilCostText form;
                                         soilCostWarning := soilCostWarning form;
                                         confirmDisabled := confirmDisabled form |})
                                entries)
                             (set_nodeState (graftFromLeaf twig leaf input (nodeState w))
                                (set_soilAvailable (soilAvailable w - cost) w))))))
           end).
Proof.
  destruct w as [h ns soil t twig leaf from season env log tEl mEl cs].
  unfold LeafView.doGraft. cbn.
  destruct twig as [twig|]; [|left; split; [reflexivity|intros; discriminate]].
  destruct leaf as [leaf|]; [|left; split; [reflexivity|intros; discriminate]].
  destruct season as [season|]; [|left; split; [reflexivity|intros; discriminate]].
  destruct env as [env|]; [|left; split; [reflexivity|intros; discriminate]].
  destruct (String.eqb twig "" || String.eqb leaf "") eqn:Eid;
    [left; split; [reflexivity|intros; congruence]|].
  destruct log as [| |[form|] entries];
    try (left; split; [reflexivity|intros; discriminate]).
  cbn. destruct (String.eqb (ES.trim (titleValue form)) "") eqn:Et.
  { left. split; [reflexivity|]. intros ? ? ? ? f _ _ _ _ _ Hf.
    injection Hf as <-. apply String.eqb_eq, Et. }
  right. unfold canAffordSoil, spendSoil, logCall, Eff.bind, Eff.get, Eff.modify, Eff.ret.
  cbn. destruct (calculateSoilCost season env <=? soil) eqn:E; cbn.
  - right. exists twig, leaf, season, env, form, entries.
    apply String.eqb_neq in Et. apply Z.leb_le in E.
    repeat (split; [reflexivity || assumption|]).
    rewrite (gtb_of_leb _ soil) by (apply Z.leb_le; exact E). cbn.
    destruct (LeafView.getEndDate season (Some t)) as [endDate|]; cbn;
      rewrite <- ?app_assoc; reflexivity.
  - left. exists season, env. apply Z.leb_gt in E.
    repeat (split; [reflexivity || assumption|]). reflexivity.
Qed.

Lemma added_app (w w' : World) (cs : list Call) :
  calls w' = calls w ++ cs -> Trace.added w w' = cs.
Proof.
  intros H. unfold Trace.added. rewrite H. apply drop_app_length.
Qed.

Lemma added_same (w : World) : Trace.added w w = [].
Proof. apply added_app. rewrite app_nil_r. reflexivity. Qed.

Lemma Origin_render_explicit (w : World) :
  (fst (LeafView.getLeaf w) = Some None /\ LeafViewOrigin.render w = (Some tt, w))
  \/ (exists lf,
        fst (LeafView.getLeaf w) = Some (Some lf)
        /\ let ss := Offer.leafSprouts w in
           let out := ES.sort LeafViewOrigin.byTimestampDesc
                        (flat_map (Timeline.events ss) ss) in
           LeafViewOrigin.render w
           = (Some tt,
              set_logEl
                (match out with
                 | [] => LogEmpty
                 | _ :: _ =>
                     LogEntries LeafViewOrigin.renderGraftForm
                       (map (fun e => LeafViewOrigin.renderLogEntry e ss) out)
                 end)
                (set_header
                   (ES.orElse (option_map title
                                 (head (ES.sort LeafViewOrigin.byCreatedAtDesc ss)))
                              "Untitled")
                   (length out, length (getActiveSprouts ss))
                   (set_heap (heap w ++ [SproutArr ss; EntryArr out]) w)))).
Proof.
  unfold LeafViewOrigin.render, LeafViewOrigin.getLeaf.
  destruct (getLeaf_run w) as [leaf Hleaf]. rewrite (bind_run _ _ _ _ _ Hleaf).
  rewrite Hleaf. cbn [fst].
  destruct leaf as [lf|]; [right; exists lf; split; [reflexivity|]|left; split; reflexivity].
  cbv zeta.
  change LeafViewOrigin.getSprouts with LeafView.getSprouts.
  rewrite (bind_run _ _ _ _ _ (getSprouts_leafSprouts w)).
  set (ss := Offer.leafSprouts w).
  set (w1 := set_heap (heap w ++ [SproutArr ss]) w).
  assert (Hread : readSprouts (length (heap w)) w1 = (Some ss, w1)).
  { unfold readSprouts, w1. cbn [heap set_heap].
    rewrite list_lookup_middle by reflexivity. reflexivity. }
  rewrite (bind_run _ _ _ _ _ Hread).
  assert (Hat : heap w1 !! length (heap w) = Some (SproutArr ss)).
  { unfold w1. cbn [heap set_heap]. apply list_lookup_middle. reflexivity. }
  rewrite (bind_run _ _ _ _ _ (Origin_buildUnifiedLog_run _ _ _ Hat)).
  rewrite (bind_run _ _ _ _ _ (readEntries_run _ _ _)).
  unfold Eff.bind, Eff.modify, LeafViewOrigin.wireLogEvents, Eff.ret.
  unfold w1. destruct w. cbn [heap set_heap set_header set_logEl nodeState soilAvailable
    now currentTwigId currentLeafId graftFromSproutId selectedSeason selectedEnvironment
    logEl titleEl metaEl calls].
  rewrite <- ?app_assoc. cbn [app].
  destruct (ES.sort LeafViewOrigin.byTimestampDesc _); reflexivity.
Qed.

Lemma Origin_render_frame (w : World) :
  exists w', LeafViewOrigin.render w = (Some tt, w')
             /\ calls w' = calls w /\ soilAvailable w' = soilAvailable w
             /\ nodeState w' = nodeState w
             /\ graftFromSproutId w' = graftFromSproutId w
             /\ selectedSeason w' = selectedSeason w
             /\ selectedEnvironment w' = selectedEnvironment w
             /\ currentTwigId w' = currentTwigId w
             /\ currentLeafId w' = currentLeafId w
             /\ now w' = now w.
Proof.
  destruct (Origin_render_explicit w) as [[_ Hrun]|(lf & _ & Hrun)].
  - exists w. repeat split. exact Hrun.
  - cbv zeta in Hrun. eexists. split; [exact Hrun|]. repeat split.
Qed.

Lemma Origin_doGraft_run (w : World) :
  (LeafViewOrigin.doGraft w = (Some tt, w)
   /\ (forall twig origin season env form,
         currentTwigId w = Some twig -> graftFromSproutId w = Some origin ->
         (String.eqb twig "" || String.eqb origin "") = false ->
         selectedSeason w = Some season -> selectedEnvironment w = Some env ->
         LeafViewOrigin.graftSection (logEl w) = Some form ->
         ES.trim (titleValue form) = ""))
  \/ (exists season env,
        selectedSeason w = Some season /\ selectedEnvironment w = Some env
        /\ soilAvailable w < calculateSoilCost season env
        /\ LeafViewOrigin.doGraft w
           = (Some tt,
              set_calls (calls w ++ [CanAffordSoil (calculateSoilCost season env) false]) w))
  \/ (exists twig origin season env form entries,
        currentTwigId w = Some twig /\ graftFromSproutId w = Some origin
        /\ (String.eqb twig "" || String.eqb origin "") = false
        /\ selectedSeason w = Some season /\ selectedEnvironment w = Some env
        /\ logEl w = LogEntries (Some form) entries
        /\ ES.trim (titleValue form) <> ""
        /\ calculateSoilCost season env <= soilAvailable w
        /\ let cost := calculateSoilCost season env in
           let spent := set_calls (calls w ++ [ CanAffordSoil cost true;
                                                SpendSoil cost true; OnSoilChange ])
                          (set_soilAvailable (soilAvailable w - cost) w) in
           match LeafViewOrigin.getEndDate season (Some (now w)) with
           | None => LeafViewOrigin.doGraft w = (None, spent)
           | Some endDate =>
               let input := {| in_title := ES.trim (titleValue form);
                               in_season := season; in_environment := env;
                               in_state := active; in_soilCost := cost;
                               in_activatedAt := formatISO (now w);
                               in_endDate := formatISO endDate |} in
               exists w',
                 LeafViewOrigin.doGraft w = (Some tt, w')
                 /\ calls w' = calls w ++ [ CanAffordSoil cost true; SpendSoil cost true;
                                            OnSoilChange; GraftSprout twig origin input;
                                            OnSave ]
                 /\ soilAvailable w' = soilAvailable w - cost
                 /\ nodeState w' = graftSprout twig origin input (nodeState w)
                 /\ graftFromSproutId w' = None
                 /\ selectedSeason w' = None /\ selectedEnvironment w' = None
           end).
Proof.
  destruct w as [h ns soil t twig leaf from season env log tEl mEl cs].
  unfold LeafViewOrigin.doGraft. cbn -[LeafViewOrigin.render].
  destruct twig as [twig|]; [|left; split; [reflexivity|intros; discriminate]].
  destruct from as [from|]; [|left; split; [reflexivity|intros; discriminate]].
  destruct season as [season|]; [|left; split; [reflexivity|intros; discriminate]].
  destruct env as [env|]; [|left; split; [reflexivity|intros; discriminate]].
  destruct (String.eqb twig "" || String.eqb from "") eqn:Eid;
    [left; split; [reflexivity|intros; congruence]|].
  destruct log as [| |[form|] entries];
    try (left; split; [reflexivity|intros; discriminate]).
  cbn -[LeafViewOrigin.render].
  destruct (String.eqb (ES.trim (titleValue form)) "") eqn:Et.
  { left. split; [reflexivity|]. intros ? ? ? ? f _ _ _ _ _ Hf.
    injection Hf as <-. apply String.eqb_eq, Et. }
  right. unfold canAffordSoil, spendSoil, logCall, Eff.bind, Eff.get, Eff.modify, Eff.ret.
  cbn -[LeafViewOrigin.render].
  destruct (calculateSoilCost season env <=? soil) eqn:E; cbn -[LeafViewOrigin.render].
  - right. exists twig, from, season, env, form, entries.
    apply String.eqb_neq in Et. apply Z.leb_le in E.
    repeat (split; [reflexivity || assumption|]).
    rewrite (gtb_of_leb _ soil) by (apply Z.leb_le; exact E). cbn -[LeafViewOrigin.render].
    destruct (LeafViewOrigin.getEndDate season (Some t)) as [endDate|];
      cbn -[LeafViewOrigin.render]; [|rewrite <- ?app_assoc; reflexivity].
    match goal with
    | |- context [LeafViewOrigin.render ?W] =>
        destruct (Origin_render_frame W)
          as (w2 & Hr & Hc & Hsoil & Hns & Hfrom & Hseason & Henv & _); rewrite Hr
    end.
    eexists. split; [reflexivity|].
    cbn in Hc, Hsoil, Hns, Hfrom, Hseason, Henv |- *.
    rewrite Hc, Hsoil, Hns, Hfrom, Hseason, Henv, <- !app_assoc. repeat split.
  - left. exists season, env. apply Z.leb_gt in E.
    repeat (split; [reflexivity || assumption|]). reflexivity.
Qed.

Lemma inWorld_run {A : Type} (m : M A) (p : Panel) (a : A) (w' : World) :
  m (world p) = (Some a, w') ->
  inWorld m p = (Some a, {| world := w'; isOpenClass := isOpenClass p |}).
Proof. intros H. unfold inWorld. rewrite H. reflexivity. Qed.

Lemma doGraft_unarmed (w : World) :
  selectedSeason w = None \/ currentTwigId w = None ->
  LeafView.doGraft w = (Some tt, w).
Proof.
  intros H. unfold LeafView.doGraft, Eff.bind, Eff.get.
  destruct H as [H|H]; rewrite H.
  - destruct (currentTwigId w), (currentLeafId w); reflexivity.
  - reflexivity.
Qed.

Lemma Origin_doGraft_unarmed (w : World) :
  graftFromSproutId w = None \/ currentTwigId w = None ->
  LeafViewOrigin.doGraft w = (Some tt, w).
Proof.
  intros H. unfold LeafViewOrigin.doGraft, Eff.bind, Eff.get.
  destruct H as [H|H]; rewrite H.
  - destruct (currentTwigId w); reflexivity.
  - reflexivity.
Qed.



(** X14.  A second [doGraft] right after one that grafted does nothing: the
    first reset the selection (and, in the origin-chaining revision, the
    origin), so a repeated click on the confirm button cannot graft or
    spend twice. *)
Theorem doGraft_once (w : World) :
  (forall twig leaf input,
     let w' := snd (LeafView.doGraft w) in
     In (GraftFromLeaf twig leaf input) (Trace.added w w') ->
     LeafView.doGraft w' = (Some tt, w'))
  /\ (forall twig origin input,
        let w' := snd (LeafViewOrigin.doGraft w) in
        In (GraftSprout twig origin input) (Trace.added w w') ->
        LeafViewOrigin.doGraft w' = (Some tt, w')).
Proof.
  split; intros twig leaf input; cbv zeta.
  - destruct (LeafView_doGraft_run w)
      as [[Hrun _]|[(season & env & Hs & He & Hlt & Hrun)
                   |(twig' & leaf' & season & env & form & entries & Htwig & Hleaf & Hid
                     & Hs & He & Hlog & Htitle & Hle & Hrun)]].
    + rewrite Hrun. cbn [snd]. rewrite added_same. intros [].
    + rewrite Hrun. cbn [snd].
      rewrite (added_app w _ [CanAffordSoil (calculateSoilCost season env) false])
        by (destruct w; reflexivity).
      intros [H|[]]. discriminate H.
    + cbv zeta in Hrun.
      destruct (LeafView.getEndDate season (Some (now w))) as [endDate|] eqn:Eend;
        rewrite Hrun; cbn [snd].
      * intros _. apply doGraft_unarmed. left. reflexivity.
      * rewrite (added_app w _ [CanAffordSoil (calculateSoilCost season env) true;
                                SpendSoil (calculateSoilCost season env) true;
                                OnSoilChange]) by (destruct w; reflexivity).
        intros [H|[H|[H|[]]]]; discriminate H.
  - destruct (Origin_doGraft_run w)
      as [[Hrun _]|[(season & env & Hs & He & Hlt & Hrun)
                   |(twig' & leaf' & season & env & form & entries & Htwig & Hleaf & Hid
                     & Hs & He & Hlog & Htitle & Hle & Hrun)]].
    + rewrite Hrun. cbn [snd]. rewrite added_same. intros [].
    + rewrite Hrun. cbn [snd].
      rewrite (added_app w _ [CanAffordSoil (calculateSoilCost season env) false])
        by (destruct w; reflexivity).
      intros [H|[]]. discriminate H.
    + cbv zeta in Hrun.
      destruct (LeafViewOrigin.getEndDate season (Some (now w))) as [endDate|] eqn:Eend.
      * destruct Hrun as (w' & Hrun & _ & _ & _ & Hfrom' & _).
        rewrite Hrun. cbn [snd]. intros _. apply Origin_doGraft_unarmed. left. exact Hfrom'.
      * rewrite Hrun; cbn [snd].
        rewrite (added_app w _ [CanAffordSoil (calculateSoilCost season env) true;
                                SpendSoil (calculateSoilCost season env) true;
                                OnSoilChange]) by (destruct w; reflexivity).
        intros [H|[H|[H|[]]]]; discriminate H.
Qed.

Lemma updateGraftFormState_run (w : World) (form : GraftForm) (entries : list EntryHtml) :
  logEl w = LogEntries (Some form) entries ->
  exists form1 w1,
    LeafView.updateGraftFormState w = (Some tt, w1)
    /\ logEl w1 = LogEntries (Some form1) entries
    /\ (titleValue form1 = titleValue form /\ formHidden form1 = formHidden form
        /\ triggerHidden form1 = triggerHidden form
        /\ seasonBtnSelected form1 = seasonBtnSelected form
        /\ envBtnSelected form1 = envBtnSelected form)
    /\ confirmDisabled form1 = negb (Confirm.enabledFor w form)
    /\ (currentTwigId w1 = currentTwigId w /\ currentLeafId w1 = currentLeafId w
        /\ selectedSeason w1 = selectedSeason w
        /\ selectedEnvironment w1 = selectedEnvironment w
        /\ soilAvailable w1 = soilAvailable w /\ nodeState w1 = nodeState w
        /\ now w1 = now w)
    /\ (exists asked, calls w1 = calls w ++ asked
                      /\ forall c, In c asked -> exists cost ok, c = CanAffordSoil cost ok).
Proof.
  intros Hlog. destruct w as [h ns soil t twig leaf from season env log tEl mEl cs].
  cbn in Hlog. subst log.
  unfold LeafView.updateGraftFormState, Confirm.enabledFor. cbn.
  destruct season as [season|]; [destruct env as [env|]|].
  - unfold getSoilAvailable, canAffordSoil, LeafView.setGraftSection, logCall,
      Eff.bind, Eff.get, Eff.modify, Eff.ret. cbn.
    eexists _, _. split; [reflexivity|]. cbn.
    split; [reflexivity|]. split; [repeat split|]. split.
    + rewrite negb_andb, negb_involutive. reflexivity.
    + split; [repeat split|]. eexists. split; [reflexivity|].
      intros c [<-|[]]. eauto.
  - unfold LeafView.setGraftSection, Eff.modify. cbn.
    eexists _, _. split; [reflexivity|]. cbn.
    split; [reflexivity|]. split; [repeat split|]. split; [reflexivity|].
    split; [repeat split|]. exists []. rewrite app_nil_r. split; [reflexivity|intros c []].
  - unfold LeafView.setGraftSection, Eff.modify. cbn.
    eexists _, _. split; [reflexivity|]. cbn.
    split; [reflexivity|]. split; [repeat split|]. split; [reflexivity|].
    split; [repeat split|]. exists []. rewrite app_nil_r. split; [reflexivity|intros c []].
Qed.

Lemma doGraft_spends_iff (w : World) (twig leaf : string) (form : GraftForm)
    (entries : list EntryHtml) :
  currentTwigId w = Some twig -> currentLeafId w = Some leaf ->
  (String.eqb twig "" || String.eqb leaf "") = false ->
  logEl w = LogEntries (Some form) entries ->
  (Confirm.enabledFor w form = true
   <-> exists cost, In (SpendSoil cost true) (Trace.added w (snd (LeafView.doGraft w)))).
Proof.
  intros Htwig Hleaf Hid Hlog. unfold Confirm.enabledFor.
  destruct (LeafView_doGraft_run w)
    as [[Hrun Hblank]|[(season & env & Hs & He & Hlt & Hrun)
                 |(twig' & leaf' & season & env & form' & entries' & _ & _ & _
                   & Hs & He & Hlog' & Htitle & Hle & Hrun)]].
  - rewrite Hrun. cbn [snd]. rewrite added_same. split; [|intros [c []]].
    destruct (selectedSeason w) as [season|] eqn:Es; [|discriminate].
    destruct (selectedEnvironment w) as [env|] eqn:Ee; [|discriminate].
    rewrite (Hblank twig leaf season env form Htwig Hleaf Hid eq_refl eq_refl)
      by (rewrite Hlog; reflexivity).
    discriminate.
  - rewrite Hrun. cbn [snd].
    rewrite (added_app w _ [CanAffordSoil (calculateSoilCost season env) false])
      by (destruct w; reflexivity).
    rewrite Hs, He. split.
    + intros H. apply andb_true_iff in H as [_ H]. apply Z.leb_le in H. lia.
    + intros [c [H|[]]]. discriminate H.
  - rewrite Hlog in Hlog'. injection Hlog' as <- <-. rewrite Hs, He.
    split; [intros _|intros _].
    + exists (calculateSoilCost season env). cbv zeta in Hrun.
      destruct (LeafView.getEndDate season (Some (now w))); rewrite Hrun; cbn [snd];
        erewrite added_app by (destruct w; reflexivity); cbn; auto.
    + apply andb_true_iff. split; [|apply Z.leb_le, Hle].
      apply negb_true_iff, String.eqb_neq, Htitle.
Qed.

(** X15.  On a view with a leaf and a graft section, after any listener
    that ends in [updateGraftFormState] (the trigger, a season button, an
    environment button, the title field, or the function itself) the
    confirm button is enabled exactly when the title is not blank, both
    selections are made and their cost is within the soil available, which
    is exactly when [doGraft] would go on to spend: the button and the
    guards of the handler agree. *)
Theorem confirm_button_agrees
    (w : World) (handler : M unit) (twig leaf : string)
    (s : SproutSeason) (e : SproutEnvironment) (v : string) :
  currentTwigId w = Some twig -> currentLeafId w = Some leaf ->
  (String.eqb twig "" || String.eqb leaf "") = false ->
  Offer.offersGraftSection (logEl w) ->
  In handler [ LeafView.updateGraftFormState; LeafView.showGraftForm;
               LeafViewApi.onSeasonClick s; LeafViewApi.onEnvClick e;
               LeafViewApi.onTitleInput v ] ->
  let w1 := snd (handler w) in
  fst (handler w) = Some tt
  /\ exists form1,
       LeafView.graftSection (logEl w1) = Some form1
       /\ (confirmDisabled form1 = false
           <-> ES.trim (titleValue form1) <> ""
               /\ exists season env,
                    selectedSeason w1 = Some season
                    /\ selectedEnvironment w1 = Some env
                    /\ calculateSoilCost season env <= soilAvailable w1)
       /\ (confirmDisabled form1 = false
           <-> exists cost,
                 In (SpendSoil cost true)
                    (Trace.added w1 (snd (LeafView.doGraft w1)))).
Proof.
  intros Htwig Hleaf Hid [form Hform] Hin. cbv zeta.
  assert (Hlog : exists entries, logEl w = LogEntries (Some form) entries).
  { destruct (logEl w) as [| |[f|] es]; try discriminate Hform.
    injection Hform as ->. eauto. }
  destruct Hlog as [entries Hlog].
  assert (Hstep : exists w0 form0,
             handler w = LeafView.updateGraftFormState w0
             /\ logEl w0 = LogEntries (Some form0) entries
             /\ currentTwigId w0 = Some twig /\ currentLeafId w0 = Some leaf).
  { destruct w as [h ns soil t tw lf from season env log tEl mEl cs].
    cbn in Htwig, Hleaf, Hlog. subst tw lf log.
    destruct Hin as [<-|[<-|[<-|[<-|[<-|[]]]]]].
    - eexists _, _. split; [reflexivity|]. repeat split.
    - eexists _, _. split; [reflexivity|]. repeat split.
    - eexists _, _. split; [reflexivity|]. repeat split.
    - eexists _, _. split; [reflexivity|]. repeat split.
    - eexists _, _. split; [reflexivity|]. repeat split. }
  destruct Hstep as (w0 & form0 & -> & Hlog0 & Htwig0 & Hleaf0).
  destruct (updateGraftFormState_run w0 form0 entries Hlog0)
    as (form1 & w1 & Hrun & Hlog1 & (Ht & _) & Hdis
        & (Hc1 & Hc2 & Hs1 & He1 & Hsoil1 & _) & _).
  rewrite Hrun. cbn [fst snd]. split; [reflexivity|].
  exists form1. split; [rewrite Hlog1; reflexivity|].
  assert (Hen : Confirm.enabledFor w1 form1 = Confirm.enabledFor w0 form0).
  { unfold Confirm.enabledFor. rewrite Hs1, He1, Hsoil1, Ht. reflexivity. }
  assert (Hiff : confirmDisabled form1 = false <-> Confirm.enabledFor w1 form1 = true).
  { rewrite Hdis, Hen. destruct (Confirm.enabledFor w0 form0); cbn; split; congruence. }
  split.
  - rewrite Hiff. unfold Confirm.enabledFor.
    destruct (selectedSeason w1) as [season|]; [destruct (selectedEnvironment w1) as [env|]|].
    + rewrite andb_true_iff, negb_true_iff, String.eqb_neq, Z.leb_le. split.
      * intros [H1 H2]. split; [exact H1|]. exists season, env. auto.
      * intros [H1 (s' & e' & Hs' & He' & H2)].
        injection Hs' as <-. injection He' as <-. auto.
    + split; [discriminate|]. intros [_ (s' & e' & _ & He' & _)]. discriminate He'.
    + split; [discriminate|]. intros [_ (s' & e' & Hs' & _)]. discriminate Hs'.
  - rewrite Hiff. apply (doGraft_spends_iff w1 twig leaf form1 entries).
    + rewrite Hc1. exact Htwig0.
    + rewrite Hc2. exact Hleaf0.
    + exact Hid.
    + exact Hlog1.
Qed.

(** X16.  The Escape key does nothing on a view that is not open, as any
    other key.  On an open view with the graft form shown it hides the form
    and shows the trigger, without calling [onClose] and keeping the typed
    title and the selection, and a second Escape then calls [onClose]; with
    no form shown it calls [onClose] and changes nothing else.  The cancel
    button, unlike Escape, empties the title and resets the selection. *)
Theorem onKeydown_escape (p : Panel) :
  let p1 := snd (LeafViewApi.onKeydown "Escape" p) in
  (forall key, isOpenClass p = false \/ key <> "Escape" ->
               LeafViewApi.onKeydown key p = (Some tt, p))
  /\ (isOpenClass p = true ->
      forall form,
        LeafView.graftSection (logEl (world p)) = Some form ->
        formHidden form = false ->
        LeafView.graftSection (logEl (world p1))
        = Some {| formHidden := true; triggerHidden := false;
                  titleValue := titleValue form;
                  seasonBtnSelected := seasonBtnSelected form;
                  envBtnSelected := envBtnSelected form;
                  soilCostText := soilCostText form;
                  soilCostWarning := soilCostWarning form;
                  confirmDisabled := confirmDisabled form |}
        /\ calls (world p1) = calls (world p)
        /\ selectedSeason (world p1) = selectedSeason (world p)
        /\ selectedEnvironment (world p1) = selectedEnvironment (world p)
        /\ isOpenClass p1 = true
        /\ Trace.added (world p1) (world (snd (LeafViewApi.onKeydown "Escape" p1)))
           = [OnClose])
  /\ (isOpenClass p = true ->
      (forall form, LeafView.graftSection (logEl (world p)) = Some form ->
                    formHidden form = true) ->
      p1 = {| world := set_calls (calls (world p) ++ [OnClose]) (world p);
              isOpenClass := true |})
  /\ (forall form,
        LeafView.graftSection (logEl (world p)) = Some form ->
        let cancelled := snd (LeafView.hideGraftForm (world p)) in
        exists cleared,
          LeafView.graftSection (logEl cancelled) = Some cleared
          /\ titleValue cleared = "" /\ formHidden cleared = true
          /\ selectedSeason cancelled = None /\ selectedEnvironment cancelled = None).
Proof.
  cbv zeta. destruct p as [w opened].
  destruct w as [h ns soil t twig leaf from season env log tEl mEl cs].
  split; [|split; [|split]].
  - intros key [H|H].
    + cbn in H. subst opened. unfold LeafViewApi.onKeydown, isOpen, Eff.bind. cbn.
      rewrite andb_false_r. reflexivity.
    + apply String.eqb_neq in H. unfold LeafViewApi.onKeydown, isOpen, Eff.bind. cbn.
      rewrite H. reflexivity.
  - cbn [isOpenClass world logEl]. intros -> form Hform Hshown.
    destruct log as [| |[f|] entries]; try discriminate Hform.
    cbn in Hform. injection Hform as ->.
    unfold LeafViewApi.onKeydown, isOpen, inWorld, LeafView.setGraftSection, logCall,
      Eff.bind, Eff.get, Eff.modify. cbn. rewrite Hshown. cbn.
    repeat split. unfold Trace.added. cbn. apply drop_app_length.
  - cbn [isOpenClass world logEl]. intros -> Hhidden.
    unfold LeafViewApi.onKeydown, isOpen, inWorld, LeafView.setGraftSection, logCall,
      Eff.bind, Eff.get, Eff.modify. cbn.
    destruct log as [| |[f|] entries]; try reflexivity.
    cbn. rewrite (Hhidden f eq_refl). reflexivity.
  - cbn [world logEl]. intros form Hform.
    destruct log as [| |[f|] entries]; try discriminate Hform.
    eexists. split; [reflexivity|]. repeat split.
Qed.

(** X17.  [open] of [leaf-view.ts] never throws: the view is open on the
    given leaf and twig with no season or environment selected, and
    [doGraft] right after does nothing; for texts that are inert as markup
    a graft section that is rendered is fresh (shown at once when
    [startWithGraftForm] is set, with the confirm button disabled).
    [close] clears both ids and leaves the log as it was; on a closed view
    [doGraft] and every key do nothing. *)
Theorem open_resets_close_disarms
    (p : Panel) (leaf twigId : string) (startWithGraftForm : bool) :
  let opened := snd (LeafViewApi.open leaf twigId startWithGraftForm p) in
  let closed := snd (LeafViewApi.close p) in
  (fst (LeafViewApi.open leaf twigId startWithGraftForm p) = Some tt
   /\ isOpenClass opened = true
   /\ currentTwigId (world opened) = Some twigId
   /\ currentLeafId (world opened) = Some leaf
   /\ selectedSeason (world opened) = None
   /\ selectedEnvironment (world opened) = None
   /\ (Markup.inert
         (Offer.leafSprouts (set_current (Some twigId) (Some leaf) (world p))) ->
       forall form,
         LeafView.graftSection (logEl (world opened)) = Some form ->
         form = {| formHidden := negb startWithGraftForm;
                   triggerHidden := startWithGraftForm; titleValue := "";
                   seasonBtnSelected := None; envBtnSelected := None;
                   soilCostText := None; soilCostWarning := false;
                   confirmDisabled := true |})
   /\ LeafView.doGraft (world opened) = (Some tt, world opened))
  /\ (fst (LeafViewApi.close p) = Some tt
      /\ isOpenClass closed = false
      /\ currentTwigId (world closed) = None
      /\ currentLeafId (world closed) = None
      /\ logEl (world closed) = logEl (world p)
      /\ LeafView.doGraft (world closed) = (Some tt, world closed)
      /\ forall key, LeafViewApi.onKeydown key closed = (Some tt, closed)).
Proof.
  cbv zeta. split.
  - set (w0 := set_selectedEnvironment None
                 (set_selectedSeason None
                    (set_current (Some twigId) (Some leaf) (world p)))).
    destruct (LeafView_render_frame w0)
      as (w1 & Hrender & (Hs & He & Htw & Hlf & _) & Hfresh).
    assert (Hopen : LeafViewApi.open leaf twigId startWithGraftForm p
                    = (Some tt,
                       {| world :=
                            if startWithGraftForm
                            then match logEl w1 with
                                 | LogEntries (Some form) entries =>
                                     set_logEl
                                       (LogEntries (Some (setHidden false true form)) entries)
                                       w1
                                 | _ => w1
                                 end
                            else w1;
                          isOpenClass := true |})).
    { unfold LeafViewApi.open.
      assert (Hfirst : inWorld (Eff.modify (set_current (Some twigId) (Some leaf)) ;;
                                Eff.modify (set_selectedSeason None) ;;
                                Eff.modify (set_selectedEnvironment None) ;;
                                LeafView.render) p
                       = (Some tt, {| world := w1; isOpenClass := isOpenClass p |})).
      { apply inWorld_run. unfold Eff.bind, Eff.modify. exact Hrender. }
      rewrite (bind_run _ _ _ _ _ Hfirst).
      unfold setOpenClass. unfold Eff.bind at 1. cbn [Eff.modify world isOpenClass].
      destruct startWithGraftForm; [|reflexivity].
      apply (inWorld_run _ {| world := w1; isOpenClass := true |}).
      unfold Eff.bind, Eff.get, Eff.ret, LeafView.setGraftSection, Eff.modify.
      cbn [world].
      destruct (logEl w1) as [| |[form|] entries] eqn:Elog; cbn; rewrite ?Elog; reflexivity. }
    rewrite Hopen. cbn [fst snd world isOpenClass].
    assert (Hw0 : selectedSeason w0 = None /\ selectedEnvironment w0 = None
                  /\ currentTwigId w0 = Some twigId /\ currentLeafId w0 = Some leaf)
      by (repeat split).
    destruct Hw0 as (Hs0 & He0 & Htw0 & Hlf0).
    rewrite Hs0 in Hs. rewrite He0 in He. rewrite Htw0 in Htw. rewrite Hlf0 in Hlf.
    destruct startWithGraftForm; cbn [negb].
    + destruct (logEl w1) as [| |[form|] entries] eqn:Elog.
      * cbv iota. rewrite ?Elog. repeat split; try assumption; try discriminate.
        apply doGraft_unarmed. left. exact Hs.
      * cbv iota. rewrite ?Elog. repeat split; try assumption; try discriminate.
        apply doGraft_unarmed. left. exact Hs.
      * pose proof (Hfresh form eq_refl) as ->.
        cbv iota. split; [reflexivity|]. split; [reflexivity|].
        split; [exact Htw|]. split; [exact Hlf|]. split; [exact Hs|]. split; [exact He|].
        split; [|apply doGraft_unarmed; left; exact Hs].
        intros _ form Hform. cbn in Hform |- *. unfold setHidden in Hform. cbn in Hform.
        congruence.
      * cbv iota. rewrite ?Elog. repeat split; try assumption; try discriminate.
        apply doGraft_unarmed. left. exact Hs.
    + repeat split; try assumption; try (intros _; exact Hfresh).
      apply doGraft_unarmed. left. exact Hs.
  - destruct p as [w opened]. unfold LeafViewApi.close, setOpenClass, inWorld,
      Eff.bind, Eff.modify. cbn.
    do 6 (split; [reflexivity|]).
    intros key. unfold LeafViewApi.onKeydown, isOpen, Eff.bind. cbn.
    rewrite andb_false_r. reflexivity.
Qed.

(** X19.  [render] of the origin-chaining revision never throws and does
    nothing at all when the leaf is not among the leaves of its twig (the
    view keeps what it showed).  Otherwise the meta line counts the events
    of the sprouts and the active sprouts; with no sprout the title is
    ["Untitled"] and the log the empty message; with sprouts whose
    creation dates are valid the title is that of a sprout no other sprout
    is newer than (["Untitled"] when that title is empty). *)
Theorem Origin_render_header (w : World) :
  let w' := snd (LeafViewOrigin.render w) in
  let ss := Offer.leafSprouts w in
  fst (LeafViewOrigin.render w) = Some tt
  /\ (fst (LeafView.getLeaf w) = Some None -> w' = w)
  /\ (forall lf,
        fst (LeafView.getLeaf w) = Some (Some lf) ->
        metaEl w' = (length (flat_map (Timeline.events ss) ss),
                     length (getActiveSprouts ss))
        /\ (ss = [] -> titleEl w' = "Untitled" /\ logEl w' = LogEmpty)
        /\ (ss <> [] ->
            Forall (fun s => dateValue (createdAt s) <> None) ss ->
            exists top,
              In top ss
              /\ titleEl w' = (if String.eqb (title top) "" then "Untitled" else title top)
              /\ forall s, In s ss ->
                   ES.keyOrder (fun s => dateValue (createdAt s)) top s)).
Proof.
  cbv zeta. destruct (Origin_render_explicit w) as [[Hnone Hrun]|(lf & Hsome & Hrun)].
  - rewrite Hrun. cbn [fst snd]. split; [reflexivity|]. split; [reflexivity|].
    intros lf Hlf. congruence.
  - cbv zeta in Hrun. rewrite Hrun. cbn [fst snd]. split; [reflexivity|].
    split; [congruence|]. intros _ _.
    cbn [metaEl titleEl logEl set_logEl set_header].
    split; [|split].
    + rewrite (Permutation_length (sort_Permutation LeafViewOrigin.byTimestampDesc _)).
      reflexivity.
    + intros ->. split; reflexivity.
    + intros Hss Hvalid.
      pose proof (sort_sorted (fun s => dateValue (createdAt s))
                    (Offer.leafSprouts w) Hvalid) as Hsorted.
      pose proof (sort_Permutation LeafViewOrigin.byCreatedAtDesc (Offer.leafSprouts w))
        as Hperm.
      change (ES.descBy (fun s => dateValue (createdAt s)))
        with LeafViewOrigin.byCreatedAtDesc in Hsorted.
      destruct (ES.sort LeafViewOrigin.byCreatedAtDesc (Offer.leafSprouts w))
        as [|top rest] eqn:Esort.
      { apply Permutation_nil in Hperm. congruence. }
      exists top. split; [|split].
      * eapply Permutation_in; [exact Hperm|]. left. reflexivity.
      * reflexivity.
      * intros s Hs. apply (Permutation_in _ (Permutation_sym Hperm)) in Hs.
        apply StronglySorted_inv in Hsorted as [_ Hall].
        destruct Hs as [<-|Hs].
        -- assert (Hin : In top (Offer.leafSprouts w))
             by (eapply Permutation_in; [exact Hperm|]; left; reflexivity).
           rewrite List.Forall_forall in Hvalid. specialize (Hvalid top Hin).
           destruct (dateValue (createdAt top)) as [k|] eqn:Ek; [|congruence].
           exists k, k. repeat split; try assumption; lia.
        -- rewrite List.Forall_forall in Hall. apply Hall, Hs.
Qed.

(** X20.  [open] of the origin-chaining revision never throws: the view is
    open on the given leaf and twig with no origin, season or environment
    selected, so [doGraft] right after does nothing; when the leaf is not
    among the leaves of the twig the log, the title and the meta line stay
    those of the view before.  [close] clears both ids; on a closed view
    [doGraft] and every key do nothing. *)
Theorem Origin_open_close (p : Panel) (leaf twigId : string) :
  let opened := snd (LeafViewOriginApi.open leaf twigId p) in
  let closed := snd (LeafViewOriginApi.close p) in
  (fst (LeafViewOriginApi.open leaf twigId p) = Some tt
   /\ isOpenClass opened = true
   /\ currentTwigId (world opened) = Some twigId
   /\ currentLeafId (world opened) = Some leaf
   /\ graftFromSproutId (world opened) = None
   /\ selectedSeason (world opened) = None
   /\ selectedEnvironment (world opened) = None
   /\ LeafViewOrigin.doGraft (world opened) = (Some tt, world opened)
   /\ (fst (LeafView.getLeaf (set_current (Some twigId) (Some leaf) (world p))) = Some None ->
       logEl (world opened) = logEl (world p)
       /\ titleEl (world opened) = titleEl (world p)
       /\ metaEl (world opened) = metaEl (world p)))
  /\ (fst (LeafViewOriginApi.close p) = Some tt
      /\ isOpenClass closed = false
      /\ currentTwigId (world closed) = None
      /\ currentLeafId (world closed) = None
      /\ LeafViewOrigin.doGraft (world closed) = (Some tt, world closed)
      /\ forall key, LeafViewOriginApi.onKeydown key closed = (Some tt, closed)).
Proof.
  cbv zeta. split.
  - set (w0 := set_selectedEnvironment None
                 (set_selectedSeason None
                    (set_graftFromSproutId None
                       (set_current (Some twigId) (Some leaf) (world p))))).
    destruct (Origin_render_frame w0)
      as (w1 & Hrender & _ & _ & _ & Hfrom & Hs & He & Htw & Hlf & _).
    assert (Hopen : LeafViewOriginApi.open leaf twigId p
                    = (Some tt, {| world := w1; isOpenClass := true |})).
    { unfold LeafViewOriginApi.open.
      assert (Hfirst : inWorld (Eff.modify (set_current (Some twigId) (Some leaf)) ;;
                                Eff.modify (set_graftFromSproutId None) ;;
                                Eff.modify (set_selectedSeason None) ;;
                                Eff.modify (set_selectedEnvironment None) ;;
                                LeafViewOrigin.render) p
                       = (Some tt, {| world := w1; isOpenClass := isOpenClass p |})).
      { apply inWorld_run. unfold Eff.bind, Eff.modify. exact Hrender. }
      rewrite (bind_run _ _ _ _ _ Hfirst). reflexivity. }
    rewrite Hopen. cbn [fst snd world isOpenClass].
    do 2 (split; [reflexivity|]).
    split; [exact Htw|]. split; [exact Hlf|]. split; [exact Hfrom|].
    split; [exact Hs|]. split; [exact He|].
    split; [apply Origin_doGraft_unarmed; left; exact Hfrom|].
    intros Hmissing.
    assert (Hleaf0 : fst (LeafView.getLeaf w0)
                     = fst (LeafView.getLeaf
                              (set_current (Some twigId) (Some leaf) (world p)))).
    { unfold LeafView.getLeaf, getLeafById, Eff.bind, Eff.get, Eff.ret. cbn.
      destruct (String.eqb twigId "" || String.eqb leaf ""); reflexivity. }
    destruct (Origin_render_explicit w0) as [[_ Hrun]|(lf & Hsome & _)].
    + rewrite Hrun in Hrender. injection Hrender as <-. repeat split.
    + rewrite Hleaf0 in Hsome. congruence.
  - destruct p as [w opened]. unfold LeafViewOriginApi.close, setOpenClass, inWorld,
      Eff.bind, Eff.modify. cbn.
    do 5 (split; [reflexivity|]).
    intros key. unfold LeafViewOriginApi.onKeydown, isOpen, Eff.bind. cbn.
    rewrite andb_false_r. reflexivity.
Qed.


End PanelFacts.

(** ** Relative dates *)
Section RelativeDates.
Import Types ESDate LeafViewApi.
Context {parser : DateParse}.

Lemma formatDateTime_days (debugNow t k : Z) (dateStr : string) :
  dateValue dateStr = Some t ->
  t + k * msPerDay <= debugNow < t + (k + 1) * msPerDay ->
  formatDateTime debugNow dateStr
  = if k =? 0 then LocaleTime t
    else if k =? 1 then Yesterday
    else if k <? 7 then DaysAgo k
    else LocaleDate (Some t).
Proof.
  intros Hd Hk. unfold formatDateTime. rewrite Hd. cbv zeta.
  change (1000 * 60 * 60 * 24) with msPerDay.
  assert (E : (debugNow - t) / msPerDay = k).
  { unfold msPerDay in *. Z.div_mod_to_equations. nia. }
  rewrite E. reflexivity.
Qed.

(** X21.  [formatDateTime] counts whole periods of 24 hours between the
    date and the clock, not calendar days: under 24 hours it gives the time
    of day, from 24 to under 48 hours ["yesterday"], then ["k days ago"]
    for k from 2 to 6, and from 7 days on the short date.  A date in the
    future, however near, is some k periods ahead and reads ["-k days
    ago"]; an invalid date falls through to the short date of the invalid
    date.  (Instants less than [2^26] days apart, where the quotient of
    doubles is exact.) *)
Theorem formatDateTime_buckets (debugNow : Z) (dateStr : string) :
  (dateValue dateStr = None -> formatDateTime debugNow dateStr = LocaleDate None)
  /\ (forall t,
        dateValue dateStr = Some t ->
        Z.abs (debugNow - t) < 2 ^ 26 * msPerDay ->
        (t <= debugNow < t + msPerDay ->
         formatDateTime debugNow dateStr = LocaleTime t)
        /\ (t + msPerDay <= debugNow < t + 2 * msPerDay ->
            formatDateTime debugNow dateStr = Yesterday)
        /\ (forall k, 2 <= k <= 6 ->
              t + k * msPerDay <= debugNow < t + (k + 1) * msPerDay ->
              formatDateTime debugNow dateStr = DaysAgo k)
        /\ (t + 7 * msPerDay <= debugNow ->
            formatDateTime debugNow dateStr = LocaleDate (Some t))
        /\ (forall k, 1 <= k ->
              t - k * msPerDay <= debugNow < t - (k - 1) * msPerDay ->
              formatDateTime debugNow dateStr = DaysAgo (- k))).
Proof.
  split.
  - intros H. unfold formatDateTime. rewrite H. reflexivity.
  - intros t Hd _. split; [|split; [|split; [|split]]].
    + intros H. rewrite (formatDateTime_days debugNow t 0 dateStr Hd) by lia. reflexivity.
    + intros H. rewrite (formatDateTime_days debugNow t 1 dateStr Hd) by lia. reflexivity.
    + intros k Hk H. rewrite (formatDateTime_days debugNow t k dateStr Hd) by lia.
      destruct (Z.eqb_spec k 0); [lia|]. destruct (Z.eqb_spec k 1); [lia|].
      destruct (Z.ltb_spec k 7); [reflexivity|lia].
    + intros H.
      rewrite (formatDateTime_days debugNow t ((debugNow - t) / msPerDay) dateStr Hd).
      * assert (7 <= (debugNow - t) / msPerDay)
          by (unfold msPerDay in *; Z.div_mod_to_equations; lia).
        destruct (Z.eqb_spec ((debugNow - t) / msPerDay) 0); [lia|].
        destruct (Z.eqb_spec ((debugNow - t) / msPerDay) 1); [lia|].
        destruct (Z.ltb_spec ((debugNow - t) / msPerDay) 7); [lia|reflexivity].
      * unfold msPerDay in *. Z.div_mod_to_equations. lia.
    + intros k Hk H. rewrite (formatDateTime_days debugNow t (- k) dateStr Hd) by lia.
      destruct (Z.eqb_spec (- k) 0); [lia|]. destruct (Z.eqb_spec (- k) 1); [lia|].
      destruct (Z.ltb_spec (- k) 7); [reflexivity|lia].
Qed.

End RelativeDates.

(** ** From the form to the graft, from the dialog to the reflection *)
Section FlowFacts.
Import Types View State ESDate LeafViewApi.
Context {tz : TimeZone} {parser : DateParse} {api : StateApi}.

(** One listener of the form: it may change the title or a selection and
    ends in [updateGraftFormState], which only asks [canAffordSoil]. *)
Lemma listener_run (w : World) (form : GraftForm) (entries : list EntryHtml)
    (title : string) (season : option SproutSeason) (env : option SproutEnvironment)
    (handler : M unit) :
  logEl w = LogEntries (Some form) entries ->
  (handler = LeafView.showGraftForm
   /\ title = titleValue form /\ season = selectedSeason w
   /\ env = selectedEnvironment w)
  \/ (handler = onTitleInput title
      /\ season = selectedSeason w /\ env = selectedEnvironment w)
  \/ (exists s, handler = onSeasonClick s /\ title = titleValue form
                /\ season = Some s /\ env = selectedEnvironment w)
  \/ (exists e, handler = onEnvClick e /\ title = titleValue form
                /\ season = selectedSeason w /\ env = Some e) ->
  exists form1 w1,
    handler w = (Some tt, w1)
    /\ logEl w1 = LogEntries (Some form1) entries
    /\ titleValue form1 = title
    /\ selectedSeason w1 = season /\ selectedEnvironment w1 = env
    /\ (currentTwigId w1 = currentTwigId w /\ currentLeafId w1 = currentLeafId w
        /\ soilAvailable w1 = soilAvailable w /\ nodeState w1 = nodeState w
        /\ now w1 = now w)
    /\ exists asked, calls w1 = calls w ++ asked
                     /\ forall c, In c asked -> exists cost ok, c = CanAffordSoil cost ok.
Proof.
  intros Hlog Hcase.
  assert (Hstep : exists w0 form0,
             handler w = LeafView.updateGraftFormState w0
             /\ logEl w0 = LogEntries (Some form0) entries
             /\ titleValue form0 = title
             /\ selectedSeason w0 = season /\ selectedEnvironment w0 = env
             /\ currentTwigId w0 = currentTwigId w /\ currentLeafId w0 = currentLeafId w
             /\ soilAvailable w0 = soilAvailable w /\ nodeState w0 = nodeState w
             /\ now w0 = now w /\ calls w0 = calls w).
  { destruct w as [h ns soil t tw lf from ss ee log tEl mEl cs].
    cbn in Hlog. subst log. cbn [selectedSeason selectedEnvironment] in Hcase.
    destruct Hcase as [(-> & -> & -> & ->)|[(-> & -> & ->)
                      |[(s & -> & -> & -> & ->)|(e & -> & -> & -> & ->)]]];
      eexists _, _; (split; [reflexivity|]); repeat split. }
  destruct Hstep as (w0 & form0 & -> & Hlog0 & <- & <- & <- & <- & <- & <- & <- & <- & <-).
  destruct (updateGraftFormState_run w0 form0 entries Hlog0)
    as (form1 & w1 & Hrun & Hlog1 & (Ht & _) & _
        & (Hc1 & Hc2 & Hs1 & He1 & Hsoil1 & Hns1 & Hnow1) & Hasked).
  exists form1, w1. split; [exact Hrun|]. split; [exact Hlog1|].
  split; [exact Ht|]. split; [exact Hs1|]. split; [exact He1|].
  split; [repeat split; assumption|]. exact Hasked.
Qed.

Lemma all_asked_app (xs ys : list Call) :
  (forall c, In c xs -> exists cost ok, c = CanAffordSoil cost ok) ->
  (forall c, In c ys -> exists cost ok, c = CanAffordSoil cost ok) ->
  forall c, In c (xs ++ ys) -> exists cost ok, c = CanAffordSoil cost ok.
Proof. intros Hx Hy c Hc. apply in_app_or in Hc as [H|H]; auto. Qed.


End FlowFacts.

Section ReflectFlow.
Import Types ShineDialog.
Context {week : WeekPolicy}.

(** X25.  Opening the dialog on a twig not reflected on this week, typing
    a text that is not blank and saving, with sun to spend and a prompt
    pool that is not empty, records one reflection on the twig: the trimmed
    text, stamped with the clock time, under the prompt the dialog showed,
    which is a prompt of the pool (and, in a pool without repeats, not one
    of the recent ones).  One sun is spent, the meter shows the new
    balance and the dialog is closed. *)
Theorem reflect_flow (pool : list string) (sprout : ShineSprout) (v : string) (w : World) :
  shoneThisWeek w (shine_twigId sprout) = false ->
  1 <= sunAvailable w ->
  pool <> [] ->
  Z.of_nat (length (recentSunPrompts w)) <= RECENT_SUN_PROMPT_LIMIT pool ->
  ES.trim v <> "" ->
  let flow := (openShineDialog pool sprout ;; ShineDialogEvents.onJournalInput v ;;
               saveSunEntry) in
  let w' := snd (flow w) in
  let twigId := shine_twigId sprout in
  fst (flow w) = Some tt
  /\ exists p,
       In p pool
       /\ (NoDup pool -> ~ In (Some p) (recentSunPrompts w))
       /\ sunAvailable w' = sunAvailable w - 1
       /\ Rotation.reflections w' twigId
          = Rotation.reflections w twigId
            ++ [ {| sun_timestamp := ESDate.formatISO (now w);
                    sun_content := ES.trim v; sun_prompt := Some p |} ]
       /\ calls w'
          = calls w ++ [ WasShoneThisWeek twigId false; CanAffordSun true;
                         CanAffordSun true; SpendSun true;
                         AddSunEntry twigId (ES.trim v) p;
                         OnSetStatus "Light radiated on this life facet!" info ]
       /\ shineDialogHidden (elements w') = true
       /\ shineDialogJournal (elements w') = ""
       /\ currentShiningSprout w' = None
       /\ sunMeterValue (elements w') = (sunAvailable w - 1, sunCapacity w).
Proof.
  intros Hgate Hsun Hpool Hlen Hv. cbv zeta.
  destruct (openShineDialog_opens pool sprout w Hgate Hsun)
    as (prompt & rs & recent & Hopen & _ & Hprompt).
  destruct (Hprompt Hpool Hlen) as (p & -> & Hin & Hfresh & _).
  rewrite (bind_run _ _ _ _ _ Hopen).
  apply String.eqb_neq in Hv.
  assert (Hle : (1 <=? sunAvailable w) = true) by (apply Z.leb_le; exact Hsun).
  assert (Hgt : (1 >? sunAvailable w) = false) by (apply gtb_of_leb; exact Hle).
  destruct w as [ns sun cap t rs0 recent0 cur els cs]. cbn in Hle, Hgt. cbn [fst snd].
  unfold ShineDialogEvents.onJournalInput, updateRadiateButtonState,
    saveSunEntry, canAffordSun, spendSun, updateSunMeter, addSunEntry,
    closeShineDialog, onSetStatus, element, getSunAvailable, getSunCapacity,
    logCall, Eff.bind, Eff.get, Eff.modify, Eff.ret.
  cbn -[ES.trim]. rewrite Hv. cbn -[ES.trim]. rewrite Hle. cbn -[ES.trim].
  rewrite Hgt. cbn -[ES.trim].
  split; [reflexivity|]. exists p. split; [exact Hin|]. split; [exact Hfresh|].
  split; [reflexivity|]. split.
  - unfold Rotation.reflections. cbn -[ES.trim]. rewrite lookup_insert_eq.
    destruct (ns !! shine_twigId sprout); reflexivity.
  - split; [rewrite <- !app_assoc; reflexivity|]. repeat split.
Qed.

End ReflectFlow.

Section CompletionLabel.
Import Types View State.
Context {parser : DateParse}.


End CompletionLabel.

(** ** Where a graft is permitted: render, events, commit *)
Section PermitFacts.
Import Types View State.
Context {tz : ESDate.TimeZone} {parser : DateParse} {api : StateApi}.

(** [render] of [leaf-view.ts] keeps the sprouts of the leaf on view. *)
Lemma LeafView_render_leafSprouts (w : World) :
  Offer.leafSprouts (snd (LeafView.render w)) = Offer.leafSprouts w.
Proof.
  destruct (LeafView_render_run w) as (w2 & Hrun & Hheal). cbv zeta in Hrun.
  rewrite Hrun. cbn [snd].
  destruct Hheal as [[-> _]|(_ & _ & twig & leaf & data & Htwig & Hleaf & Hdata & ->)].
  - reflexivity.
  - unfold Offer.leafSprouts.
    cbn [currentTwigId currentLeafId nodeState set_logEl set_heap set_calls set_nodeState].
    rewrite Htwig, Hleaf. destruct (String.eqb twig "" || String.eqb leaf ""); [reflexivity|].
    rewrite lookup_insert_eq, Hdata. reflexivity.
Qed.

(** A listener of the form changes the form and the selection only: the
    sprouts, the ids on view and the presence of the graft section stay,
    and it commits no graft. *)
Lemma LeafView_handle_frame (ev : LeafViewEvents.Event) (w : World) :
  let w1 := snd (LeafViewEvents.handle ev w) in
  nodeState w1 = nodeState w
  /\ currentTwigId w1 = currentTwigId w /\ currentLeafId w1 = currentLeafId w
  /\ (LeafView.graftSection (logEl w1) = None <-> LeafView.graftSection (logEl w) = None).
Proof.
  cbv zeta. destruct w as [h ns soil t twig leaf from season env log tEl mEl cs].
  destruct ev; unfold LeafViewEvents.handle, LeafView.showGraftForm,
    LeafViewApi.onSeasonClick, LeafViewApi.onEnvClick, LeafViewApi.onTitleInput,
    LeafView.hideGraftForm, LeafViewApi.onBackClick, LeafView.updateGraftFormState,
    LeafView.setGraftSection, getSoilAvailable, canAffordSoil, logCall,
    Eff.bind, Eff.get, Eff.modify, Eff.ret;
    destruct log as [| |[form|] entries]; cbn;
    try (destruct season; destruct env; cbn);
    (split; [reflexivity|]); (split; [reflexivity|]); (split; [reflexivity|]);
    split; congruence.
Qed.

Lemma LeafView_after_frame (evs : list LeafViewEvents.Event) (w : World) :
  let w1 := LeafViewEvents.after evs w in
  nodeState w1 = nodeState w
  /\ currentTwigId w1 = currentTwigId w /\ currentLeafId w1 = currentLeafId w
  /\ (LeafView.graftSection (logEl w1) = None <-> LeafView.graftSection (logEl w) = None).
Proof.
  cbv zeta. revert w. induction evs as [|ev evs IH]; intros w.
  - cbn. tauto.
  - cbn [LeafViewEvents.after].
    destruct (IH (snd (LeafViewEvents.handle ev w))) as (Hn & Ht & Hl & Hg).
    destruct (LeafView_handle_frame ev w) as (Hn' & Ht' & Hl' & Hg').
    cbv zeta in Hn', Ht', Hl', Hg'.
    rewrite Hn, Ht, Hl, Hn', Ht', Hl'. repeat split; tauto.
Qed.

Lemma leafSprouts_same (w w' : World) :
  nodeState w' = nodeState w -> currentTwigId w' = currentTwigId w ->
  currentLeafId w' = currentLeafId w ->
  Offer.leafSprouts w' = Offer.leafSprouts w.
Proof. intros Hn Ht Hl. unfold Offer.leafSprouts. rewrite Hn, Ht, Hl. reflexivity. Qed.

(** The first graft after a render of [leaf-view.ts] finds no active sprout
    on the leaf. *)
Lemma LeafView_first_graft (w : World) (evs : list LeafViewEvents.Event)
    (twigId leaf : string) (input : SproutInput) :
  let w1 := LeafViewEvents.after evs (snd (LeafView.render w)) in
  In (GraftFromLeaf twigId leaf input) (Trace.added w1 (snd (LeafView.doGraft w1))) ->
  currentTwigId w = Some twigId /\ currentLeafId w = Some leaf
  /\ Offer.leafSprouts w1 = Offer.leafSprouts w
  /\ Forall (fun s => state s <> active) (Offer.leafSprouts w1).
Proof.
  cbv zeta. set (w0 := snd (LeafView.render w)).
  destruct (LeafView_after_frame evs w0) as (Hn & Ht & Hl & Hg). cbv zeta in Hn, Ht, Hl, Hg.
  set (w1 := LeafViewEvents.after evs w0) in *.
  destruct (LeafView_render_frame w) as (w' & Hrun & (_ & _ & Ht0 & Hl0 & _) & _).
  assert (Hw0 : w0 = w') by (unfold w0; rewrite Hrun; reflexivity).
  assert (Hss : Offer.leafSprouts w1 = Offer.leafSprouts w).
  { rewrite (leafSprouts_same w0 w1 Hn Ht Hl). apply LeafView_render_leafSprouts. }
  intros Hin.
  destruct (LeafView_doGraft_section w1) as (added & Hcalls & Hsec).
  rewrite (added_app _ _ _ Hcalls) in Hin.
  destruct (Hsec twigId leaf) as ([form Hform] & Htw & Hlf).
  { unfold Offer.leafGrafts. apply in_flat_map. eexists. split; [exact Hin|]. left. reflexivity. }
  split; [rewrite <- Ht0, <- Hw0, <- Ht; exact Htw|].
  split; [rewrite <- Hl0, <- Hw0, <- Hl; exact Hlf|].
  split; [exact Hss|]. rewrite Hss.
  apply LeafView_render_offer.
  fold w0. destruct (LeafView.graftSection (logEl w0)) as [form0|] eqn:E0.
  - exists form0. exact E0.
  - rewrite (proj2 Hg eq_refl) in Hform. discriminate Hform.
Qed.

(** A listener of the origin-chaining revision changes the form, the
    selection and the origin only; an origin it names is the one of a
    graft button of the log on display. *)
Lemma Origin_handle_frame (ev : LeafViewOriginEvents.Event) (w : World) :
  let w1 := snd (LeafViewOriginEvents.handle ev w) in
  nodeState w1 = nodeState w
  /\ currentTwigId w1 = currentTwigId w /\ currentLeafId w1 = currentLeafId w
  /\ (forall n, LeafViewOriginEvents.entryAt n (logEl w1)
                = LeafViewOriginEvents.entryAt n (logEl w))
  /\ (graftFromSproutId w1 = graftFromSproutId w
      \/ graftFromSproutId w1 = None
      \/ exists n btn,
           LeafViewOriginEvents.entryAt n (logEl w) = Some btn
           /\ html_graftBtn btn = graftFromSproutId w1).
Proof.
  cbv zeta. destruct w as [h ns soil t twig leaf from season env log tEl mEl cs].
  destruct ev as [n|s|e|v| |].
  - unfold LeafViewOriginEvents.handle, Eff.bind, Eff.get. cbn [logEl].
    destruct (LeafViewOriginEvents.entryAt n log) as [btn|] eqn:En;
      [|cbn; repeat split; auto].
    unfold LeafViewOrigin.clickGraftBtn.
    destruct (html_graftBtn btn) as [o|] eqn:Eb; [|cbn; repeat split; auto].
    destruct (String.eqb o ""); [cbn; repeat split; auto|].
    unfold LeafViewOrigin.updateGraftFormState, LeafView.setGraftSection,
      getSoilAvailable, canAffordSoil, logCall, Eff.bind, Eff.get,
      Eff.modify, Eff.ret, Eff.throw.
    destruct log as [| |[form|] entries]; cbn in En |- *; try discriminate En;
      try (destruct season; destruct env; cbn);
      (split; [reflexivity|]); (split; [reflexivity|]); (split; [reflexivity|]);
      (split; [reflexivity|]); right; right; exists n, btn; (split; [exact En|exact Eb]).
  - unfold LeafViewOriginEvents.handle, LeafViewOriginEvents.onSeasonClick,
      LeafViewOrigin.updateGraftFormState, LeafView.setGraftSection,
      getSoilAvailable, canAffordSoil, logCall, Eff.bind, Eff.get, Eff.modify, Eff.ret.
    destruct log as [| |[form|] entries]; cbn; try (destruct env; cbn);
      repeat split; auto.
  - unfold LeafViewOriginEvents.handle, LeafViewOriginEvents.onEnvClick,
      LeafViewOrigin.updateGraftFormState, LeafView.setGraftSection,
      getSoilAvailable, canAffordSoil, logCall, Eff.bind, Eff.get, Eff.modify, Eff.ret.
    destruct log as [| |[form|] entries]; cbn; try (destruct season; cbn);
      repeat split; auto.
  - unfold LeafViewOriginEvents.handle, LeafViewOriginEvents.onTitleInput,
      LeafViewOrigin.updateGraftFormState, LeafView.setGraftSection,
      getSoilAvailable, canAffordSoil, logCall, Eff.bind, Eff.get, Eff.modify, Eff.ret.
    destruct log as [| |[form|] entries]; cbn; try (destruct season; destruct env; cbn);
      repeat split; auto.
  - unfold LeafViewOriginEvents.handle, LeafViewOrigin.hideGraftForm,
      LeafView.setGraftSection, Eff.bind, Eff.get, Eff.modify, Eff.ret.
    destruct log as [| |[form|] entries]; cbn; repeat split; auto.
  - unfold LeafViewOriginEvents.handle, logCall, Eff.modify. cbn. repeat split; auto.
Qed.

Lemma Origin_after_frame (evs : list LeafViewOriginEvents.Event) (w : World) :
  let w1 := LeafViewOriginEvents.after evs w in
  nodeState w1 = nodeState w
  /\ currentTwigId w1 = currentTwigId w /\ currentLeafId w1 = currentLeafId w
  /\ (forall n, LeafViewOriginEvents.entryAt n (logEl w1)
                = LeafViewOriginEvents.entryAt n (logEl w))
  /\ (graftFromSproutId w1 = graftFromSproutId w
      \/ graftFromSproutId w1 = None
      \/ exists n btn,
           LeafViewOriginEvents.entryAt n (logEl w) = Some btn
           /\ html_graftBtn btn = graftFromSproutId w1).
Proof.
  cbv zeta. revert w. induction evs as [|ev evs IH]; intros w.
  - cbn. repeat split; auto.
  - cbn [LeafViewOriginEvents.after].
    destruct (IH (snd (LeafViewOriginEvents.handle ev w))) as (Hn & Ht & Hl & He & Hf).
    destruct (Origin_handle_frame ev w) as (Hn' & Ht' & Hl' & He' & Hf').
    cbv zeta in Hn', Ht', Hl', He', Hf'.
    rewrite Hn, Ht, Hl, Hn', Ht', Hl'.
    split; [reflexivity|]. split; [reflexivity|]. split; [reflexivity|].
    split; [intros n; rewrite He; apply He'|].
    destruct Hf as [Hf|[Hf|(n & btn & Hat & Hb)]].
    + rewrite Hf. exact Hf'.
    + right. left. exact Hf.
    + right. right. exists n, btn. split; [rewrite <- He'; exact Hat|exact Hb].
Qed.

Lemma entryAt_button (l : LogHtml) (n : nat) (btn : EntryHtml) (origin : string) :
  LeafViewOriginEvents.entryAt n l = Some btn ->
  html_graftBtn btn = Some origin ->
  In origin (Offer.graftButtons l).
Proof.
  destruct l as [| |g entries]; try discriminate. cbn [LeafViewOriginEvents.entryAt].
  intros Hat Hb. unfold Offer.graftButtons. apply in_flat_map. exists btn. split.
  - apply list_elem_of_In. exact (list_elem_of_lookup_2 _ _ _ Hat).
  - rewrite Hb. left. reflexivity.
Qed.

(** With the leaf found, every graft button [render] of the origin-chaining
    revision puts into the log names a completed sprout of the leaf. *)
Lemma Origin_render_buttons (w : World) (lf : Leaf) :
  fst (LeafView.getLeaf w) = Some (Some lf) ->
  Forall (Offer.completedOnLeaf w)
         (Offer.graftButtons (logEl (snd (LeafViewOrigin.render w)))).
Proof.
  intros Hlf. destruct (Origin_render_explicit w) as [[Hnone _]|(lf' & _ & Hrun)];
    [congruence|].
  cbv zeta in Hrun. rewrite Hrun. cbn [snd logEl set_logEl].
  pose proof (sort_Permutation LeafViewOrigin.byTimestampDesc
                (flat_map (Timeline.events (Offer.leafSprouts w)) (Offer.leafSprouts w)))
    as HP.
  destruct (ES.sort _ _) as [|e0 es] eqn:Es; [constructor|].
  apply List.Forall_forall. intros origin Hin.
  apply (Origin_buttons_completed _ _ HP origin Hin).
Qed.

(** The first graft after a render of the origin-chaining revision (which
    the code calls with no origin named) is chained from a completed
    sprout of the leaf. *)
Lemma Origin_first_graft (w : World) (evs : list LeafViewOriginEvents.Event)
    (lf : Leaf) (twigId origin : string) (input : SproutInput) :
  graftFromSproutId w = None ->
  fst (LeafView.getLeaf w) = Some (Some lf) ->
  let w1 := LeafViewOriginEvents.after evs (snd (LeafViewOrigin.render w)) in
  In (GraftSprout twigId origin input) (Trace.added w1 (snd (LeafViewOrigin.doGraft w1))) ->
  currentTwigId w = Some twigId
  /\ Offer.leafSprouts w1 = Offer.leafSprouts w
  /\ Offer.completedOnLeaf w1 origin.
Proof.
  intros Hfrom Hlf. cbv zeta. set (w0 := snd (LeafViewOrigin.render w)).
  destruct (Origin_after_frame evs w0) as (Hn & Ht & Hl & He & Hf).
  cbv zeta in Hn, Ht, Hl, He, Hf.
  set (w1 := LeafViewOriginEvents.after evs w0) in *.
  destruct (Origin_render_frame w)
    as (w' & Hrun & _ & _ & Hn0 & Hf0 & _ & _ & Ht0 & Hl0 & _).
  assert (Hw0 : w0 = w') by (unfold w0; rewrite Hrun; reflexivity).
  assert (Hss : Offer.leafSprouts w1 = Offer.leafSprouts w).
  { rewrite (leafSprouts_same w0 w1 Hn Ht Hl). rewrite Hw0.
    apply leafSprouts_same; assumption. }
  intros Hin.
  destruct (Origin_doGraft_origin w1) as (added & Hcalls & Horigin).
  rewrite (added_app _ _ _ Hcalls) in Hin.
  destruct (Horigin twigId origin) as (Htw & Hor).
  { unfold Offer.sproutGrafts. apply in_flat_map. eexists. split; [exact Hin|]. left. reflexivity. }
  split; [rewrite <- Ht0, <- Hw0, <- Ht; exact Htw|]. split; [exact Hss|].
  assert (Hbtn : In origin (Offer.graftButtons (logEl w0))).
  { destruct Hf as [Hf|[Hf|(n & btn & Hat & Hb)]].
    - rewrite Hw0, Hf0, Hfrom in Hf. congruence.
    - congruence.
    - apply (entryAt_button _ n btn); [exact Hat|]. rewrite Hb. exact Hor. }
  pose proof (Origin_render_buttons w lf Hlf) as Hall.
  rewrite List.Forall_forall in Hall. specialize (Hall origin Hbtn).
  unfold Offer.completedOnLeaf in *. rewrite Hss. exact Hall.
Qed.


End PermitFacts.



(** ** The further properties on the scenes of [Demo] and [Scenes] *)

Lemma getRandomSunPrompt_fresh_witness :
  exists p w',
    ShineDialog.getRandomSunPrompt Demo.prompts
      (ShineDialog.set_recentSunPrompts [Some "What mattered most this week?"]
         (Demo.shineWorld 3))
    = (Some (Some p), w')
    /\ In p Demo.prompts
    /\ p <> "What mattered most this week?".
Proof.
  destruct (getRandomSunPrompt_fresh Demo.prompts
              (ShineDialog.set_recentSunPrompts [Some "What mattered most this week?"]
                 (Demo.shineWorld 3)))
    as (p & w' & Hrun & Hin & Hnew & _).
  - apply (bool_decide_unpack _). vm_compute. exact I.
  - vm_compute. discriminate.
  - vm_compute. discriminate.
  - exists p, w'. split; [exact Hrun|]. split; [exact Hin|].
    intros ->. apply Hnew. left. reflexivity.
Defined.

Lemma openShineDialog_empty_pool_witness :
  ShineDialog.journalPlaceholder
    (ShineDialog.elements
       (snd (@ShineDialog.openShineDialog Demo.mondayWeek [] Scenes.untitled
               (Demo.shineWorld 3))))
  = "undefined".
Proof.
  destruct (@openShineDialog_empty_pool Demo.mondayWeek Scenes.untitled (Demo.shineWorld 3))
    as (_ & _ & _ & H).
  - vm_compute. reflexivity.
  - vm_compute. discriminate.
  - exact H.
Defined.

Lemma openShineDialog_shows_iff_witness :
  let w' := snd (@ShineDialog.openShineDialog Demo.mondayWeek Demo.prompts Scenes.untitled
                   (Demo.shineWorld 3)) in
  ShineDialog.shineDialogHidden (ShineDialog.elements w') = false
  /\ ShineDialog.shineDialogTitle (ShineDialog.elements w') = "Untitled Sprout"
  /\ ShineDialog.shineDialogSaveDisabled (ShineDialog.elements w') = true.
Proof.
  destruct (@openShineDialog_shows_iff Demo.mondayWeek Demo.prompts Scenes.untitled
              (Demo.shineWorld 3)) as (Hiff & Hshown & _).
  - reflexivity.
  - assert (Hvisible : ShineDialog.shineDialogHidden
                         (ShineDialog.elements
                            (snd (@ShineDialog.openShineDialog Demo.mondayWeek Demo.prompts
                                    Scenes.untitled (Demo.shineWorld 3)))) = false).
    { apply Hiff. split; [vm_compute; reflexivity|vm_compute; discriminate]. }
    destruct (Hshown Hvisible) as (_ & Htitle & _ & _ & Hsave & _).
    split; [exact Hvisible|]. split; [exact Htitle|exact Hsave].
Defined.

Lemma saveSunEntry_closes_witness :
  let w' := snd (ShineDialog.saveSunEntry (Demo.journalling 0)) in
  ShineDialog.shineDialogHidden (ShineDialog.elements w') = true
  /\ ShineDialog.sunAvailable w' = 0
  /\ ShineDialog.calls w'
     = [ ShineDialog.CanAffordSun false;
         ShineDialog.OnSetStatus "No sun left this week!" ShineDialog.warning ].
Proof.
  destruct (saveSunEntry_closes (Demo.journalling 0))
    as (_ & (Hhidden & _) & Hsun & _ & Hnone & _).
  - vm_compute. discriminate.
  - split; [exact Hhidden|]. split; [exact Hsun|].
    apply Hnone. vm_compute. reflexivity.
Defined.

Lemma dismissal_discards_witness :
  let typed := snd (ShineDialogEvents.onJournalInput "a draft" (Demo.journalling 2)) in
  let w' := snd (ShineDialogEvents.onKeydown "Escape" typed) in
  ShineDialog.shineDialogSaveDisabled (ShineDialog.elements typed) = false
  /\ ShineDialog.shineDialogJournal (ShineDialog.elements w') = ""
  /\ ShineDialog.sunAvailable w' = 2
  /\ ShineDialog.saveSunEntry w' = (Some tt, w').
Proof.
  destruct (dismissal_discards "a draft" (Demo.journalling 2)
              (ShineDialogEvents.onKeydown "Escape"))
    as (_ & _ & Hjournal & _ & Hsun & _ & _ & Hsave).
  - reflexivity.
  - right. right. left. reflexivity.
  - split; [reflexivity|]. split; [exact Hjournal|]. split; [exact Hsun|exact Hsave].
Defined.

Lemma buildUnifiedLog_stable_witness :
  exists out,
    View.returnsLog (@LeafView.buildUnifiedLog Demo.isoParser 0%nat)
                    (Demo.worldWith [Demo.first; Demo.successor]) out
    /\ forall k,
         List.filter (fun e => bool_decide (@dateValue Demo.isoParser (Types.timestamp e)
                                            = Some k)) out
         = List.filter (fun e => bool_decide (@dateValue Demo.isoParser (Types.timestamp e)
                                              = Some k))
             (flat_map (Timeline.eventsWithShining [Demo.first; Demo.successor])
                       [Demo.first; Demo.successor]).
Proof.
  destruct (@buildUnifiedLog_stable Demo.isoParser
              (Demo.worldWith [Demo.first; Demo.successor]) 0%nat
              [Demo.first; Demo.successor]) as [H _].
  - reflexivity.
  - unfold Timeline.validDates. simpl. repeat constructor; vm_compute; discriminate.
  - exact H.
Defined.

Lemma render_heals_missing_leaf_witness :
  let w' := snd (@LeafView.render Demo.isoParser Scenes.leafless) in
  fst (LeafView.getLeaf Scenes.leafless) = Some None
  /\ fst (LeafView.getLeaf w')
     = Some (Some {| Types.leaf_id := "leaf-1"; Types.leaf_status := "active";
                     Types.leaf_createdAt := "2024-03-01T12:00:00.000Z" |})
  /\ View.calls w' = [View.SaveState].
Proof.
  destruct (@render_heals_missing_leaf Demo.isoParser Scenes.leafless)
    as (twig & leaf & Htwig & Hleaf & Hfound & Hcalls & _).
  - vm_compute. discriminate.
  - vm_compute. reflexivity.
  - injection Hleaf as <-.
    split; [vm_compute; reflexivity|]. split; [exact Hfound|exact Hcalls].
Defined.

Lemma confirm_button_agrees_witness :
  let w1 := snd (@LeafViewApi.onTitleInput Demo.api "   " (Demo.graftReady 5)) in
  exists form1,
    LeafView.graftSection (View.logEl w1) = Some form1
    /\ View.confirmDisabled form1 = true
    /\ ~ exists cost,
           In (View.SpendSoil cost true)
              (Trace.added w1 (snd (@LeafView.doGraft Demo.utcZone Demo.api w1))).
Proof.
  destruct (@confirm_button_agrees Demo.utcZone Demo.api (Demo.graftReady 5)
              (@LeafViewApi.onTitleInput Demo.api "   ") "twig-1" "leaf-1"
              Types.S1w Types.fertile "   ")
    as (_ & form1 & Hform & _ & Hiff).
  - reflexivity.
  - reflexivity.
  - reflexivity.
  - eexists. reflexivity.
  - do 4 right. left. reflexivity.
  - exists form1. split; [exact Hform|].
    assert (Hdis : View.confirmDisabled form1 = true).
    { vm_compute in Hform. injection Hform as <-. reflexivity. }
    split; [exact Hdis|].
    intros Hspend. apply Hiff in Hspend. congruence.
Defined.

Lemma getEndDate_increasing_witness :
  exists e1w e1y,
    @LeafView.getEndDate Demo.tokyoZone Types.S1w (Some 1706731200000) = Some e1w
    /\ @LeafView.getEndDate Demo.tokyoZone Types.S1y (Some 1706731200000) = Some e1y
    /\ 1706731200000 < e1w /\ e1w < e1y.
Proof.
  destruct (@getEndDate_increasing Demo.tokyoZone 1706731200000)
    as (e1w & e2w & e1m & e3m & e6m & e1y & H1 & _ & _ & _ & _ & H6 & Hs & Ha & Hb & Hc
        & Hd & He).
  - intros u b. vm_compute. discriminate.
  - vm_compute. discriminate.
  - exists e1w, e1y. split; [exact H1|]. split; [exact H6|].
    unfold ESDate.msPerDay in Hs. split; lia.
Defined.



Lemma reflect_flow_witness :
  let w' := snd ((@ShineDialog.openShineDialog Demo.mondayWeek Demo.prompts Scenes.untitled ;;
                  ShineDialogEvents.onJournalInput " a good week " ;;
                  ShineDialog.saveSunEntry) (Demo.shineWorld 3)) in
  ShineDialog.sunAvailable w' = 2
  /\ ShineDialog.shineDialogHidden (ShineDialog.elements w') = true
  /\ exists p,
       In p Demo.prompts
       /\ Rotation.reflections w' "twig-2"
          = [ {| Types.sun_timestamp := "2024-03-01T12:00:00.000Z";
                 Types.sun_content := "a good week"; Types.sun_prompt := Some p |} ].
Proof.
  destruct (@reflect_flow Demo.mondayWeek Demo.prompts Scenes.untitled " a good week "
              (Demo.shineWorld 3))
    as (_ & p & Hin & _ & Hsun & Hrefl & _ & Hhidden & _).
  - vm_compute. reflexivity.
  - vm_compute. discriminate.
  - vm_compute. discriminate.
  - vm_compute. discriminate.
  - vm_compute. discriminate.
  - split; [exact Hsun|]. split; [exact Hhidden|].
    exists p. split; [exact Hin|exact Hrefl].
Defined.


Lemma sunPrompts_clean_witness :
  ShineDialog.sunPrompts Demo.promptFile
  = [ "What mattered most this week?"; "Where did your energy go?";
      "What will you let go of?" ]
  /\ ShineDialog.sunPrompts
       (Prompts.lines (ShineDialog.sunPrompts Demo.promptFile))
     = ShineDialog.sunPrompts Demo.promptFile.
Proof.
  split; [vm_compute; reflexivity|].
  destruct sunPrompts_clean as (Hclean & _ & _ & Hback).
  apply Hback. apply List.Forall_forall. intros p Hp.
  exact (Hclean Demo.promptFile p Hp).
Defined.


Lemma doGraft_once_witness :
  let w' := snd (@LeafView.doGraft Demo.utcZone Demo.api (Demo.graftReady 5)) in
  View.soilAvailable w' = 4
  /\ @LeafView.doGraft Demo.utcZone Demo.api w' = (Some tt, w').
Proof.
  split; [vm_compute; reflexivity|].
  apply (proj1 (@doGraft_once Demo.utcZone Demo.isoParser Demo.api (Demo.graftReady 5))
           "twig-1" "leaf-1"
           {| View.in_title := "Run 10k"; View.in_season := Types.S1w;
              View.in_environment := Types.fertile; View.in_state := Types.active;
              View.in_soilCost := 1;
              View.in_activatedAt := "2024-03-01T12:00:00.000Z";
              View.in_endDate := "2024-03-08T15:00:00.000Z" |}).
  vm_compute. do 3 right. left. reflexivity.
Defined.


Lemma onKeydown_escape_witness :
  let p1 := snd (LeafViewApi.onKeydown "Escape" Scenes.openPanel) in
  (exists form, LeafView.graftSection (View.logEl (LeafViewApi.world p1)) = Some form
                /\ View.formHidden form = true /\ View.titleValue form = "  Run 10k ")
  /\ View.calls (LeafViewApi.world p1) = []
  /\ View.selectedSeason (LeafViewApi.world p1) = Some Types.S1w
  /\ Trace.added (LeafViewApi.world p1)
       (LeafViewApi.world (snd (LeafViewApi.onKeydown "Escape" p1)))
     = [View.OnClose].
Proof.
  destruct (onKeydown_escape Scenes.openPanel) as (_ & Hshown & _).
  destruct (Hshown eq_refl Demo.filledForm eq_refl eq_refl)
    as (Hform & Hcalls & Hseason & _ & _ & Hsecond).
  split; [eexists; split; [exact Hform|split; reflexivity]|].
  split; [exact Hcalls|]. split; [exact Hseason|exact Hsecond].
Defined.

Lemma open_resets_close_disarms_witness :
  let opened := snd (@LeafViewApi.open Demo.isoParser "leaf-1" "twig-1" true
                       Scenes.openPanel) in
  Markup.inert
    (Offer.leafSprouts
       (LeafViewApi.set_current (Some "twig-1") (Some "leaf-1")
          (LeafViewApi.world Scenes.openPanel)))
  /\ View.selectedSeason (LeafViewApi.world Scenes.openPanel) = Some Types.S1w
  /\ View.selectedSeason (LeafViewApi.world opened) = None
  /\ LeafView.graftSection (View.logEl (LeafViewApi.world opened))
     = Some {| View.formHidden := false; View.triggerHidden := true;
               View.titleValue := ""; View.seasonBtnSelected := None;
               View.envBtnSelected := None; View.soilCostText := None;
               View.soilCostWarning := false; View.confirmDisabled := true |}
  /\ @LeafView.doGraft Demo.utcZone Demo.api (LeafViewApi.world opened)
     = (Some tt, LeafViewApi.world opened).
Proof.
  assert (Hinert : Markup.inert
                     (Offer.leafSprouts
                        (LeafViewApi.set_current (Some "twig-1") (Some "leaf-1")
                           (LeafViewApi.world Scenes.openPanel)))).
  { unfold Markup.inert. vm_compute. repeat constructor. }
  destruct (@open_resets_close_disarms Demo.utcZone Demo.isoParser Demo.api
              Scenes.openPanel "leaf-1" "twig-1" true)
    as ((_ & _ & _ & _ & Hseason & _ & Hfresh & Hidle) & _).
  split; [exact Hinert|].
  split; [reflexivity|]. split; [exact Hseason|]. split; [|exact Hidle].
  destruct (LeafView.graftSection
              (View.logEl (LeafViewApi.world
                 (snd (@LeafViewApi.open Demo.isoParser "leaf-1" "twig-1" true
                         Scenes.openPanel))))) as [form|] eqn:E.
  - rewrite (Hfresh Hinert form eq_refl). reflexivity.
  - vm_compute in E. discriminate E.
Defined.

Lemma Origin_render_header_witness :
  let w' := snd (@LeafViewOrigin.render Demo.isoParser
                   (Demo.worldWith [Demo.first; Demo.successor])) in
  View.metaEl w' = (5%nat, 1%nat)
  /\ exists top, In top [Demo.first; Demo.successor]
                 /\ View.titleEl w' = Types.title top
                 /\ ES.keyOrder (fun s => @dateValue Demo.isoParser (Types.createdAt s))
                      top Demo.first.
Proof.
  destruct (@Origin_render_header Demo.isoParser
              (Demo.worldWith [Demo.first; Demo.successor])) as (_ & _ & Hfound).
  destruct (Hfound {| Types.leaf_id := "leaf-1"; Types.leaf_status := "active";
                      Types.leaf_createdAt := "2024-01-01T09:00:00.000Z" |})
    as (Hmeta & _ & Htop).
  { vm_compute. reflexivity. }
  split; [rewrite Hmeta; vm_compute; reflexivity|].
  assert (Hss : Offer.leafSprouts (Demo.worldWith [Demo.first; Demo.successor])
                = [Demo.first; Demo.successor]) by (vm_compute; reflexivity).
  rewrite Hss in Htop.
  destruct Htop as (top & Hin & Htitle & Hnewest).
  { discriminate. }
  { repeat constructor; vm_compute; discriminate. }
  exists top. split; [exact Hin|]. split.
  - rewrite Htitle. destruct Hin as [<-|[<-|[]]]; reflexivity.
  - apply Hnewest. left. reflexivity.
Defined.

Lemma Origin_open_close_witness :
  let p := {| LeafViewApi.world :=
                snd (@LeafViewOrigin.render Demo.isoParser
                       (Demo.worldWith [Demo.first; Demo.successor]));
              LeafViewApi.isOpenClass := false |} in
  let opened := snd (@LeafViewOriginApi.open Demo.isoParser "leaf-9" "twig-1" p) in
  LeafViewApi.isOpenClass opened = true
  /\ View.currentLeafId (LeafViewApi.world opened) = Some "leaf-9"
  /\ View.titleEl (LeafViewApi.world opened) = "Run 10k"
  /\ View.logEl (LeafViewApi.world opened) = View.logEl (LeafViewApi.world p).
Proof.
  destruct (@Origin_open_close Demo.utcZone Demo.isoParser Demo.api
              {| LeafViewApi.world :=
                   snd (@LeafViewOrigin.render Demo.isoParser
                          (Demo.worldWith [Demo.first; Demo.successor]));
                 LeafViewApi.isOpenClass := false |} "leaf-9" "twig-1")
    as ((_ & Hopen & _ & Hleaf & _ & _ & _ & _ & Hstale) & _).
  destruct Hstale as (Hlog & Htitle & _); [vm_compute; reflexivity|].
  split; [exact Hopen|]. split; [exact Hleaf|].
  split; [rewrite Htitle; vm_compute; reflexivity|exact Hlog].
Defined.

Lemma formatDateTime_buckets_witness :
  @LeafViewApi.formatDateTime Demo.isoParser 1709294400000 "2024-02-29T13:00:00.000Z"
  = LeafViewApi.LocaleTime 1709211600000
  /\ @LeafViewApi.formatDateTime Demo.isoParser 1709294400000 "2024-02-29T11:00:00.000Z"
     = LeafViewApi.Yesterday
  /\ @LeafViewApi.formatDateTime Demo.isoParser 1709294400000 "2024-03-01T12:00:01.000Z"
     = LeafViewApi.DaysAgo (-1).
Proof.
  split; [|split].
  - destruct (@formatDateTime_buckets Demo.isoParser 1709294400000
                "2024-02-29T13:00:00.000Z") as [_ H].
    destruct (H 1709211600000) as (Hday & _).
    + vm_compute. reflexivity.
    + vm_compute. reflexivity.
    + apply Hday. vm_compute. split; [discriminate|reflexivity].
  - destruct (@formatDateTime_buckets Demo.isoParser 1709294400000
                "2024-02-29T11:00:00.000Z") as [_ H].
    destruct (H 1709204400000) as (_ & Hyesterday & _).
    + vm_compute. reflexivity.
    + vm_compute. reflexivity.
    + apply Hyesterday. vm_compute. split; [discriminate|reflexivity].
  - destruct (@formatDateTime_buckets Demo.isoParser 1709294400000
                "2024-03-01T12:00:01.000Z") as [_ H].
    destruct (H 1709294401000) as (_ & _ & _ & _ & Hfuture).
    + vm_compute. reflexivity.
    + vm_compute. reflexivity.
    + apply (Hfuture 1). { vm_compute. discriminate. }
      vm_compute. split; [discriminate|reflexivity].
Defined.

Lemma render_shows_witness :
  Markup.inert (Offer.leafSprouts (Demo.worldWith [Demo.first]))
  /\ Offer.offersGraftSection
       (View.logEl (snd (@LeafView.render Demo.isoParser (Demo.worldWith [Demo.first]))))
  /\ Markup.inert (Offer.leafSprouts (Demo.worldWith [Demo.first; Demo.successor]))
  /\ ~ Offer.offersGraftSection
         (View.logEl (snd (@LeafView.render Demo.isoParser
                             (Demo.worldWith [Demo.first; Demo.successor])))).
Proof.
  assert (H1 : Markup.inert (Offer.leafSprouts (Demo.worldWith [Demo.first]))).
  { unfold Markup.inert. vm_compute. repeat constructor. }
  assert (H2 : Markup.inert
                 (Offer.leafSprouts (Demo.worldWith [Demo.first; Demo.successor]))).
  { unfold Markup.inert. vm_compute. repeat constructor. }
  split; [exact H1|]. split; [|split; [exact H2|]].
  - destruct (@render_shows Demo.isoParser (Demo.worldWith [Demo.first]))
      as (_ & _ & Hinert).
    apply (proj1 (Hinert H1)). split.
    + vm_compute. discriminate.
    + vm_compute. repeat constructor; discriminate.
  - destruct (@render_shows Demo.isoParser (Demo.worldWith [Demo.first; Demo.successor]))
      as (_ & _ & Hinert).
    intros Hoffer. apply (proj1 (Hinert H2)) in Hoffer as [_ Hall].
    rewrite List.Forall_forall in Hall.
    apply (Hall Demo.successor); [vm_compute; right; left; reflexivity|reflexivity].
Defined.
